(** * Drone-Sim: the flight physics and collision step of [components/Drone.tsx]

    The per-frame callback registered with [useFrame] is embedded as a pure
    function from the component's refs (position, velocity, rotation,
    throttle, isCrashed, lastStatsUpdate) and the frame's inputs to the new
    refs and the list of callbacks invoked during the frame.

    Numbers.  A JavaScript number is modelled as a real number or [NaN]:
    arithmetic on [NaN] yields [NaN] and every comparison with [NaN] is
    false, as in the language.  Rounding and the two infinities of IEEE
    binary64 are abstracted away: the arithmetic of finite numbers is the
    exact arithmetic of [R].

    Around the frame callback, the development embeds the key and mouse
    handlers of the component, the world generation and the mission handlers
    of [App.tsx], [handleGenerate] of [components/MissionControl.tsx] and the
    values computed by [components/HUD.tsx]; [Math.random()] is a parameter
    of the definitions that call it. *)

From Stdlib Require Import Reals Lra Psatz List Bool String.
From Stdlib Require Import ZArith RNsatz.
Import ListNotations.
Open Scope R_scope.
Open Scope string_scope.
Open Scope list_scope.

(* ================================================================= *)
(** ** JavaScript numbers *)

Inductive num : Type :=
| NaN
| Num (r : R).

Definition isNaN (a : num) : bool :=
  match a with NaN => true | Num _ => false end.

Definition Rltb (a b : R) : bool := if Rlt_dec a b then true else false.

Definition lift1 (f : R -> R) (a : num) : num :=
  match a with Num u => Num (f u) | NaN => NaN end.

Definition lift2 (f : R -> R -> R) (a b : num) : num :=
  match a, b with Num u, Num v => Num (f u v) | _, _ => NaN end.

Definition nadd : num -> num -> num := lift2 Rplus.
Definition nsub : num -> num -> num := lift2 Rminus.
Definition nmul : num -> num -> num := lift2 Rmult.
(** Every division of the step has a non-zero divisor (a literal [2], or a
    vector length replaced by [1] when it is zero). *)
Definition ndiv : num -> num -> num := lift2 Rdiv.
Definition nneg : num -> num := lift1 Ropp.

(** [a < b] and [a > b]: false as soon as one side is [NaN]. *)
Definition nlt (a b : num) : bool :=
  match a, b with Num u, Num v => Rltb u v | _, _ => false end.
Definition ngt (a b : num) : bool := nlt b a.

(** Truthiness of a number, and [a || b] on numbers. *)
Definition truthy (a : num) : bool :=
  match a with
  | NaN => false
  | Num u => if Req_dec_T u 0 then false else true
  end.
Definition nor (a b : num) : num := if truthy a then a else b.

Declare Scope js_scope.
Delimit Scope js_scope with js.
Bind Scope js_scope with num.
Infix "+" := nadd : js_scope.
Infix "-" := nsub : js_scope.
Infix "*" := nmul : js_scope.
Infix "/" := ndiv : js_scope.
Infix "<?" := nlt (at level 70, no associativity) : js_scope.
Infix ">?" := ngt (at level 70, no associativity) : js_scope.

Module Math.
Definition min (a b : num) : num := lift2 Rmin a b.
Definition max (a b : num) : num := lift2 Rmax a b.
Definition abs (a : num) : num := lift1 Rabs a.
Definition sqrt (a : num) : num :=
  match a with
  | Num u => if Rlt_dec u 0 then NaN else Num (R_sqrt.sqrt u)
  | NaN => NaN
  end.
(** [Math.pow(a, n)] for a literal natural exponent. *)
Definition pow (a : num) (n : nat) : num := lift1 (fun u => u ^ n) a.
Definition sin (a : num) : num := lift1 Rtrigo_def.sin a.
Definition cos (a : num) : num := lift1 Rtrigo_def.cos a.
End Math.

(* ================================================================= *)
(** ** The three.js values the step uses

    [Euler], [Quaternion], [Vector3] and [MathUtils.lerp] belong to the
    three.js library; the methods below follow the library's definitions
    (Euler order 'YXZ', as the component constructs it). *)

Module MathUtils.
Definition lerp (a b t : num) : num := ((Num 1 - t) * a + t * b)%js.
End MathUtils.

Module Euler.
Record t : Type := mk { x : num; y : num; z : num }.
End Euler.

Module Quaternion.
Record t : Type := mk { x : num; y : num; z : num; w : num }.

Definition setFromEuler (e : Euler.t) : t :=
  let c1 := Math.cos (Euler.x e / Num 2)%js in
  let c2 := Math.cos (Euler.y e / Num 2)%js in
  let c3 := Math.cos (Euler.z e / Num 2)%js in
  let s1 := Math.sin (Euler.x e / Num 2)%js in
  let s2 := Math.sin (Euler.y e / Num 2)%js in
  let s3 := Math.sin (Euler.z e / Num 2)%js in
  mk (s1 * c2 * c3 + c1 * s2 * s3)%js
     (c1 * s2 * c3 - s1 * c2 * s3)%js
     (c1 * c2 * s3 - s1 * s2 * c3)%js
     (c1 * c2 * c3 + s1 * s2 * s3)%js.
End Quaternion.

Module Vector3.
Record t : Type := mk { x : num; y : num; z : num }.

Definition add (v u : t) : t :=
  mk (x v + x u)%js (y v + y u)%js (z v + z u)%js.
Definition sub (v u : t) : t :=
  mk (x v - x u)%js (y v - y u)%js (z v - z u)%js.
Definition addVectors (a b : t) : t := add a b.
Definition multiplyScalar (v : t) (s : num) : t :=
  mk (x v * s)%js (y v * s)%js (z v * s)%js.
Definition divideScalar (v : t) (s : num) : t :=
  multiplyScalar v (Num 1 / s)%js.
Definition lengthSq (v : t) : num :=
  (x v * x v + y v * y v + z v * z v)%js.
Definition length (v : t) : num := Math.sqrt (lengthSq v).
Definition normalize (v : t) : t := divideScalar v (nor (length v) (Num 1)).
Definition distanceToSquared (v u : t) : num :=
  let dx := (x v - x u)%js in
  let dy := (y v - y u)%js in
  let dz := (z v - z u)%js in
  (dx * dx + dy * dy + dz * dz)%js.
Definition distanceTo (v u : t) : num := Math.sqrt (distanceToSquared v u).

Definition applyQuaternion (v : t) (q : Quaternion.t) : t :=
  let vx := x v in let vy := y v in let vz := z v in
  let qx := Quaternion.x q in let qy := Quaternion.y q in
  let qz := Quaternion.z q in let qw := Quaternion.w q in
  let tx := (Num 2 * (qy * vz - qz * vy))%js in
  let ty := (Num 2 * (qz * vx - qx * vz))%js in
  let tz := (Num 2 * (qx * vy - qy * vx))%js in
  mk (vx + qw * tx + qy * tz - qz * ty)%js
     (vy + qw * ty + qz * tx - qx * tz)%js
     (vz + qw * tz + qx * ty - qy * tx)%js.
End Vector3.

(* ================================================================= *)
(** ** types.ts *)

Inductive ObstacleType : Type := building | tree.

Definition triple : Type := (num * num * num)%type.
Definition at0 (a : triple) : num := fst (fst a).
Definition at1 (a : triple) : num := snd (fst a).
Definition at2 (a : triple) : num := snd a.

Module Obstacle.
Record t : Type := mk { type : ObstacleType; position : triple; size : triple }.
End Obstacle.

Inductive Status : Type := FLYING | CRASHED | LANDED.

Module DroneState.
Record t : Type := mk {
  position : Vector3.t;
  velocity : Vector3.t;
  rotation : Euler.t;
  throttle : num;
  battery : num;
  status : Status;
  distanceToObjective : option num
}.
End DroneState.

(* ================================================================= *)
(** ** components/Drone.tsx *)

Definition GRAVITY : num := Num 25.
Definition THRUST_POWER : num := Num 65.
Definition DRAG : num := Num 0.98.
Definition ROTATION_SPEED : num := Num 2.5.
Definition TILT_SPEED : num := Num 3.0.
Definition MAX_TILT : num := Num 0.6.
Definition HOVER_THROTTLE : num := Num 0.40.
Definition DRONE_RADIUS : num := Num 0.5.
Definition PROP_COLLISION_RADIUS : num := Num 0.15.
Definition THROTTLE_RESPONSE_SPEED : num := Num 2.0.

Definition PROP_OFFSETS : list Vector3.t :=
  [ Vector3.mk (Num 0.8) (Num 0) (Num 0.8);
    Vector3.mk (Num (-0.8)) (Num 0) (Num 0.8);
    Vector3.mk (Num 0.8) (Num 0) (Num (-0.8));
    Vector3.mk (Num (-0.8)) (Num 0) (Num (-0.8)) ].

(** The refs of the component that the frame callback reads and writes. *)
Record Refs : Type := mkRefs {
  position : Vector3.t;
  velocity : Vector3.t;
  rotation : Euler.t;
  throttle : num;
  isCrashed : bool;
  lastStatsUpdate : num
}.

(** The refs as [useRef] initialises them. *)
Definition initialRefs : Refs :=
  mkRefs (Vector3.mk (Num 0) (Num 2) (Num 0))
         (Vector3.mk (Num 0) (Num 0) (Num 0))
         (Euler.mk (Num 0) (Num 0) (Num 0))
         (Num 0) false (Num 0).

(** [keys.current]: a key code that was never pressed reads [undefined],
    which is falsy. *)
Definition Keys : Type := string -> bool.

Definition noKeys : Keys := fun _ => false.
Definition handleKeyDown (code : string) (keys : Keys) : Keys :=
  fun c => if String.eqb c code then true else keys c.
Definition handleKeyUp (code : string) (keys : Keys) : Keys :=
  fun c => if String.eqb c code then false else keys c.

(** The callbacks a frame may invoke, in invocation order. *)
Inductive Event : Type :=
| onUpdateStats (stats : DroneState.t)
| onObjectiveReached.

Definition vec (a : triple) : Vector3.t := Vector3.mk (at0 a) (at1 a) (at2 a).

(** *** 1. Inputs *)

Definition yawInput (keys : Keys) (dt yaw : num) : num :=
  let yaw1 := if keys "ArrowLeft" || keys "KeyQ"
              then (yaw + ROTATION_SPEED * dt)%js else yaw in
  if keys "ArrowRight" || keys "KeyE"
  then (yaw1 - ROTATION_SPEED * dt)%js else yaw1.

Definition throttleInput (keys : Keys) (dt th : num) : num :=
  if keys "ArrowUp" || keys "Space"
  then Math.min (th + dt * THROTTLE_RESPONSE_SPEED)%js (Num 1)
  else if keys "ArrowDown" || keys "ShiftLeft" || keys "ShiftRight"
  then Math.max (th - dt * THROTTLE_RESPONSE_SPEED)%js (Num 0)
  else th.

Definition targetPitch (keys : Keys) : num :=
  let p := if keys "KeyW" then nneg MAX_TILT else Num 0 in
  if keys "KeyS" then MAX_TILT else p.

Definition targetRoll (keys : Keys) : num :=
  let r := if keys "KeyD" then nneg MAX_TILT else Num 0 in
  if keys "KeyA" then MAX_TILT else r.

Definition isMovingInput (keys : Keys) : bool :=
  keys "KeyW" || keys "KeyS" || keys "KeyA" || keys "KeyD".

Definition takeoffAssist (keys : Keys) (altitude dt th : num) : num :=
  if isMovingInput keys && (altitude <? Num 1.0)%js && (th <? HOVER_THROTTLE)%js
  then MathUtils.lerp th (HOVER_THROTTLE + Num 0.05)%js (dt * Num 3)%js
  else th.

(** The throttle after the input section of a flying frame. *)
Definition throttleAfterInputs (keys : Keys) (dt : num) (s : Refs) : num :=
  takeoffAssist keys (Vector3.y (position s)) dt (throttleInput keys dt (throttle s)).

(** The rotation after the input section: yaw integrated, pitch and roll
    smoothed toward their targets. *)
Definition rotationAfterInputs (keys : Keys) (dt : num) (s : Refs) : Euler.t :=
  Euler.mk
    (MathUtils.lerp (Euler.x (rotation s)) (targetPitch keys) (dt * TILT_SPEED)%js)
    (yawInput keys dt (Euler.y (rotation s)))
    (MathUtils.lerp (Euler.z (rotation s)) (targetRoll keys) (dt * TILT_SPEED)%js).

(** *** 2. Physics *)

Definition integrateVelocity (quat : Quaternion.t) (th dt : num) (v : Vector3.t)
  : Vector3.t :=
  let upVector := Vector3.applyQuaternion (Vector3.mk (Num 0) (Num 1) (Num 0)) quat in
  let thrustForce := Vector3.multiplyScalar upVector (th * THRUST_POWER)%js in
  let gravityForce := Vector3.mk (Num 0) (nneg GRAVITY) (Num 0) in
  let acceleration := Vector3.addVectors thrustForce gravityForce in
  Vector3.multiplyScalar
    (Vector3.add v (Vector3.multiplyScalar acceleration dt)) DRAG.

Definition predictPosition (p v : Vector3.t) (dt : num) : Vector3.t :=
  Vector3.add p (Vector3.multiplyScalar v dt).

(** *** 3. Collision detection *)

(** 3a. Ground contact of the centre body. *)
Definition groundContact (next : Vector3.t) : bool :=
  (Vector3.y next <? Num 0.5)%js.

Definition groundPosition (next : Vector3.t) : Vector3.t :=
  if groundContact next
  then Vector3.mk (Vector3.x next) (Num 0.5) (Vector3.z next)
  else next.

Definition groundVelocity (next v : Vector3.t) : Vector3.t :=
  if groundContact next
  then Vector3.mk (Vector3.x v * Num 0.8)%js (Num 0) (Vector3.z v * Num 0.8)%js
  else v.

Definition groundRotation (keys : Keys) (dt : num) (next : Vector3.t) (r : Euler.t)
  : Euler.t :=
  if groundContact next && negb (isMovingInput keys)
  then Euler.mk (MathUtils.lerp (Euler.x r) (Num 0) (dt * Num 5)%js)
                (Euler.y r)
                (MathUtils.lerp (Euler.z r) (Num 0) (dt * Num 5)%js)
  else r.

(** The hard-landing check reads [velocity.current.y] after the ground
    branch has assigned it. *)
Definition hardLanding (next v : Vector3.t) : bool :=
  groundContact next && (Math.abs (Vector3.y (groundVelocity next v)) >? Num 10)%js.

(** 3b. Propeller world positions. *)
Definition propPoints (quat : Quaternion.t) (next : Vector3.t) : list Vector3.t :=
  map (fun offset => Vector3.add (Vector3.applyQuaternion offset quat) next)
      PROP_OFFSETS.

(** 3c. A propeller below the hard threshold. *)
Definition propGroundHit (props : list Vector3.t) : bool :=
  existsb (fun p => (Vector3.y p <? Num 0.1)%js) props.

(** 3d. Obstacles: centre and four propellers. *)
Definition checkPoints (next : Vector3.t) (props : list Vector3.t)
  : list (Vector3.t * num) :=
  (next, DRONE_RADIUS) :: map (fun p => (p, PROP_COLLISION_RADIUS)) props.

Definition buildingHit (obs : Obstacle.t) (point : Vector3.t) (radius : num) : bool :=
  let halfW := (at0 (Obstacle.size obs) / Num 2 + radius)%js in
  let halfH := (at1 (Obstacle.size obs) / Num 2 + radius)%js in
  let halfD := (at2 (Obstacle.size obs) / Num 2 + radius)%js in
  let dx := Math.abs (Vector3.x point - at0 (Obstacle.position obs))%js in
  let dy := Math.abs (Vector3.y point - at1 (Obstacle.position obs))%js in
  let dz := Math.abs (Vector3.z point - at2 (Obstacle.position obs))%js in
  (dx <? halfW)%js && (dy <? halfH)%js && (dz <? halfD)%js.

Definition treeHit (obs : Obstacle.t) (point : Vector3.t) (radius : num) : bool :=
  let treeRadius := (Num 1.5 + radius)%js in
  let dist :=
    Math.sqrt (Math.pow (Vector3.x point - at0 (Obstacle.position obs))%js 2
               + Math.pow (Vector3.z point - at2 (Obstacle.position obs))%js 2)%js in
  (dist <? treeRadius)%js && (Vector3.y point <? at1 (Obstacle.size obs))%js.

Definition obstacleHit (obs : Obstacle.t) (cp : Vector3.t * num) : bool :=
  match Obstacle.type obs with
  | building => buildingHit obs (fst cp) (snd cp)
  | tree => treeHit obs (fst cp) (snd cp)
  end.

(** The two nested loops leave at the first hit; their bodies only read, so
    the flag they compute is the disjunction over all pairs. *)
Definition obstacleScan (obstacles : list Obstacle.t)
           (points : list (Vector3.t * num)) : bool :=
  existsb (fun obs => existsb (obstacleHit obs) points) obstacles.

(** The [collision] flag once sections 3a to 3d have run; [collision0] is the
    flag the hard-landing check left. *)
Definition detectCollision (obstacles : list Obstacle.t) (quat : Quaternion.t)
           (next : Vector3.t) (collision0 : bool) : bool :=
  let props := propPoints quat next in
  let collision1 := if negb collision0 then propGroundHit props else collision0 in
  if negb collision1 then obstacleScan obstacles (checkPoints next props)
  else collision1.

(** The position written on the crash transition. *)
Definition pushback (p v : Vector3.t) : Vector3.t :=
  if (Vector3.lengthSq v >? Num 0.1)%js
  then Vector3.sub p (Vector3.multiplyScalar (Vector3.normalize v) (Num 1.5))
  else Vector3.mk (Vector3.x p) (Vector3.y p + Num 0.5)%js (Vector3.z p).

Definition crashedStats (p v : Vector3.t) (r : Euler.t) : DroneState.t :=
  DroneState.mk p v r (Num 0) (Num 0) CRASHED None.

(** *** 4. Objective *)

Definition distanceToObj (objectivePosition : option triple) (p : Vector3.t)
  : option num :=
  match objectivePosition with
  | Some o => Some (Vector3.distanceTo p (vec o))
  | None => None
  end.

Definition objectiveSignal (d : option num) : list Event :=
  match d with
  | Some dist => if (dist <? Num 4.0)%js then [onObjectiveReached] else []
  | None => []
  end.

(** *** The crashed branch of the frame *)

Definition crashedFrame (dt now : num) (s : Refs) : Refs * list Event :=
  let v := velocity s in
  let v1 := Vector3.mk (Vector3.x v) (Vector3.y v - GRAVITY * dt)%js (Vector3.z v) in
  let p1 := Vector3.add (position s) (Vector3.multiplyScalar v1 dt) in
  let floor := (Vector3.y p1 <? Num 0.2)%js in
  let p2 := if floor then Vector3.mk (Vector3.x p1) (Num 0.2) (Vector3.z p1) else p1 in
  let v2 := if floor then Vector3.mk (Num 0) (Num 0) (Num 0) else v1 in
  if (now - lastStatsUpdate s >? Num 0.1)%js
  then (mkRefs p2 v2 (rotation s) (throttle s) (isCrashed s) now,
        [onUpdateStats (crashedStats p2 v2 (rotation s))])
  else (mkRefs p2 v2 (rotation s) (throttle s) (isCrashed s) (lastStatsUpdate s), []).

(** *** The flying branch of the frame *)

Definition flyingFrame (keys : Keys) (obstacles : list Obstacle.t)
           (objectivePosition : option triple) (dt now : num) (s : Refs)
  : Refs * list Event :=
  let th := throttleAfterInputs keys dt s in
  let rot := rotationAfterInputs keys dt s in
  let quat := Quaternion.setFromEuler rot in
  let v1 := integrateVelocity quat th dt (velocity s) in
  let next0 := predictPosition (position s) v1 dt in
  let nextPosition := groundPosition next0 in
  let v2 := groundVelocity next0 v1 in
  let rot2 := groundRotation keys dt next0 rot in
  let hard := hardLanding next0 v1 in
  let crashed1 := if hard then true else isCrashed s in
  let collision := detectCollision obstacles quat nextPosition hard in
  if collision && negb crashed1 then
    let p := pushback (position s) v2 in
    let v := Vector3.mk (Num 0) (Num 0) (Num 0) in
    (mkRefs p v rot2 th true (lastStatsUpdate s),
     [onUpdateStats (crashedStats p v rot2)])
  else
    let d := distanceToObj objectivePosition nextPosition in
    let reached := objectiveSignal d in
    if (now - lastStatsUpdate s >? Num 0.1)%js
    then (mkRefs nextPosition v2 rot2 th crashed1 now,
          reached ++ [onUpdateStats
                        (DroneState.mk nextPosition v2 rot2 th (Num 85) FLYING d)])
    else (mkRefs nextPosition v2 rot2 th crashed1 (lastStatsUpdate s), reached).

(** Names for the intermediate values of a flying frame: the attitude
    quaternion, the velocity after integration and drag, the candidate
    position before and after the ground clamp, the five collision points and
    the [collision] flag. *)
Definition frameQuat (keys : Keys) (dt : num) (s : Refs) : Quaternion.t :=
  Quaternion.setFromEuler (rotationAfterInputs keys dt s).

Definition frameVelocity (keys : Keys) (dt : num) (s : Refs) : Vector3.t :=
  integrateVelocity (frameQuat keys dt s) (throttleAfterInputs keys dt s) dt
                    (velocity s).

Definition candidate (keys : Keys) (dt : num) (s : Refs) : Vector3.t :=
  predictPosition (position s) (frameVelocity keys dt s) dt.

Definition nextPosition (keys : Keys) (dt : num) (s : Refs) : Vector3.t :=
  groundPosition (candidate keys dt s).

Definition contactVelocity (keys : Keys) (dt : num) (s : Refs) : Vector3.t :=
  groundVelocity (candidate keys dt s) (frameVelocity keys dt s).

Definition frameCheckPoints (keys : Keys) (dt : num) (s : Refs)
  : list (Vector3.t * num) :=
  checkPoints (nextPosition keys dt s)
              (propPoints (frameQuat keys dt s) (nextPosition keys dt s)).

Definition frameCollision (keys : Keys) (obstacles : list Obstacle.t)
           (dt : num) (s : Refs) : bool :=
  detectCollision obstacles (frameQuat keys dt s) (nextPosition keys dt s)
                  (hardLanding (candidate keys dt s) (frameVelocity keys dt s)).

(** *** The frame callback *)

(** [dt = Math.min(delta, 0.1)]. *)
Definition clampDelta (delta : num) : num := Math.min delta (Num 0.1).

(** The NaN guard: only the [x] components are tested. *)
Definition nanGuard (s : Refs) : Refs :=
  let p := if isNaN (Vector3.x (position s))
           then Vector3.mk (Num 0) (Num 5) (Num 0) else position s in
  let v := if isNaN (Vector3.x (velocity s))
           then Vector3.mk (Num 0) (Num 0) (Num 0) else velocity s in
  mkRefs p v (rotation s) (throttle s) (isCrashed s) (lastStatsUpdate s).

(** The frame from the clamped time on. *)
Definition frameWith (keys : Keys) (obstacles : list Obstacle.t)
           (objectivePosition : option triple) (dt now : num) (s : Refs)
  : Refs * list Event :=
  let s1 := nanGuard s in
  if isCrashed s1 then crashedFrame dt now s1
  else flyingFrame keys obstacles objectivePosition dt now s1.

(** [droneRef] tells whether [droneRef.current] is set; the camera follow and
    the propeller spin write to the scene only and are left out. *)
Definition useFrame (droneRef : bool) (keys : Keys) (obstacles : list Obstacle.t)
           (objectivePosition : option triple) (now delta : num) (s : Refs)
  : Refs * list Event :=
  if negb droneRef then (s, [])
  else frameWith keys obstacles objectivePosition (clampDelta delta) now s.

(** *** A session: the frames the render loop delivers *)

Record Frame : Type := mkFrame {
  droneRef : bool;
  keys : Keys;
  obstacles : list Obstacle.t;
  objectivePosition : option triple;
  now : num;
  delta : num
}.

Definition step (f : Frame) (s : Refs) : Refs * list Event :=
  useFrame (droneRef f) (keys f) (obstacles f) (objectivePosition f)
           (now f) (delta f) s.

Fixpoint run (fs : list Frame) (s : Refs) : Refs * list Event :=
  match fs with
  | [] => (s, [])
  | f :: fs' =>
      let '(s1, e1) := step f s in
      let '(s2, e2) := run fs' s1 in
      (s2, e1 ++ e2)
  end.

Definition isReached (e : Event) : bool :=
  match e with onObjectiveReached => true | onUpdateStats _ => false end.

(** How many times [onObjectiveReached] was invoked. *)
Definition reachedCount (es : list Event) : nat :=
  List.length (filter isReached es).

(** [handleObjectiveReached] of the App component, on its [missionComplete]
    state. *)
Definition handleObjectiveReached (missionComplete : bool) : bool :=
  if negb missionComplete then true else missionComplete.

(* ================================================================= *)
(** ** Predicates, named quantities and sample states of the statements *)

(** A throttle value inside the unit interval. *)
Definition inUnit (a : num) : Prop :=
  match a with Num u => 0 <= u <= 1 | NaN => False end.

(** A wreck lying on the floor. *)
Definition wreck : Refs :=
  mkRefs (Vector3.mk (Num 3) (Num 0.2) (Num 4))
         (Vector3.mk (Num 0) (Num 0) (Num 0))
         (Euler.mk (Num 0) (Num 0) (Num 0))
         (Num 0) true (Num 0).

Definition upKeys : Keys := handleKeyDown "ArrowUp" noKeys.

Definition level : Euler.t := Euler.mk (Num 0) (Num 0) (Num 0).

Definition qid : Quaternion.t := Quaternion.mk (Num 0) (Num 0) (Num 0) (Num 1).

(** Falling at 60 units per second from altitude 5 with the throttle at 0. *)
Definition plunging : Refs :=
  mkRefs (Vector3.mk (Num 0) (Num 5) (Num 0))
         (Vector3.mk (Num 0) (Num (-60)) (Num 0))
         level (Num 0) false (Num 0).

Definition plungeFrame : Refs * list Event :=
  useFrame true noKeys [] None (Num 1) (Num 0.1) plunging.

(** The initial refs with the altitude, respectively the velocity along [z],
    corrupted. *)
Definition nanAltitude : Refs :=
  mkRefs (Vector3.mk (Num 0) NaN (Num 0)) (velocity initialRefs)
         (rotation initialRefs) (throttle initialRefs) false (Num 0).

Definition nanDrift : Refs :=
  mkRefs (position initialRefs) (Vector3.mk (Num 0) (Num 0) NaN)
         (rotation initialRefs) (throttle initialRefs) false (Num 0).

Definition treeAt (ox oy oz w h dp : R) : Obstacle.t :=
  Obstacle.mk tree (Num ox, Num oy, Num oz) (Num w, Num h, Num dp).

Definition pt (a b c : R) : Vector3.t := Vector3.mk (Num a) (Num b) (Num c).

Definition oak : Obstacle.t := treeAt 1 0 0 1.5 4 1.5.

Definition buildingAt (ox oy oz w h dp : R) : Obstacle.t :=
  Obstacle.mk building (Num ox, Num oy, Num oz) (Num w, Num h, Num dp).

Definition speedSq (vx vy vz : R) : R := vx * vx + vy * vy + vz * vz.

(** A building standing over the spawn point. *)
Definition tower : Obstacle.t := buildingAt 0 10 0 10 20 10.

(** The number of invocations the objective logic makes for a committed
    position: one when an objective is set and closer than [4.0], none
    otherwise. *)
Definition signalsAt (objective : option triple) (p : Vector3.t) : nat :=
  match objective with
  | Some o => if (Vector3.distanceTo p (vec o) <? Num 4.0)%js then 1%nat else 0%nat
  | None => 0%nat
  end.

(** A frame of 16 ms with no key held, no obstacle, and the objective at the
    spawn point. *)
Definition nearFrame : Frame :=
  mkFrame true noKeys [] (Some (Num 0, Num 2, Num 0)) (Num 0) (Num 0.016).

(** The horizontal components of position and velocity. *)
Definition horizontal (s : Refs) : num * num * num * num :=
  (Vector3.x (position s), Vector3.z (position s),
   Vector3.x (velocity s), Vector3.z (velocity s)).

(** The state the crash transition leaves: crashed, no horizontal velocity,
    and a numeric [position.x] (so that the guard keeps the position). *)
Definition latched (s : Refs) : Prop :=
  isCrashed s = true /\
  Vector3.x (velocity s) = Num 0 /\
  Vector3.z (velocity s) = Num 0 /\
  isNaN (Vector3.x (position s)) = false.

(** The frame's elapsed time is a number. *)
Definition timed (f : Frame) : Prop := isNaN (delta f) = false.

Definition towerFrame : Frame :=
  mkFrame true noKeys [tower] None (Num 0) (Num 0.016).

(** Refs all of whose numbers are numbers. *)
Definition numericRefs (px py pz vx vy vz rx ry rz t : R) (c : bool) (l : num) : Refs :=
  mkRefs (pt px py pz) (pt vx vy vz) (Euler.mk (Num rx) (Num ry) (Num rz))
         (Num t) c l.

(** Level and at rest at altitude 5, above the height of [oak] and inside
    its radius. *)
Definition overOak : Refs :=
  mkRefs (pt 0 5 0) (pt 0 0 0) level (Num 0) false (Num 0).

(** Level flight at altitude 2 with one unit per second of speed along [x]. *)
Definition drifting : Refs := numericRefs 0 2 0 1 0 0 0 0 0 0 false (Num 0).

Definition zeroFrame (s : Refs) : Refs :=
  fst (useFrame true noKeys [] None (Num 0) (Num 0) s).

(* ================================================================= *)
(** ** components/Drone.tsx: the input handlers *)

(** The two keyboard listeners registered on the window.  The call of
    [preventDefault] in [handleKeyDown] acts on the browser only and is left
    out. *)
Inductive KeyboardEvent : Type :=
| keydown (code : string)
| keyup (code : string).

Definition eventCode (e : KeyboardEvent) : string :=
  match e with keydown c => c | keyup c => c end.

Definition dispatchKey (e : KeyboardEvent) (keys : Keys) : Keys :=
  match e with
  | keydown c => handleKeyDown c keys
  | keyup c => handleKeyUp c keys
  end.

Definition dispatchKeys (es : list KeyboardEvent) (keys : Keys) : Keys :=
  fold_left (fun k e => dispatchKey e k) es keys.

(** [cameraOrbit.current]: azimuth and elevation of the follow camera. *)
Record CameraOrbit : Type := mkOrbit { theta : num; phi : num }.

Definition initialOrbit : CameraOrbit := mkOrbit (Num 0) (Num 0.2).

(** [onMouseMove]; [locked] tells whether the pointer is locked on the
    canvas. *)
Definition onMouseMove (locked : bool) (movementX movementY : num)
           (o : CameraOrbit) : CameraOrbit :=
  if locked then
    let theta1 := (theta o - movementX * Num 0.005)%js in
    let phi1 := (phi o - movementY * Num 0.005)%js in
    mkOrbit theta1 (Math.max (Num (-0.5)) (Math.min (Num 1.2) phi1))
  else o.

Record MouseEvent : Type := mkMouse {
  pointerLocked : bool;
  movementX : num;
  movementY : num
}.

Definition dispatchMouse (es : list MouseEvent) (o : CameraOrbit) : CameraOrbit :=
  fold_left (fun acc e => onMouseMove (pointerLocked e) (movementX e) (movementY e) acc)
            es o.

(** The snapshots a list of callbacks carries, in order.  A snapshot object
    is fresh at each call; its [position], [velocity] and [rotation] fields
    are the component's own vectors, recorded here with the values they hold
    at the time of the call. *)
Definition snapshots (es : list Event) : list DroneState.t :=
  flat_map (fun e => match e with
                     | onUpdateStats st => [st]
                     | onObjectiveReached => []
                     end) es.

(** The rate gate of the snapshot: [now - lastStatsUpdate.current > 0.1]. *)
Definition statsGate (now : num) (s : Refs) : bool :=
  (now - lastStatsUpdate s >? Num 0.1)%js.

(* ================================================================= *)
(** ** App.tsx *)

Inductive Difficulty : Type := Easy | Medium | Hard.

Module Mission.
Record t : Type := mk {
  id : string;
  briefing : string;
  objective : string;
  difficulty : Difficulty;
  targetPosition : option triple
}.
End Mission.

(** The four pieces of state of the App component. *)
Record AppState : Type := mkApp {
  droneStats : option DroneState.t;
  activeMission : option Mission.t;
  objectivePos : option triple;
  missionComplete : bool
}.

Definition initialApp : AppState := mkApp None None None false.

(** The callbacks the App hands to the Drone: [setDroneStats] and
    [handleObjectiveReached]. *)
Definition appEvent (app : AppState) (e : Event) : AppState :=
  match e with
  | onUpdateStats st =>
      mkApp (Some st) (activeMission app) (objectivePos app) (missionComplete app)
  | onObjectiveReached =>
      mkApp (droneStats app) (activeMission app) (objectivePos app)
            (handleObjectiveReached (missionComplete app))
  end.

Definition appEvents (es : list Event) (app : AppState) : AppState :=
  fold_left appEvent es app.

(** [obstacles[i]] for an integer index: [undefined] out of range. *)
Definition arrayAt {A : Type} (l : list A) (i : Z) : option A :=
  if (i <? 0)%Z then None else nth_error l (Z.to_nat i).

(** [handleMissionStart]; [r] is the value [Math.random()] returns.  Reading
    [.position] of an undefined element throws: the result is [None] and no
    state is set. *)
Definition handleMissionStart (r : R) (obstacles : list Obstacle.t)
           (mission : Mission.t) (app : AppState) : option AppState :=
  match arrayAt obstacles (Int_part (r * INR (List.length obstacles))) with
  | None => None
  | Some randomObstacle =>
      let target :=
        (at0 (Obstacle.position randomObstacle),
         (at1 (Obstacle.size randomObstacle) + Num 5)%js,
         at2 (Obstacle.position randomObstacle)) in
      Some (mkApp (droneStats app) (Some mission) (Some target) false)
  end.

(** The world generation of the [useMemo]; [random k] is the value the k-th
    call of [Math.random()] returns, counted from 0 (a building iteration
    makes five calls and a tree iteration two, before any [continue]). *)
Definition buildingStep (random : nat -> R) (items : list Obstacle.t) (i : nat)
  : list Obstacle.t :=
  let width := (Num 5 + Num (random (5 * i)%nat) * Num 10)%js in
  let depth := (Num 5 + Num (random (5 * i + 1)%nat) * Num 10)%js in
  let height := (Num 8 + Num (random (5 * i + 2)%nat) * Num 30)%js in
  let x := ((Num (random (5 * i + 3)%nat) - Num 0.5) * Num 300)%js in
  let z := ((Num (random (5 * i + 4)%nat) - Num 0.5) * Num 300)%js in
  if (Math.abs x <? Num 20)%js && (Math.abs z <? Num 20)%js then items
  else items ++ [Obstacle.mk building (x, (height / Num 2)%js, z)
                                      (width, height, depth)].

(** The overlap test of a tree position against one item. *)
Definition treeCollides (x z : num) (b : Obstacle.t) : bool :=
  match Obstacle.type b with
  | building =>
      (Math.abs (at0 (Obstacle.position b) - x) <? at0 (Obstacle.size b) / Num 2 + Num 3)%js
      && (Math.abs (at2 (Obstacle.position b) - z) <? at2 (Obstacle.size b) / Num 2 + Num 3)%js
  | tree => false
  end.

Definition treeStep (random : nat -> R) (items : list Obstacle.t) (i : nat)
  : list Obstacle.t :=
  let x := ((Num (random (150 + 2 * i)%nat) - Num 0.5) * Num 350)%js in
  let z := ((Num (random (150 + 2 * i + 1)%nat) - Num 0.5) * Num 350)%js in
  if (Math.abs x <? Num 15)%js && (Math.abs z <? Num 15)%js then items
  else
    let colliding := existsb (treeCollides x z) items in
    if negb colliding
    then items ++ [Obstacle.mk tree (x, Num 0, z) (Num 1.5, Num 4, Num 1.5)]
    else items.

Definition generateBuildings (random : nat -> R) : list Obstacle.t :=
  fold_left (buildingStep random) (seq 0 30) [].

Definition generateObstacles (random : nat -> R) : list Obstacle.t :=
  fold_left (treeStep random) (seq 0 100) (generateBuildings random).

(* ================================================================= *)
(** ** components/MissionControl.tsx *)

(** The two pieces of state of the panel. *)
Record ControlState : Type := mkControl { loading : bool; isOpen : bool }.

(** [handleGenerate] once the promise of [generateMission] has settled with
    [mission] (the service catches its own errors and always resolves): the
    call of [onMissionStart] may throw, which skips [setIsOpen(false)]; the
    [finally] block clears [loading] either way. *)
Definition handleGenerate (r : R) (obstacles : list Obstacle.t) (mission : Mission.t)
           (c : ControlState) (a : AppState) : ControlState * AppState :=
  match handleMissionStart r obstacles mission a with
  | Some a' => (mkControl false false, a')
  | None => (mkControl false (isOpen c), a)
  end.

(* ================================================================= *)
(** ** components/HUD.tsx *)

(** [Math.round]: the nearest integer, halves rounded up. *)
Definition Math_round (a : num) : num :=
  lift1 (fun u => IZR (Int_part (u + 0.5))) a.

(** What the HUD renders: nothing, the failure overlay, or the flight
    display with the four values it computes from the snapshot. *)
Inductive HUDView : Type :=
| hudNull
| hudCriticalFailure
| hudFlight (speed altitude throttlePct : num) (isLowThrottle : bool).

Definition HUD (stats : option DroneState.t) : HUDView :=
  match stats with
  | None => hudNull
  | Some st =>
      let v := DroneState.velocity st in
      let speed :=
        (Math.sqrt (Math.pow (Vector3.x v) 2 + Math.pow (Vector3.y v) 2
                    + Math.pow (Vector3.z v) 2) * Num 3.6)%js in
      let altitude := (Vector3.y (DroneState.position st) - Num 0.5)%js in
      let throttlePct := Math_round (DroneState.throttle st * Num 100)%js in
      let isLowThrottle :=
        (DroneState.throttle st <? Num 0.35)%js && (altitude <? Num 1.0)%js in
      match DroneState.status st with
      | CRASHED => hudCriticalFailure
      | _ => hudFlight speed altitude throttlePct isLowThrottle
      end
  end.

(* ================================================================= *)
(** ** Predicates of the further statements *)

(** The camera elevation inside the range of the clamp. *)
Definition inLookRange (a : num) : Prop :=
  match a with Num u => -0.5 <= u <= 1.2 | NaN => False end.



(** A velocity component within the bound the drag keeps. *)
Definition inSpeed (a : num) : Prop :=
  match a with Num u => -441 <= u <= 441 | NaN => False end.

Definition isNumber (a : num) : Prop := isNaN a = false.

Definition numericVector (v : Vector3.t) : Prop :=
  isNumber (Vector3.x v) /\ isNumber (Vector3.y v) /\ isNumber (Vector3.z v).

Definition numericEuler (e : Euler.t) : Prop :=
  isNumber (Euler.x e) /\ isNumber (Euler.y e) /\ isNumber (Euler.z e).

(** Every number of the physics state is a number. *)
Definition numericState (s : Refs) : Prop :=
  numericVector (position s) /\ numericVector (velocity s) /\
  numericEuler (rotation s) /\ isNumber (throttle s).

(** The values [Math.random()] returns. *)
Definition unitRandom (random : nat -> R) : Prop :=
  forall k, 0 <= random k < 1.

(** The placement rules of the world generation. *)
Definition wellPlaced (ob : Obstacle.t) : Prop :=
  exists x y z w h d,
    Obstacle.position ob = (Num x, Num y, Num z) /\
    Obstacle.size ob = (Num w, Num h, Num d) /\
    match Obstacle.type ob with
    | building =>
        (20 <= Rabs x \/ 20 <= Rabs z) /\ Rabs x <= 150 /\ Rabs z <= 150 /\
        y = h / 2 /\ 5 <= w < 15 /\ 8 <= h < 38 /\ 5 <= d < 15
    | tree =>
        (15 <= Rabs x \/ 15 <= Rabs z) /\ Rabs x <= 175 /\ Rabs z <= 175 /\
        y = 0 /\ w = 1.5 /\ h = 4 /\ d = 1.5
    end.

(** A tree [t] stands clear of the item [b]: the overlap test of the world
    generation at the position of [t] is negative for [b]. *)
Definition standsClear (t b : Obstacle.t) : Prop :=
  treeCollides (at0 (Obstacle.position t)) (at2 (Obstacle.position t)) b = false.

(** A source of random numbers that returns the same value each time. *)
Definition constRandom (c : R) : nat -> R := fun _ => c.

(** The building and the tree the generation places when every random number
    is 0.9. *)
Definition farBuilding : Obstacle.t :=
  Obstacle.mk building
    (((Num 0.9 - Num 0.5) * Num 300)%js,
     ((Num 8 + Num 0.9 * Num 30) / Num 2)%js,
     ((Num 0.9 - Num 0.5) * Num 300)%js)
    ((Num 5 + Num 0.9 * Num 10)%js, (Num 8 + Num 0.9 * Num 30)%js,
     (Num 5 + Num 0.9 * Num 10)%js).

Definition farTree : Obstacle.t :=
  Obstacle.mk tree
    (((Num 0.9 - Num 0.5) * Num 350)%js, Num 0, ((Num 0.9 - Num 0.5) * Num 350)%js)
    (Num 1.5, Num 4, Num 1.5).

(** A snapshot of level flight at altitude 1.2 with 30 percent throttle. *)
Definition lowSnapshot : DroneState.t :=
  DroneState.mk (pt 0 1.2 0) (pt 3 0 4) level (Num 0.3) (Num 85) FLYING None.

(** A flying state whose position has lost its x component. *)
Definition lostFix : Refs :=
  mkRefs (Vector3.mk NaN (Num 3) (Num 1)) (pt 0 0 0) level (Num 0) false (Num 0).

(** The three velocity components within the bound the drag keeps. *)
Definition boundedSpeed (v : Vector3.t) : Prop :=
  inSpeed (Vector3.x v) /\ inSpeed (Vector3.y v) /\ inSpeed (Vector3.z v).



(** A level, flying drone on the vertical through the spawn point, with no
    horizontal speed. *)
Definition spawnColumn (s : Refs) : Prop :=
  exists py vy t l, s = mkRefs (pt 0 py 0) (pt 0 vy 0) level (Num t) false l.

(** A frame in the world [world] with no key held and a numeric elapsed
    time. *)
Definition idleIn (world : list Obstacle.t) (f : Frame) : Prop :=
  keys f = noKeys /\ obstacles f = world /\ isNumber (delta f).

(* ================================================================= *)
(** ** Numbers: basic facts *)

Lemma Rltb_true (a b : R) : a < b -> Rltb a b = true.
Proof. intros H; unfold Rltb; destruct (Rlt_dec a b); [reflexivity | contradiction]. Qed.

Lemma Rltb_false (a b : R) : b <= a -> Rltb a b = false.
Proof. intros H; unfold Rltb; destruct (Rlt_dec a b); [lra | reflexivity]. Qed.

Lemma Rltb_spec (a b : R) : Rltb a b = true <-> a < b.
Proof.
  unfold Rltb; destruct (Rlt_dec a b); split; intros; try assumption;
    try reflexivity; try discriminate; contradiction.
Qed.

Lemma nlt_true_inv (a b : num) :
  (a <? b)%js = true -> exists u v, a = Num u /\ b = Num v /\ u < v.
Proof.
  destruct a as [|u], b as [|v]; simpl; try discriminate.
  intros H; exists u, v; repeat split; now apply Rltb_spec.
Qed.

(** Case analysis on the real comparisons, minima, maxima and absolute values
    left in a goal, each case closed by linear arithmetic when it can be. *)
Ltac rcase :=
  repeat match goal with
    | |- context [Rltb ?a ?b] => unfold Rltb
    | |- context [Rlt_dec ?a ?b] => destruct (Rlt_dec a b)
    | |- context [Rmin ?a ?b] => unfold Rmin
    | |- context [Rmax ?a ?b] => unfold Rmax
    | |- context [Rle_dec ?a ?b] => destruct (Rle_dec a b)
    | |- context [Rabs ?a] => unfold Rabs
    | |- context [Rcase_abs ?a] => destruct (Rcase_abs a)
    | H : context [Rmin _ _] |- _ => unfold Rmin in H
    | H : context [Rmax _ _] |- _ => unfold Rmax in H
    | H : context [Rabs _] |- _ => unfold Rabs in H
    | H : context [Rlt_dec ?a ?b] |- _ => destruct (Rlt_dec a b)
    | H : context [Rle_dec ?a ?b] |- _ => destruct (Rle_dec a b)
    | H : context [Rcase_abs ?a] |- _ => destruct (Rcase_abs a)
    end;
  try reflexivity; try discriminate; try lra.

(** Case analysis on the condition of the outermost conditional. *)
Ltac case_if :=
  match goal with
  | |- context [if ?c then _ else _] => destruct c eqn:?
  end.

(* ================================================================= *)
(** ** Projections of the two branches *)

Lemma crashedFrame_isCrashed dt now s :
  isCrashed (fst (crashedFrame dt now s)) = isCrashed s.
Proof. unfold crashedFrame; destruct (_ >? _)%js; reflexivity. Qed.

Lemma crashedFrame_throttle dt now s :
  throttle (fst (crashedFrame dt now s)) = throttle s.
Proof. unfold crashedFrame; destruct (_ >? _)%js; reflexivity. Qed.

Lemma crashedFrame_rotation dt now s :
  rotation (fst (crashedFrame dt now s)) = rotation s.
Proof. unfold crashedFrame; destruct (_ >? _)%js; reflexivity. Qed.

Lemma flyingFrame_throttle keys obstacles objective dt now s :
  throttle (fst (flyingFrame keys obstacles objective dt now s))
  = throttleAfterInputs keys dt s.
Proof.
  unfold flyingFrame.
  destruct (_ && _); [reflexivity|].
  destruct (_ >? _)%js; reflexivity.
Qed.

Lemma nanGuard_isCrashed s : isCrashed (nanGuard s) = isCrashed s.
Proof. reflexivity. Qed.

(** The hard-landing check is made after [velocity.current.y = 0]: it reads
    [Math.abs(0) > 10] and never holds. *)
Lemma hardLanding_never next v : hardLanding next v = false.
Proof.
  unfold hardLanding, groundVelocity.
  destruct (groundContact next); [|reflexivity]; simpl.
  unfold ngt; simpl. apply Rltb_false. rewrite Rabs_R0. lra.
Qed.

(** The hard-landing flag being false, the status after a flying frame is
    the collision flag. *)
Lemma frameCollision_eq keys obstacles dt s :
  frameCollision keys obstacles dt s
  = detectCollision obstacles (frameQuat keys dt s) (nextPosition keys dt s) false.
Proof. unfold frameCollision. now rewrite hardLanding_never. Qed.

Lemma flyingFrame_isCrashed keys obstacles objective dt now s :
  isCrashed s = false ->
  isCrashed (fst (flyingFrame keys obstacles objective dt now s))
  = frameCollision keys obstacles dt s.
Proof.
  intros Hs. rewrite frameCollision_eq. unfold flyingFrame.
  rewrite hardLanding_never, Hs.
  fold (frameQuat keys dt s). fold (frameVelocity keys dt s).
  fold (candidate keys dt s). fold (nextPosition keys dt s).
  destruct (detectCollision _ _ _ false); cbn [andb negb fst isCrashed]; [reflexivity|].
  case_if; reflexivity.
Qed.

(** A flying frame that flags a collision: the crash transition. *)
Lemma flyingFrame_crash keys obstacles objective dt now s :
  isCrashed s = false ->
  frameCollision keys obstacles dt s = true ->
  fst (flyingFrame keys obstacles objective dt now s)
  = mkRefs (pushback (position s) (contactVelocity keys dt s))
           (Vector3.mk (Num 0) (Num 0) (Num 0))
           (groundRotation keys dt (candidate keys dt s) (rotationAfterInputs keys dt s))
           (throttleAfterInputs keys dt s) true (lastStatsUpdate s).
Proof.
  intros Hs Hc. rewrite frameCollision_eq in Hc. unfold flyingFrame.
  rewrite hardLanding_never, Hs.
  fold (frameQuat keys dt s). fold (frameVelocity keys dt s).
  fold (candidate keys dt s). fold (nextPosition keys dt s).
  rewrite Hc. reflexivity.
Qed.

(** A flying frame that flags no collision commits the candidate and runs
    the objective logic on it. *)
Lemma flyingFrame_commit keys obstacles objective dt now s :
  isCrashed s = false ->
  frameCollision keys obstacles dt s = false ->
  exists l,
    fst (flyingFrame keys obstacles objective dt now s)
    = mkRefs (nextPosition keys dt s) (contactVelocity keys dt s)
             (groundRotation keys dt (candidate keys dt s)
                (rotationAfterInputs keys dt s))
             (throttleAfterInputs keys dt s) false l /\
    reachedCount (snd (flyingFrame keys obstacles objective dt now s))
    = reachedCount
        (objectiveSignal (distanceToObj objective (nextPosition keys dt s))).
Proof.
  intros Hs Hc. rewrite frameCollision_eq in Hc. unfold flyingFrame.
  rewrite hardLanding_never, Hs.
  fold (frameQuat keys dt s). fold (frameVelocity keys dt s).
  fold (candidate keys dt s). fold (nextPosition keys dt s).
  fold (contactVelocity keys dt s).
  rewrite Hc. cbn [andb].
  case_if; cbn [fst snd]; eexists; (split; [reflexivity|]); [|reflexivity].
  unfold reachedCount. rewrite filter_app, length_app. cbn. lia.
Qed.

(* ================================================================= *)
(** ** Sessions *)

Lemma useFrame_crashed_latch droneRef keys obstacles objective now delta s :
  isCrashed s = true ->
  isCrashed (fst (useFrame droneRef keys obstacles objective now delta s)) = true.
Proof.
  intros H. unfold useFrame.
  destruct droneRef; simpl; [|assumption].
  unfold frameWith. rewrite nanGuard_isCrashed, H.
  now rewrite crashedFrame_isCrashed.
Qed.

Lemma run_cons f fs s :
  fst (run (f :: fs) s) = fst (run fs (fst (step f s))).
Proof.
  simpl. destruct (step f s) as [s1 e1]; simpl.
  destruct (run fs s1); reflexivity.
Qed.

Lemma run_app fs1 fs2 s :
  fst (run (fs1 ++ fs2) s) = fst (run fs2 (fst (run fs1 s))).
Proof.
  revert s; induction fs1 as [|f fs1 IH]; intros s; [reflexivity|].
  rewrite <- app_comm_cons, !run_cons. apply IH.
Qed.

(* ================================================================= *)
(** ** The throttle ramps and the takeoff assist *)

Lemma throttleInput_inUnit keys (d : R) th :
  0 <= d -> inUnit th -> inUnit (throttleInput keys (Num d) th).
Proof.
  intros Hd Hth. destruct th as [|t]; [contradiction|]. simpl in Hth.
  unfold throttleInput.
  destruct (keys "ArrowUp" || keys "Space").
  - simpl. rcase.
  - destruct (keys "ArrowDown" || keys "ShiftLeft" || keys "ShiftRight").
    + simpl. rcase.
    + exact Hth.
Qed.

Lemma takeoffAssist_inUnit keys altitude (d : R) th :
  0 <= d <= 0.1 -> inUnit th -> inUnit (takeoffAssist keys altitude (Num d) th).
Proof.
  intros Hd Hth. unfold takeoffAssist.
  destruct (isMovingInput keys); simpl; [|exact Hth].
  destruct (altitude <? Num 1.0)%js; simpl; [|exact Hth].
  destruct (th <? HOVER_THROTTLE)%js eqn:Hlt; [|exact Hth].
  destruct th as [|t]; [contradiction|].
  simpl in Hth, Hlt. apply Rltb_spec in Hlt.
  simpl. split; nra.
Qed.

Lemma clampDelta_Num (d : R) : clampDelta (Num d) = Num (Rmin d 0.1).
Proof. reflexivity. Qed.

(* ================================================================= *)
(** ** The clamp of the elapsed time *)

Lemma clampDelta_idem delta : clampDelta (clampDelta delta) = clampDelta delta.
Proof. destruct delta as [|d]; [reflexivity|]. simpl. f_equal. rcase. Qed.

(* ================================================================= *)
(** ** Level flight: evaluating a frame at an attitude with no tilt *)

(** Evaluation of the number and vector operations on numerals. *)
Ltac js_eval :=
  cbv [nadd nsub nmul ndiv nneg lift1 lift2 nlt ngt isNaN
       Math.min Math.max Math.abs Math.pow MathUtils.lerp
       Vector3.x Vector3.y Vector3.z Vector3.add Vector3.sub Vector3.addVectors
       Vector3.multiplyScalar Vector3.lengthSq Vector3.distanceToSquared
       Vector3.applyQuaternion
       Quaternion.x Quaternion.y Quaternion.z Quaternion.w
       Euler.x Euler.y Euler.z at0 at1 at2 vec fst snd
       Obstacle.type Obstacle.position Obstacle.size
       position velocity rotation throttle isCrashed lastStatsUpdate
       GRAVITY THRUST_POWER DRAG ROTATION_SPEED TILT_SPEED MAX_TILT
       HOVER_THROTTLE DRONE_RADIUS PROP_COLLISION_RADIUS THROTTLE_RESPONSE_SPEED
       map existsb negb andb orb app].

Lemma setFromEuler_level : Quaternion.setFromEuler level = qid.
Proof.
  unfold Quaternion.setFromEuler, level, qid, Math.cos, Math.sin. js_eval.
  replace (0 / 2) with 0 by lra. rewrite cos_0, sin_0.
  f_equal; f_equal; lra.
Qed.

Lemma applyQuaternion_qid (a b c : R) :
  Vector3.applyQuaternion (Vector3.mk (Num a) (Num b) (Num c)) qid
  = Vector3.mk (Num a) (Num b) (Num c).
Proof. unfold qid. js_eval. f_equal; f_equal; lra. Qed.

Lemma rotationAfterInputs_level (d : R) s :
  rotation s = level -> rotationAfterInputs noKeys (Num d) s = level.
Proof.
  intros H. unfold rotationAfterInputs. rewrite H.
  unfold yawInput, targetPitch, targetRoll, noKeys, level. js_eval.
  f_equal; f_equal; lra.
Qed.

Lemma throttleAfterInputs_noKeys dt s :
  throttleAfterInputs noKeys dt s = throttle s.
Proof. reflexivity. Qed.

Lemma integrateVelocity_level (t d a b c : R) :
  integrateVelocity qid (Num t) (Num d) (Vector3.mk (Num a) (Num b) (Num c))
  = Vector3.mk (Num (a * 0.98))
               (Num ((b + (t * 65 - 25) * d) * 0.98))
               (Num (c * 0.98)).
Proof.
  unfold integrateVelocity. rewrite applyQuaternion_qid. js_eval.
  f_equal; f_equal; lra.
Qed.

Lemma propPoints_level (a b c : R) :
  propPoints qid (Vector3.mk (Num a) (Num b) (Num c))
  = [ Vector3.mk (Num (0.8 + a)) (Num b) (Num (0.8 + c));
      Vector3.mk (Num (-0.8 + a)) (Num b) (Num (0.8 + c));
      Vector3.mk (Num (0.8 + a)) (Num b) (Num (-0.8 + c));
      Vector3.mk (Num (-0.8 + a)) (Num b) (Num (-0.8 + c)) ].
Proof.
  unfold propPoints, PROP_OFFSETS. cbn [map].
  rewrite !applyQuaternion_qid. js_eval.
  repeat f_equal; lra.
Qed.

(** In level flight the propellers are at the altitude of the centre. *)
Lemma propGroundHit_level (a b c : R) :
  propGroundHit (propPoints qid (Vector3.mk (Num a) (Num b) (Num c)))
  = Rltb b 0.1.
Proof.
  rewrite propPoints_level. unfold propGroundHit. js_eval.
  destruct (Rltb b 0.1); reflexivity.
Qed.

Lemma detectCollision_level obstacles (a b c : R) :
  detectCollision obstacles qid (Vector3.mk (Num a) (Num b) (Num c)) false
  = if Rltb b 0.1 then true
    else obstacleScan obstacles
           (checkPoints (Vector3.mk (Num a) (Num b) (Num c))
              (propPoints qid (Vector3.mk (Num a) (Num b) (Num c)))).
Proof.
  unfold detectCollision. cbn [negb]. rewrite propGroundHit_level.
  destruct (Rltb b 0.1); reflexivity.
Qed.

(** The guard leaves a state alone when both [x] components are numbers. *)
Lemma nanGuard_finite s :
  isNaN (Vector3.x (position s)) = false ->
  isNaN (Vector3.x (velocity s)) = false ->
  nanGuard s = s.
Proof.
  intros Hp Hv. unfold nanGuard. rewrite Hp, Hv. now destruct s.
Qed.

(** The first steps of a frame in level flight with no key held. *)
Ltac level_frame :=
  unfold useFrame, frameWith; cbn [negb];
  rewrite nanGuard_finite by reflexivity;
  rewrite clampDelta_Num;
  match goal with
  | |- context [if isCrashed ?s then _ else _] =>
      change (isCrashed s) with false; cbv iota
  end;
  unfold flyingFrame;
  rewrite rotationAfterInputs_level by reflexivity;
  rewrite setFromEuler_level, throttleAfterInputs_noKeys, hardLanding_never.

(* ================================================================= *)
(** ** NaN components *)

Lemma nadd_NaN_r a : (a + NaN)%js = NaN.
Proof. now destruct a. Qed.

(** A point whose altitude is NaN hits no obstacle: both obstacle tests
    compare the altitude. *)
Lemma obstacleHit_nan_altitude obs p radius :
  Vector3.y p = NaN -> obstacleHit obs (p, radius) = false.
Proof.
  intros H. unfold obstacleHit, buildingHit, treeHit. cbn [fst snd]. rewrite H.
  destruct (Obstacle.type obs).
  - cbn [nsub lift2 Math.abs lift1 nlt]. now rewrite andb_false_r.
  - cbn [nlt]. apply andb_false_r.
Qed.

Lemma existsb_false {A : Type} (f : A -> bool) (l : list A) :
  (forall a, In a l -> f a = false) -> existsb f l = false.
Proof.
  intros H. induction l as [|a l IH]; [reflexivity|].
  cbn [existsb]. rewrite (H a (or_introl eq_refl)), IH; [reflexivity|].
  intros b Hb. apply H. now right.
Qed.

Lemma obstacleScan_nan_altitude obstacles points :
  (forall cp, In cp points -> Vector3.y (fst cp) = NaN) ->
  obstacleScan obstacles points = false.
Proof.
  intros H. unfold obstacleScan.
  apply existsb_false; intros obs _.
  apply existsb_false; intros [p radius] Hin.
  apply obstacleHit_nan_altitude. exact (H _ Hin).
Qed.

Lemma propPoints_nan_altitude quat next p :
  Vector3.y next = NaN -> In p (propPoints quat next) -> Vector3.y p = NaN.
Proof.
  intros H Hin. unfold propPoints in Hin. apply in_map_iff in Hin.
  destruct Hin as (offset & <- & _).
  cbn [Vector3.add Vector3.y]. rewrite H. apply nadd_NaN_r.
Qed.

Lemma detectCollision_nan_altitude obstacles quat next :
  Vector3.y next = NaN -> detectCollision obstacles quat next false = false.
Proof.
  intros H. unfold detectCollision. cbn [negb].
  assert (Hp : propGroundHit (propPoints quat next) = false).
  { apply existsb_false; intros p Hin.
    now rewrite (propPoints_nan_altitude quat next p H Hin). }
  rewrite Hp. cbn [negb].
  apply obstacleScan_nan_altitude. intros cp [<- | Hin]; [exact H|].
  apply in_map_iff in Hin. destruct Hin as (p & <- & Hin).
  exact (propPoints_nan_altitude quat next p H Hin).
Qed.

(** The guard tests [position.x] only: a NaN altitude next to a numeric [x]
    passes it, the candidate altitude is NaN, every comparison on it is
    false, and the candidate is committed. *)
Lemma nan_altitude_persists droneRef keys obstacles objective now delta s :
  Vector3.y (position s) = NaN ->
  isNaN (Vector3.x (position s)) = false ->
  Vector3.y (position (fst (useFrame droneRef keys obstacles objective now delta s))) = NaN.
Proof.
  intros Hy Hx. unfold useFrame.
  destruct droneRef; cbn [negb]; [|exact Hy].
  unfold frameWith.
  assert (Hg : position (nanGuard s) = position s)
    by (unfold nanGuard; now rewrite Hx).
  rewrite nanGuard_isCrashed.
  destruct (isCrashed s) eqn:Hc.
  - unfold crashedFrame. rewrite Hg.
    set (p1 := Vector3.add (position s) _).
    assert (Hp : Vector3.y p1 = NaN)
      by (subst p1; cbn [Vector3.add Vector3.y]; now rewrite Hy).
    rewrite Hp. cbn [nlt]. case_if; exact Hp.
  - unfold flyingFrame. rewrite hardLanding_never.
    set (q := Quaternion.setFromEuler _).
    set (v1 := integrateVelocity _ _ _ _).
    assert (Hn : Vector3.y (predictPosition (position (nanGuard s)) v1 (clampDelta delta)) = NaN).
    { rewrite Hg. unfold predictPosition. cbn [Vector3.add Vector3.y]. now rewrite Hy. }
    assert (Hgp : groundPosition (predictPosition (position (nanGuard s)) v1 (clampDelta delta))
                  = predictPosition (position (nanGuard s)) v1 (clampDelta delta)).
    { unfold groundPosition, groundContact. now rewrite Hn. }
    rewrite Hgp, detectCollision_nan_altitude by exact Hn.
    cbn [andb]. case_if; exact Hn.
Qed.

(* ================================================================= *)
(** ** Obstacle hits end the flight *)

Lemma useFrame_flying keys obstacles objective now delta s :
  isCrashed s = false ->
  useFrame true keys obstacles objective now delta s
  = flyingFrame keys obstacles objective (clampDelta delta) now (nanGuard s).
Proof.
  intros H. unfold useFrame, frameWith. cbn [negb].
  now rewrite nanGuard_isCrashed, H.
Qed.

Lemma useFrame_crashed keys obstacles objective now delta s :
  isCrashed s = true ->
  useFrame true keys obstacles objective now delta s
  = crashedFrame (clampDelta delta) now (nanGuard s).
Proof.
  intros H. unfold useFrame, frameWith. cbn [negb].
  now rewrite nanGuard_isCrashed, H.
Qed.

(** One hit among the pairs of an obstacle and a collision point sets the
    collision flag, whether or not the scan is reached. *)
Lemma obstacle_hit_collision keys obstacles dt s obs cp :
  In obs obstacles ->
  In cp (frameCheckPoints keys dt s) ->
  obstacleHit obs cp = true ->
  frameCollision keys obstacles dt s = true.
Proof.
  intros Hobs Hcp Hhit. rewrite frameCollision_eq.
  unfold detectCollision. cbn [negb].
  destruct (propGroundHit _); [reflexivity|]. cbn [negb].
  unfold obstacleScan. apply existsb_exists. exists obs; split; [exact Hobs|].
  apply existsb_exists. exists cp; split; [exact Hcp | exact Hhit].
Qed.

Lemma obstacle_hit_crashes keys obstacles objective now delta s obs cp :
  isCrashed s = false ->
  In obs obstacles ->
  In cp (frameCheckPoints keys (clampDelta delta) (nanGuard s)) ->
  obstacleHit obs cp = true ->
  isCrashed (fst (useFrame true keys obstacles objective now delta s)) = true.
Proof.
  intros Hs Hobs Hcp Hhit.
  rewrite useFrame_flying by exact Hs.
  rewrite flyingFrame_isCrashed by exact Hs.
  exact (obstacle_hit_collision _ _ _ _ obs cp Hobs Hcp Hhit).
Qed.

(** A flying frame in which no propeller is below the ground threshold and
    no obstacle is hit by any of the five points ends flying, with the
    candidate position committed. *)
Lemma no_hit_stays_flying keys obstacles objective now delta s :
  isCrashed s = false ->
  propGroundHit (propPoints (frameQuat keys (clampDelta delta) (nanGuard s))
                            (nextPosition keys (clampDelta delta) (nanGuard s))) = false ->
  (forall obs cp,
      In obs obstacles ->
      In cp (frameCheckPoints keys (clampDelta delta) (nanGuard s)) ->
      obstacleHit obs cp = false) ->
  isCrashed (fst (useFrame true keys obstacles objective now delta s)) = false /\
  position (fst (useFrame true keys obstacles objective now delta s))
  = nextPosition keys (clampDelta delta) (nanGuard s).
Proof.
  intros Hs Hprop Hclear.
  assert (Hg : isCrashed (nanGuard s) = false) by now rewrite nanGuard_isCrashed.
  assert (Hc : frameCollision keys obstacles (clampDelta delta) (nanGuard s) = false).
  { rewrite frameCollision_eq. unfold detectCollision. cbn [negb].
    rewrite Hprop. cbn [negb]. unfold obstacleScan.
    apply existsb_false. intros obs Hobs.
    apply existsb_false. intros cp Hcp. now apply Hclear. }
  rewrite useFrame_flying by exact Hs.
  destruct (flyingFrame_commit keys obstacles objective (clampDelta delta) now
              (nanGuard s) Hg Hc) as (l & -> & _).
  split; reflexivity.
Qed.

(* ================================================================= *)
(** ** The obstacle tests on numbers *)

(** The tree test on numbers: a horizontal distance below [1.5 + radius] and
    an altitude below the tree's height. *)
Lemma treeHit_spec ox oy oz w h dp px py pz r :
  treeHit (treeAt ox oy oz w h dp) (pt px py pz) (Num r) = true <->
  sqrt ((px - ox) ^ 2 + (pz - oz) ^ 2) < 1.5 + r /\ py < h.
Proof.
  unfold treeHit, treeAt, pt, Math.sqrt. js_eval.
  destruct (Rlt_dec ((px - ox) ^ 2 + (pz - oz) ^ 2) 0) as [Hneg|_].
  { pose proof (pow2_ge_0 (px - ox)). pose proof (pow2_ge_0 (pz - oz)). lra. }
  fold (andb (Rltb (sqrt ((px - ox) ^ 2 + (pz - oz) ^ 2)) (1.5 + r)) (Rltb py h)).
  rewrite andb_true_iff, !Rltb_spec. reflexivity.
Qed.

(** *** Level flight, through the named intermediate values *)

Lemma frameQuat_level (d : R) s :
  rotation s = level -> frameQuat noKeys (Num d) s = qid.
Proof.
  intros H. unfold frameQuat.
  now rewrite rotationAfterInputs_level, setFromEuler_level.
Qed.

Lemma frameVelocity_level (d vx vy vz t : R) p c l :
  frameVelocity noKeys (Num d) (mkRefs p (pt vx vy vz) level (Num t) c l)
  = pt (vx * 0.98) ((vy + (t * 65 - 25) * d) * 0.98) (vz * 0.98).
Proof.
  unfold frameVelocity. rewrite frameQuat_level by reflexivity.
  rewrite throttleAfterInputs_noKeys. cbn [velocity throttle].
  apply integrateVelocity_level.
Qed.

Lemma candidate_level (d px py pz vx vy vz t : R) c l :
  candidate noKeys (Num d) (mkRefs (pt px py pz) (pt vx vy vz) level (Num t) c l)
  = pt (px + vx * 0.98 * d)
       (py + (vy + (t * 65 - 25) * d) * 0.98 * d)
       (pz + vz * 0.98 * d).
Proof.
  unfold candidate. rewrite frameVelocity_level.
  unfold predictPosition, pt. js_eval. reflexivity.
Qed.

Lemma groundPosition_air (a b c : R) :
  0.5 <= b -> groundPosition (pt a b c) = pt a b c.
Proof.
  intros H. unfold groundPosition, groundContact, pt. js_eval.
  now rewrite Rltb_false.
Qed.

Lemma groundVelocity_air (a b c : R) v :
  0.5 <= b -> groundVelocity (pt a b c) v = v.
Proof.
  intros H. unfold groundVelocity, groundContact, pt. js_eval.
  now rewrite Rltb_false.
Qed.

(** With no obstacle, a level drone at or above the clearance altitude
    collides with nothing. *)
Lemma detectCollision_level_clear (a b c : R) :
  0.1 <= b -> detectCollision [] qid (pt a b c) false = false.
Proof.
  intros H. unfold pt. rewrite detectCollision_level.
  now rewrite Rltb_false.
Qed.

(** The first frame of a session, 16 ms long, with no key held. *)
Lemma hover_nextPosition :
  nextPosition noKeys (clampDelta (Num 0.016)) (nanGuard initialRefs)
  = pt 0 1.993728 0.
Proof.
  rewrite nanGuard_finite by reflexivity. rewrite clampDelta_Num.
  replace (Rmin 0.016 0.1) with 0.016 by rcase.
  unfold nextPosition.
  change initialRefs with (mkRefs (pt 0 2 0) (pt 0 0 0) level (Num 0) false (Num 0)).
  rewrite candidate_level, groundPosition_air by lra.
  unfold pt; f_equal; f_equal; lra.
Qed.

(** A frame of 16 ms over the tree [oak], level and with no key held: the
    candidate, the attitude and the five collision points. *)
Lemma overOak_nextPosition :
  nextPosition noKeys (clampDelta (Num 0.016)) (nanGuard overOak)
  = pt 0 4.993728 0.
Proof.
  rewrite nanGuard_finite by reflexivity. rewrite clampDelta_Num.
  replace (Rmin 0.016 0.1) with 0.016 by rcase.
  unfold nextPosition, overOak.
  rewrite candidate_level, groundPosition_air by lra.
  unfold pt; f_equal; f_equal; lra.
Qed.

Lemma overOak_frameQuat :
  frameQuat noKeys (clampDelta (Num 0.016)) (nanGuard overOak) = qid.
Proof.
  rewrite nanGuard_finite by reflexivity. rewrite clampDelta_Num.
  now apply frameQuat_level.
Qed.

Lemma overOak_checkPoints :
  frameCheckPoints noKeys (clampDelta (Num 0.016)) (nanGuard overOak)
  = [ (pt 0 4.993728 0, Num 0.5);
      (pt (0.8 + 0) 4.993728 (0.8 + 0), Num 0.15);
      (pt (-0.8 + 0) 4.993728 (0.8 + 0), Num 0.15);
      (pt (0.8 + 0) 4.993728 (-0.8 + 0), Num 0.15);
      (pt (-0.8 + 0) 4.993728 (-0.8 + 0), Num 0.15) ].
Proof.
  unfold frameCheckPoints. rewrite overOak_nextPosition, overOak_frameQuat.
  unfold pt at 1 2. rewrite propPoints_level. reflexivity.
Qed.

(* ================================================================= *)
(** ** The pushback on numbers *)

(** The building test on numbers: strictly inside the box inflated by the
    point's radius on the three axes. *)
Lemma buildingHit_spec ox oy oz w h dp px py pz r :
  buildingHit (buildingAt ox oy oz w h dp) (pt px py pz) (Num r) = true <->
  Rabs (px - ox) < w / 2 + r /\ Rabs (py - oy) < h / 2 + r /\ Rabs (pz - oz) < dp / 2 + r.
Proof.
  unfold buildingHit, buildingAt, pt.
  cbv [Obstacle.size Obstacle.position at0 at1 at2 fst snd Vector3.x Vector3.y
       Vector3.z nadd nsub ndiv lift2 Math.abs lift1 nlt].
  rewrite !andb_true_iff, !Rltb_spec. tauto.
Qed.

(** The pushback on numbers: one and a half times the normalized velocity,
    subtracted from the position, when the squared speed exceeds [0.1]. *)
Lemma pushback_fast px py pz vx vy vz :
  0.1 < speedSq vx vy vz ->
  pushback (pt px py pz) (pt vx vy vz)
  = pt (px - vx * (1 / sqrt (speedSq vx vy vz)) * 1.5)
       (py - vy * (1 / sqrt (speedSq vx vy vz)) * 1.5)
       (pz - vz * (1 / sqrt (speedSq vx vy vz)) * 1.5).
Proof.
  intros H. unfold pushback, pt, ngt.
  cbv [Vector3.lengthSq Vector3.x Vector3.y Vector3.z nmul nadd lift2 nlt].
  fold (speedSq vx vy vz). rewrite (Rltb_true _ _ H).
  unfold Vector3.normalize, Vector3.length, Vector3.divideScalar, Math.sqrt.
  cbv [Vector3.lengthSq Vector3.x Vector3.y Vector3.z nmul nadd lift2].
  fold (speedSq vx vy vz).
  destruct (Rlt_dec (speedSq vx vy vz) 0) as [Hneg|_]; [lra|].
  assert (Hs : 0 < sqrt (speedSq vx vy vz)) by (apply sqrt_lt_R0; lra).
  unfold nor, truthy.
  destruct (Req_dec_T (sqrt (speedSq vx vy vz)) 0) as [Hz|_]; [lra|].
  reflexivity.
Qed.

(** Otherwise the position is raised by [0.5]. *)
Lemma pushback_slow px py pz vx vy vz :
  speedSq vx vy vz <= 0.1 ->
  pushback (pt px py pz) (pt vx vy vz) = pt px (py + 0.5) pz.
Proof.
  intros H. unfold pushback, pt, ngt.
  cbv [Vector3.lengthSq Vector3.x Vector3.y Vector3.z nmul nadd lift2 nlt].
  fold (speedSq vx vy vz). now rewrite (Rltb_false _ _ H).
Qed.

Lemma hover_contactVelocity :
  contactVelocity noKeys (clampDelta (Num 0.016)) (nanGuard initialRefs)
  = pt 0 (-0.392) 0.
Proof.
  rewrite nanGuard_finite by reflexivity. rewrite clampDelta_Num.
  replace (Rmin 0.016 0.1) with 0.016 by rcase.
  unfold contactVelocity.
  change initialRefs with (mkRefs (pt 0 2 0) (pt 0 0 0) level (Num 0) false (Num 0)).
  rewrite candidate_level, groundVelocity_air by lra.
  rewrite frameVelocity_level.
  unfold pt; f_equal; f_equal; lra.
Qed.

Lemma hover_pushback : pushback (pt 0 2 0) (pt 0 (-0.392) 0) = pt 0 3.5 0.
Proof.
  assert (Hq : speedSq 0 (-0.392) 0 = 0.392 * 0.392) by (unfold speedSq; lra).
  rewrite pushback_fast by (rewrite Hq; lra).
  rewrite Hq, sqrt_square by lra.
  unfold pt; f_equal; f_equal; lra.
Qed.

(* ================================================================= *)
(** ** The objective signal *)

Lemma reachedCount_app es1 es2 :
  reachedCount (es1 ++ es2) = (reachedCount es1 + reachedCount es2)%nat.
Proof. unfold reachedCount. now rewrite filter_app, length_app. Qed.

Lemma crashedFrame_silent dt now s : reachedCount (snd (crashedFrame dt now s)) = 0%nat.
Proof. unfold crashedFrame. case_if; reflexivity. Qed.

Lemma flyingFrame_crash_silent keys obstacles objective dt now s :
  isCrashed s = false ->
  frameCollision keys obstacles dt s = true ->
  reachedCount (snd (flyingFrame keys obstacles objective dt now s)) = 0%nat.
Proof.
  intros Hs Hc. rewrite frameCollision_eq in Hc. unfold flyingFrame.
  rewrite hardLanding_never, Hs.
  fold (frameQuat keys dt s). fold (frameVelocity keys dt s).
  fold (candidate keys dt s). fold (nextPosition keys dt s).
  rewrite Hc. reflexivity.
Qed.

Lemma objectiveSignal_count objective p :
  reachedCount (objectiveSignal (distanceToObj objective p)) = signalsAt objective p.
Proof.
  unfold signalsAt, objectiveSignal, distanceToObj.
  destruct objective as [o|]; [|reflexivity].
  case_if; reflexivity.
Qed.

(** A level frame with no key held and no obstacle, ending above the ground
    clearance. *)
Lemma level_air_frame objective now (d px py pz vx vy vz t : R) l :
  0.5 <= py + (vy + (t * 65 - 25) * d) * 0.98 * d ->
  exists l',
    fst (flyingFrame noKeys [] objective (Num d) now
           (mkRefs (pt px py pz) (pt vx vy vz) level (Num t) false l))
    = mkRefs (pt (px + vx * 0.98 * d)
                 (py + (vy + (t * 65 - 25) * d) * 0.98 * d)
                 (pz + vz * 0.98 * d))
             (pt (vx * 0.98) ((vy + (t * 65 - 25) * d) * 0.98) (vz * 0.98))
             level (Num t) false l' /\
    reachedCount
      (snd (flyingFrame noKeys [] objective (Num d) now
              (mkRefs (pt px py pz) (pt vx vy vz) level (Num t) false l)))
    = signalsAt objective
        (pt (px + vx * 0.98 * d)
            (py + (vy + (t * 65 - 25) * d) * 0.98 * d)
            (pz + vz * 0.98 * d)).
Proof.
  intros Hair.
  set (s := mkRefs (pt px py pz) (pt vx vy vz) level (Num t) false l).
  assert (Hn : nextPosition noKeys (Num d) s
               = pt (px + vx * 0.98 * d)
                    (py + (vy + (t * 65 - 25) * d) * 0.98 * d)
                    (pz + vz * 0.98 * d)).
  { unfold nextPosition, s. now rewrite candidate_level, groundPosition_air. }
  assert (Hc : frameCollision noKeys [] (Num d) s = false).
  { rewrite frameCollision_eq, Hn, frameQuat_level by reflexivity.
    apply detectCollision_level_clear. lra. }
  destruct (flyingFrame_commit noKeys [] objective (Num d) now s eq_refl Hc)
    as (l' & E1 & E2).
  exists l'. rewrite E1, E2, objectiveSignal_count, Hn. split; [|reflexivity].
  unfold contactVelocity, groundRotation, s.
  rewrite candidate_level, groundVelocity_air, frameVelocity_level by exact Hair.
  rewrite rotationAfterInputs_level by reflexivity.
  unfold groundContact, pt. js_eval. rewrite Rltb_false by exact Hair.
  reflexivity.
Qed.

Lemma run_cons_events f fs s :
  snd (run (f :: fs) s) = snd (step f s) ++ snd (run fs (fst (step f s))).
Proof.
  simpl. destruct (step f s) as [s1 e1]; simpl.
  destruct (run fs s1); reflexivity.
Qed.

Lemma sqrt_lt_4 (u : R) : 0 <= u < 16 -> sqrt u < 4.
Proof.
  intros H. replace 4 with (sqrt (4 * 4)) by (apply sqrt_square; lra).
  apply sqrt_lt_1_alt. lra.
Qed.

Lemma signalsAt_near (ox oy oz a b c : R) :
  (a - ox) * (a - ox) + (b - oy) * (b - oy) + (c - oz) * (c - oz) < 16 ->
  signalsAt (Some (Num ox, Num oy, Num oz)) (pt a b c) = 1%nat.
Proof.
  intros H. unfold signalsAt, Vector3.distanceTo, Math.sqrt, pt. js_eval.
  set (u := (a - ox) * (a - ox) + (b - oy) * (b - oy) + (c - oz) * (c - oz)) in *.
  assert (Hu : 0 <= u).
  { pose proof (Rle_0_sqr (a - ox)). pose proof (Rle_0_sqr (b - oy)).
    pose proof (Rle_0_sqr (c - oz)). unfold Rsqr in *. subst u. lra. }
  destruct (Rlt_dec u 0) as [Hneg|_]; [lra|].
  cbv [nlt]. rewrite Rltb_true; [reflexivity|].
  replace 4.0 with 4 by lra. apply sqrt_lt_4. lra.
Qed.

(* ================================================================= *)
(** ** The latched state *)

Lemma nanGuard_position_x s : isNaN (Vector3.x (position (nanGuard s))) = false.
Proof.
  unfold nanGuard; cbn [position].
  destruct (isNaN (Vector3.x (position s))) eqn:E; [reflexivity | exact E].
Qed.

Lemma pushback_x_finite p v :
  isNaN (Vector3.x p) = false -> isNaN (Vector3.x (pushback p v)) = false.
Proof.
  intros Hp. unfold pushback.
  destruct (Vector3.lengthSq v >? Num 0.1)%js eqn:E; [|exact Hp].
  unfold ngt in E. apply nlt_true_inv in E. destruct E as (u & w & _ & E & _).
  destruct v as [[|vx] [|vy] [|vz]]; try discriminate E.
  destruct p as [[|px] py pz]; [discriminate Hp|].
  unfold Vector3.normalize, Vector3.divideScalar.
  destruct (nor (Vector3.length (Vector3.mk (Num vx) (Num vy) (Num vz))) (Num 1))
    as [|n] eqn:En.
  - unfold nor in En. destruct (truthy _) eqn:Et; [|discriminate En].
    rewrite En in Et. discriminate Et.
  - reflexivity.
Qed.

(** The crash transition leaves a latched state. *)
Lemma crash_transition_latched f s :
  isCrashed s = false ->
  isCrashed (fst (step f s)) = true ->
  velocity (fst (step f s)) = pt 0 0 0 /\ latched (fst (step f s)).
Proof.
  unfold step. intros Hs Hc.
  destruct (droneRef f).
  2:{ unfold useFrame in Hc. cbn [negb fst] in Hc. congruence. }
  rewrite useFrame_flying in * by exact Hs.
  assert (Hg : isCrashed (nanGuard s) = false) by now rewrite nanGuard_isCrashed.
  rewrite flyingFrame_isCrashed in Hc by exact Hg.
  rewrite flyingFrame_crash by assumption.
  split; [reflexivity|]. repeat split.
  cbn [position]. apply pushback_x_finite, nanGuard_position_x.
Qed.

(** A frame in a latched state keeps it latched and leaves the horizontal
    components as they are. *)
Lemma latched_step f s :
  timed f -> latched s ->
  latched (fst (step f s)) /\ horizontal (fst (step f s)) = horizontal s.
Proof.
  unfold step, timed. intros Ht (Hc & Hvx & Hvz & Hpx).
  destruct (droneRef f).
  2:{ unfold useFrame. cbn [negb fst]. split; [repeat split; assumption | reflexivity]. }
  rewrite useFrame_crashed by exact Hc.
  rewrite nanGuard_finite by (exact Hpx || now rewrite Hvx).
  destruct (delta f) as [|d]; [discriminate Ht|]. rewrite clampDelta_Num.
  destruct s as [[px py pz] [vx vy vz] r t c l].
  cbn [position velocity isCrashed Vector3.x Vector3.z] in *. subst vx vz c.
  destruct px as [|a]; [discriminate Hpx|].
  unfold crashedFrame, latched, horizontal.
  cbv [position velocity isCrashed rotation throttle lastStatsUpdate
       Vector3.add Vector3.multiplyScalar Vector3.x Vector3.y Vector3.z].
  assert (Ea : (Num a + Num 0 * Num (Rmin d 0.1))%js = Num a)
    by (cbn [nadd nmul lift2]; f_equal; lra).
  assert (Ez : (pz + Num 0 * Num (Rmin d 0.1))%js = pz)
    by (destruct pz; cbn [nadd nmul lift2]; [reflexivity | f_equal; lra]).
  rewrite Ea, Ez.
  repeat case_if; cbn [fst position velocity isCrashed Vector3.x Vector3.z isNaN];
    repeat split; reflexivity.
Qed.

Lemma latched_run fs s :
  Forall timed fs -> latched s ->
  latched (fst (run fs s)) /\ horizontal (fst (run fs s)) = horizontal s.
Proof.
  intros Ht; revert s. induction Ht as [|f fs Hf Hfs IH]; intros s Hl.
  - split; [exact Hl | reflexivity].
  - rewrite run_cons.
    destruct (latched_step f s Hf Hl) as [Hl1 Hh1].
    destruct (IH _ Hl1) as [Hl2 Hh2].
    split; [exact Hl2 | congruence].
Qed.

(** Along a session, a state is flying or latched. *)
Lemma flying_or_latched fs s :
  Forall timed fs -> isCrashed s = false \/ latched s ->
  isCrashed (fst (run fs s)) = false \/ latched (fst (run fs s)).
Proof.
  intros Ht; revert s. induction Ht as [|f fs Hf Hfs IH]; intros s Hs; [exact Hs|].
  rewrite run_cons. apply IH. destruct Hs as [Hs|Hs].
  - destruct (isCrashed (fst (step f s))) eqn:E; [right | now left].
    exact (proj2 (crash_transition_latched f s Hs E)).
  - right. exact (proj1 (latched_step f s Hf Hs)).
Qed.

Lemma tower_crash : isCrashed (fst (step towerFrame initialRefs)) = true.
Proof.
  unfold step, towerFrame. cbn [droneRef keys obstacles objectivePosition now delta].
  apply (obstacle_hit_crashes noKeys [tower] None (Num 0) (Num 0.016) initialRefs tower
           (nextPosition noKeys (clampDelta (Num 0.016)) (nanGuard initialRefs),
            DRONE_RADIUS)).
  - reflexivity.
  - left; reflexivity.
  - left; reflexivity.
  - unfold obstacleHit. cbn [tower buildingAt Obstacle.type fst snd].
    rewrite hover_nextPosition. apply buildingHit_spec. repeat split; rcase.
Qed.

(* ================================================================= *)
(** ** Zero elapsed time *)

Lemma clampDelta_zero : clampDelta (Num 0) = Num 0.
Proof. rewrite clampDelta_Num. f_equal. rcase. Qed.

Lemma throttleInput_zero_Num keys (t : R) :
  exists t1, throttleInput keys (Num 0) (Num t) = Num t1.
Proof.
  unfold throttleInput. repeat case_if; eexists; reflexivity.
Qed.

Lemma throttleInput_zero_idem keys th :
  throttleInput keys (Num 0) (throttleInput keys (Num 0) th)
  = throttleInput keys (Num 0) th.
Proof.
  unfold throttleInput.
  destruct (keys "ArrowUp" || keys "Space").
  - destruct th as [|t]; [reflexivity|]. js_eval. f_equal. rcase.
  - destruct (keys "ArrowDown" || keys "ShiftLeft" || keys "ShiftRight");
      [|reflexivity].
    destruct th as [|t]; [reflexivity|]. js_eval. f_equal. rcase.
Qed.

Lemma takeoffAssist_zero keys altitude th :
  takeoffAssist keys altitude (Num 0) th = th.
Proof.
  unfold takeoffAssist. case_if; [|reflexivity].
  destruct th as [|t].
  - rewrite !andb_true_iff in *. destruct Heqb as [_ H]. discriminate H.
  - js_eval. f_equal. lra.
Qed.

Lemma throttleAfterInputs_zero keys s :
  throttleAfterInputs keys (Num 0) s = throttleInput keys (Num 0) (throttle s).
Proof. unfold throttleAfterInputs. apply takeoffAssist_zero. Qed.

Lemma targetPitch_Num keys : exists a, targetPitch keys = Num a.
Proof. unfold targetPitch, MAX_TILT, nneg, lift1. repeat case_if; eexists; reflexivity. Qed.

Lemma targetRoll_Num keys : exists a, targetRoll keys = Num a.
Proof. unfold targetRoll, MAX_TILT, nneg, lift1. repeat case_if; eexists; reflexivity. Qed.

Lemma lerp_zero a (b : R) (k : R) :
  MathUtils.lerp a (Num b) (Num 0 * Num k)%js = a.
Proof. destruct a as [|u]; [reflexivity|]. js_eval. f_equal. lra. Qed.

Lemma yawInput_zero keys yaw : yawInput keys (Num 0) yaw = yaw.
Proof.
  unfold yawInput. destruct yaw as [|u]; repeat case_if; try reflexivity;
    js_eval; f_equal; lra.
Qed.

Lemma rotationAfterInputs_zero keys s :
  rotationAfterInputs keys (Num 0) s = rotation s.
Proof.
  unfold rotationAfterInputs.
  destruct (targetPitch_Num keys) as [a ->], (targetRoll_Num keys) as [b ->].
  unfold TILT_SPEED. rewrite !lerp_zero, yawInput_zero. now destruct (rotation s).
Qed.

Lemma groundRotation_zero keys next r : groundRotation keys (Num 0) next r = r.
Proof.
  unfold groundRotation. case_if; [|reflexivity].
  rewrite !lerp_zero. now destruct r.
Qed.

Lemma integrateVelocity_zero (rx ry rz t vx vy vz : R) :
  integrateVelocity (Quaternion.setFromEuler (Euler.mk (Num rx) (Num ry) (Num rz)))
                    (Num t) (Num 0) (pt vx vy vz)
  = pt (vx * 0.98) (vy * 0.98) (vz * 0.98).
Proof.
  unfold integrateVelocity, Quaternion.setFromEuler, Math.cos, Math.sin, pt. js_eval.
  f_equal; f_equal; lra.
Qed.

Lemma frameQuat_zero keys s :
  frameQuat keys (Num 0) s = Quaternion.setFromEuler (rotation s).
Proof. unfold frameQuat. now rewrite rotationAfterInputs_zero. Qed.

Lemma frameVelocity_zero keys px py pz vx vy vz rx ry rz t c l :
  frameVelocity keys (Num 0) (numericRefs px py pz vx vy vz rx ry rz t c l)
  = pt (vx * 0.98) (vy * 0.98) (vz * 0.98).
Proof.
  unfold frameVelocity. rewrite frameQuat_zero, throttleAfterInputs_zero.
  cbn [numericRefs throttle rotation velocity].
  destruct (throttleInput_zero_Num keys t) as [t1 ->].
  apply integrateVelocity_zero.
Qed.

Lemma candidate_zero keys px py pz vx vy vz rx ry rz t c l :
  candidate keys (Num 0) (numericRefs px py pz vx vy vz rx ry rz t c l)
  = pt px py pz.
Proof.
  unfold candidate. rewrite frameVelocity_zero.
  unfold predictPosition, numericRefs, pt. js_eval. f_equal; f_equal; lra.
Qed.

(** A flying frame of zero elapsed time: the collision flag is computed at
    the ground-clamped position, and without collision the frame commits that
    position, the velocity scaled by the drag (and damped on the ground), the
    same rotation and the clamped throttle. *)
Lemma zero_frame_flying keys obstacles objective now px py pz vx vy vz rx ry rz t l :
  frameCollision keys obstacles (Num 0)
    (numericRefs px py pz vx vy vz rx ry rz t false l)
  = detectCollision obstacles
      (Quaternion.setFromEuler (Euler.mk (Num rx) (Num ry) (Num rz)))
      (groundPosition (pt px py pz)) false /\
  (frameCollision keys obstacles (Num 0)
     (numericRefs px py pz vx vy vz rx ry rz t false l) = false ->
   exists l',
     fst (flyingFrame keys obstacles objective (Num 0) now
            (numericRefs px py pz vx vy vz rx ry rz t false l))
     = mkRefs (groundPosition (pt px py pz))
              (groundVelocity (pt px py pz) (pt (vx * 0.98) (vy * 0.98) (vz * 0.98)))
              (Euler.mk (Num rx) (Num ry) (Num rz))
              (throttleInput keys (Num 0) (Num t)) false l').
Proof.
  split.
  - rewrite frameCollision_eq, frameQuat_zero. unfold nextPosition.
    now rewrite candidate_zero.
  - intros Hc.
    destruct (flyingFrame_commit keys obstacles objective (Num 0) now
                (numericRefs px py pz vx vy vz rx ry rz t false l) eq_refl Hc)
      as (l' & E & _).
    exists l'. rewrite E. unfold nextPosition, contactVelocity.
    rewrite candidate_zero, frameVelocity_zero, groundRotation_zero.
    now rewrite rotationAfterInputs_zero, throttleAfterInputs_zero.
Qed.

(** The ground clamp on numbers. *)
Lemma ground_cases (px py pz a b c : R) :
  exists qy wx wy wz,
    0.5 <= qy /\
    groundPosition (pt px py pz) = pt px qy pz /\
    groundVelocity (pt px py pz) (pt a b c) = pt wx wy wz.
Proof.
  unfold groundPosition, groundVelocity, groundContact, pt. js_eval.
  unfold Rltb. destruct (Rlt_dec py 0.5).
  - exists 0.5, (a * 0.8), 0, (c * 0.8). repeat split; lra.
  - exists py, a, b, c. repeat split; lra.
Qed.

(** A crashed frame of zero elapsed time on numbers: nothing moves, except
    that a position below the floor is put on the floor with the velocity
    zeroed. *)
Lemma zero_frame_crashed now px py pz vx vy vz r t c l :
  exists qy wx wy wz l',
    0.2 <= qy /\
    (0.2 <= py -> qy = py /\ wx = vx /\ wy = vy /\ wz = vz) /\
    fst (crashedFrame (Num 0) now (mkRefs (pt px py pz) (pt vx vy vz) r t c l))
    = mkRefs (pt px qy pz) (pt wx wy wz) r t c l'.
Proof.
  unfold crashedFrame, pt.
  cbv [position velocity rotation throttle isCrashed lastStatsUpdate
       Vector3.add Vector3.multiplyScalar Vector3.x Vector3.y Vector3.z
       GRAVITY nadd nsub nmul lift2 nlt].
  unfold Rltb.
  destruct (Rlt_dec (py + (vy - 25 * 0) * 0) 0.2) as [Hlt|Hge].
  - exists 0.2, 0, 0, 0.
    case_if; eexists; (split; [lra|]); (split; [intros; lra|]);
      cbn [fst]; repeat f_equal; lra.
  - exists py, vx, vy, vz.
    case_if; eexists; (split; [lra|]); (split; [intros; repeat split; reflexivity|]);
      cbn [fst]; repeat f_equal; lra.
Qed.

Lemma zeroFrame_level_air (px py pz vx vy vz t : R) l :
  0.5 <= py ->
  exists l',
    zeroFrame (mkRefs (pt px py pz) (pt vx vy vz) level (Num t) false l)
    = mkRefs (pt (px + vx * 0.98 * 0) (py + (vy + (t * 65 - 25) * 0) * 0.98 * 0)
                 (pz + vz * 0.98 * 0))
             (pt (vx * 0.98) ((vy + (t * 65 - 25) * 0) * 0.98) (vz * 0.98))
             level (Num t) false l'.
Proof.
  intros H. unfold zeroFrame.
  rewrite useFrame_flying, nanGuard_finite, clampDelta_zero by reflexivity.
  destruct (level_air_frame None (Num 0) 0 px py pz vx vy vz t l) as (l' & E & _);
    [lra|].
  exists l'. exact E.
Qed.

(* ================================================================= *)
(** ** C1: the crashed latch *)

(** C1. A frame that starts with the status Crashed ends with the status
    Crashed, and so does every sequence of frames: whatever the keys, the
    elapsed times and the obstacles, the status never goes back to flying. *)
Theorem crashed_latch (s : Refs) :
  isCrashed s = true ->
  (forall f : Frame, isCrashed (fst (step f s)) = true) /\
  (forall fs : list Frame, isCrashed (fst (run fs s)) = true).
Proof.
  intros H; split.
  - intros f. now apply useFrame_crashed_latch.
  - intros fs; revert s H.
    induction fs as [|f fs IH]; intros s H; [exact H|].
    rewrite run_cons. apply IH. now apply useFrame_crashed_latch.
Qed.

Lemma crashed_latch_witness :
  (forall f : Frame, isCrashed (fst (step f wreck)) = true) /\
  (forall fs : list Frame, isCrashed (fst (run fs wreck)) = true).
Proof. apply (crashed_latch wreck). reflexivity. Defined.

(* ================================================================= *)
(** ** C2: the throttle stays in the unit interval *)

(** C2. From a throttle in [0,1], a frame leaves the throttle in [0,1],
    whatever the keys, the obstacles and the status: the two ramps and the
    takeoff assist keep the bound.  The elapsed time is any non-negative
    number, as the difference of two readings of the render loop's clock
    is. *)
Theorem throttle_bounds droneRef keys obstacles objective now (d : R) s :
  0 <= d ->
  inUnit (throttle s) ->
  inUnit (throttle (fst (useFrame droneRef keys obstacles objective now (Num d) s))).
Proof.
  intros Hd Hth. unfold useFrame.
  destruct droneRef; cbn [negb]; [|exact Hth].
  unfold frameWith. rewrite nanGuard_isCrashed.
  destruct (isCrashed s).
  - now rewrite crashedFrame_throttle.
  - rewrite flyingFrame_throttle, clampDelta_Num.
    unfold throttleAfterInputs.
    assert (Hc : 0 <= Rmin d 0.1 <= 0.1) by (unfold Rmin; destruct (Rle_dec d 0.1); lra).
    apply takeoffAssist_inUnit; [exact Hc|].
    apply throttleInput_inUnit; [apply Hc | exact Hth].
Qed.

Lemma throttle_bounds_witness :
  inUnit (throttle (fst (useFrame true noKeys [] None (Num 0) (Num 0.016) initialRefs))).
Proof. apply throttle_bounds; simpl; lra. Defined.

(** The bound rests on the sign of the elapsed time, which the frame does
    not check ([Math.min(delta, 0.1)] clamps above only): called with the
    increase key held and an elapsed time of [-1], which no render loop
    supplies, the frame takes the throttle from [0] to
    [Math.min(0 + (-1) * 2, 1) = -2]. *)
Lemma throttle_negative_delta :
  inUnit (throttle initialRefs) /\
  throttle (fst (useFrame true upKeys [] None (Num 0) (Num (-1)) initialRefs))
  = Num (-2) /\
  ~ inUnit (throttle (fst (useFrame true upKeys [] None (Num 0) (Num (-1)) initialRefs))).
Proof.
  assert (E : throttle (fst (useFrame true upKeys [] None (Num 0) (Num (-1)) initialRefs))
              = Num (-2)).
  { unfold useFrame, frameWith. simpl negb. cbv iota.
    rewrite nanGuard_isCrashed. simpl isCrashed. cbv iota.
    rewrite flyingFrame_throttle.
    unfold throttleAfterInputs, takeoffAssist, throttleInput.
    change (isMovingInput upKeys) with false.
    change (upKeys "ArrowUp") with true.
    simpl. f_equal. rcase. }
  split; [simpl; lra|]. split; [exact E|].
  rewrite E. simpl. lra.
Qed.

(* ================================================================= *)
(** ** C3: the hard-landing check *)

(** C3 fails on the code.  From [plunging], a frame of 0.1 s reaches the
    ground: the candidate altitude is [5 - 6.125 < 0.5] and the vertical speed
    at contact is [61.25 > 10]; the frame ends at the clearance altitude with
    the velocity zeroed and the status still flying. *)
Theorem hard_landing_not_flagged :
  let v1 := integrateVelocity qid (Num 0) (Num 0.1) (velocity plunging) in
  let next := predictPosition (position plunging) v1 (Num 0.1) in
  groundContact next = true /\
  (Math.abs (Vector3.y v1) >? Num 10)%js = true /\
  isCrashed (fst plungeFrame) = false /\
  position (fst plungeFrame) = Vector3.mk (Num 0) (Num 0.5) (Num 0) /\
  Vector3.y (velocity (fst plungeFrame)) = Num 0.
Proof.
  assert (Hv : integrateVelocity qid (Num 0) (Num 0.1) (velocity plunging)
               = Vector3.mk (Num 0) (Num (-61.25)) (Num 0)).
  { unfold plunging; cbn [velocity]. rewrite integrateVelocity_level.
    f_equal; f_equal; lra. }
  cbv zeta. rewrite Hv.
  assert (Hg : groundContact (predictPosition (position plunging)
                 (Vector3.mk (Num 0) (Num (-61.25)) (Num 0)) (Num 0.1)) = true).
  { unfold groundContact, predictPosition, plunging. js_eval. rcase. }
  split; [exact Hg|].
  split; [unfold ngt; js_eval; rcase|].
  assert (E : fst plungeFrame
              = mkRefs (Vector3.mk (Num 0) (Num 0.5) (Num 0))
                       (Vector3.mk (Num 0) (Num 0) (Num 0))
                       level (Num 0) false (Num 1)).
  { unfold plungeFrame. level_frame.
    replace (Rmin 0.1 0.1) with 0.1 by rcase.
    change (throttle plunging) with (Num 0).
    rewrite Hv.
    unfold groundPosition, groundVelocity, groundRotation. rewrite Hg.
    unfold predictPosition, plunging, level. js_eval.
    rewrite detectCollision_level.
    rewrite (Rltb_false 0.5 0.1) by lra.
    cbv [obstacleScan existsb andb negb fst isMovingInput noKeys orb].
    rewrite (Rltb_true 0.1 (1 - 0)) by lra.
    cbv [fst]. repeat f_equal; lra. }
  rewrite E. repeat split; reflexivity.
Qed.

(* ================================================================= *)
(** ** C4: the objective-reached signal *)

(** C4 (amended). The objective-reached signal is level-triggered: a frame
    invokes it once when it ends in the flying status with an objective set
    and the Euclidean distance from the committed position to the objective
    below 4.0, and not at all otherwise; so it is invoked again in every later
    frame that ends flying inside the radius.  The handler of the App is
    idempotent. *)
Theorem objective_signal_each_frame :
  (forall droneRef keys obstacles objective now delta s,
      reachedCount (snd (useFrame droneRef keys obstacles objective now delta s))
      = if droneRef
           && negb (isCrashed (fst (useFrame droneRef keys obstacles objective now delta s)))
        then signalsAt objective
               (position (fst (useFrame droneRef keys obstacles objective now delta s)))
        else 0%nat) /\
  (forall missionComplete,
      handleObjectiveReached missionComplete = true /\
      handleObjectiveReached (handleObjectiveReached missionComplete)
      = handleObjectiveReached missionComplete).
Proof.
  split; [|intros []; split; reflexivity].
  intros mounted keys obstacles objective now delta s.
  destruct mounted; [|reflexivity]. cbn [andb].
  destruct (isCrashed s) eqn:Hs.
  - rewrite useFrame_crashed by exact Hs.
    rewrite crashedFrame_silent, crashedFrame_isCrashed, nanGuard_isCrashed, Hs.
    reflexivity.
  - rewrite useFrame_flying by exact Hs.
    assert (Hg : isCrashed (nanGuard s) = false) by now rewrite nanGuard_isCrashed.
    destruct (frameCollision keys obstacles (clampDelta delta) (nanGuard s)) eqn:Hc.
    + rewrite flyingFrame_crash_silent, flyingFrame_crash by assumption.
      reflexivity.
    + destruct (flyingFrame_commit keys obstacles objective (clampDelta delta) now
                  (nanGuard s) Hg Hc) as (l & -> & ->).
      cbn [isCrashed negb position]. apply objectiveSignal_count.
Qed.

(** C4 as stated fails.  Two consecutive frames of a drone that stays within
    the capture radius invoke the signal twice: once in the first frame and
    once more in the second. *)
Lemma objective_signal_repeats :
  reachedCount (snd (step nearFrame initialRefs)) = 1%nat /\
  reachedCount (snd (step nearFrame (fst (step nearFrame initialRefs)))) = 1%nat /\
  reachedCount (snd (run [nearFrame; nearFrame] initialRefs)) = 2%nat.
Proof.
  assert (Hdt : clampDelta (Num 0.016) = Num 0.016).
  { rewrite clampDelta_Num. f_equal. rcase. }
  unfold step, nearFrame. cbn [droneRef keys obstacles objectivePosition now delta].
  assert (H1 : exists l,
             fst (useFrame true noKeys [] (Some (Num 0, Num 2, Num 0)) (Num 0) (Num 0.016)
                    initialRefs)
             = mkRefs (pt (0 + 0 * 0.98 * 0.016)
                          (2 + (0 + (0 * 65 - 25) * 0.016) * 0.98 * 0.016)
                          (0 + 0 * 0.98 * 0.016))
                      (pt (0 * 0.98) ((0 + (0 * 65 - 25) * 0.016) * 0.98) (0 * 0.98))
                      level (Num 0) false l /\
             reachedCount
               (snd (useFrame true noKeys [] (Some (Num 0, Num 2, Num 0)) (Num 0)
                       (Num 0.016) initialRefs)) = 1%nat).
  { rewrite useFrame_flying, nanGuard_finite, Hdt by reflexivity.
    change initialRefs with (mkRefs (pt 0 2 0) (pt 0 0 0) level (Num 0) false (Num 0)).
    destruct (level_air_frame (Some (Num 0, Num 2, Num 0)) (Num 0)
                0.016 0 2 0 0 0 0 0 (Num 0)) as (l & E1 & E2); [lra|].
    exists l. split; [exact E1|]. rewrite E2. apply signalsAt_near. lra. }
  destruct H1 as (l & E1 & C1).
  assert (C2 : reachedCount
                 (snd (useFrame true noKeys [] (Some (Num 0, Num 2, Num 0)) (Num 0)
                         (Num 0.016)
                         (fst (useFrame true noKeys [] (Some (Num 0, Num 2, Num 0))
                                 (Num 0) (Num 0.016) initialRefs)))) = 1%nat).
  { rewrite E1.
    rewrite useFrame_flying, nanGuard_finite, Hdt by reflexivity.
    destruct (level_air_frame (Some (Num 0, Num 2, Num 0)) (Num 0) 0.016
                (0 + 0 * 0.98 * 0.016)
                (2 + (0 + (0 * 65 - 25) * 0.016) * 0.98 * 0.016)
                (0 + 0 * 0.98 * 0.016)
                (0 * 0.98) ((0 + (0 * 65 - 25) * 0.016) * 0.98) (0 * 0.98)
                0 l) as (l' & _ & E2); [lra|].
    rewrite E2. apply signalsAt_near. lra. }
  split; [exact C1|]. split; [exact C2|].
  rewrite !run_cons_events, !reachedCount_app.
  unfold step, nearFrame. cbn [droneRef keys obstacles objectivePosition now delta].
  rewrite C1, C2. reflexivity.
Qed.

(* ================================================================= *)
(** ** C5: buildings and the pushback *)

(** C5 (amended). In a flying frame, a collision point strictly inside the
    box of a building inflated by the point's radius makes the frame end
    crashed, within that frame, with the velocity zeroed; the candidate is not
    committed: the position written is the position the frame started from,
    moved by 1.5 times the normalized contact velocity against that velocity
    when the squared speed exceeds 0.1, and raised by 0.5 otherwise.  Nothing
    is promised about that position being outside the inflated box. *)
Theorem building_collision :
  (forall keys obstacles objective now delta s ox oy oz w h dp px py pz r,
      isCrashed s = false ->
      In (buildingAt ox oy oz w h dp) obstacles ->
      In (pt px py pz, Num r) (frameCheckPoints keys (clampDelta delta) (nanGuard s)) ->
      Rabs (px - ox) < w / 2 + r ->
      Rabs (py - oy) < h / 2 + r ->
      Rabs (pz - oz) < dp / 2 + r ->
      isCrashed (fst (useFrame true keys obstacles objective now delta s)) = true /\
      velocity (fst (useFrame true keys obstacles objective now delta s)) = pt 0 0 0 /\
      position (fst (useFrame true keys obstacles objective now delta s))
      = pushback (position (nanGuard s))
                 (contactVelocity keys (clampDelta delta) (nanGuard s))) /\
  (forall px py pz vx vy vz,
      0.1 < speedSq vx vy vz ->
      pushback (pt px py pz) (pt vx vy vz)
      = pt (px - vx * (1 / sqrt (speedSq vx vy vz)) * 1.5)
           (py - vy * (1 / sqrt (speedSq vx vy vz)) * 1.5)
           (pz - vz * (1 / sqrt (speedSq vx vy vz)) * 1.5)) /\
  (forall px py pz vx vy vz,
      speedSq vx vy vz <= 0.1 ->
      pushback (pt px py pz) (pt vx vy vz) = pt px (py + 0.5) pz).
Proof.
  split; [|split; [exact pushback_fast | exact pushback_slow]].
  intros * Hs Hobs Hcp Hx Hy Hz.
  assert (Hhit : obstacleHit (buildingAt ox oy oz w h dp) (pt px py pz, Num r) = true).
  { unfold obstacleHit. cbn [buildingAt Obstacle.type fst snd].
    apply buildingHit_spec. repeat split; assumption. }
  pose proof (obstacle_hit_collision _ _ _ _ _ _ Hobs Hcp Hhit) as Hc.
  rewrite useFrame_flying by exact Hs.
  rewrite flyingFrame_crash by (try rewrite nanGuard_isCrashed; assumption).
  repeat split.
Qed.

Lemma building_collision_witness :
  (isCrashed (fst (useFrame true noKeys [tower] None (Num 0) (Num 0.016) initialRefs)) = true /\
   velocity (fst (useFrame true noKeys [tower] None (Num 0) (Num 0.016) initialRefs)) = pt 0 0 0 /\
   position (fst (useFrame true noKeys [tower] None (Num 0) (Num 0.016) initialRefs))
   = pushback (position (nanGuard initialRefs))
              (contactVelocity noKeys (clampDelta (Num 0.016)) (nanGuard initialRefs))) /\
  pushback (pt 0 2 0) (pt 1 0 0)
  = pt (0 - 1 * (1 / sqrt (speedSq 1 0 0)) * 1.5)
       (2 - 0 * (1 / sqrt (speedSq 1 0 0)) * 1.5)
       (0 - 0 * (1 / sqrt (speedSq 1 0 0)) * 1.5) /\
  pushback (pt 0 2 0) (pt 0 0 0) = pt 0 (2 + 0.5) 0.
Proof.
  split; [|split].
  - apply (proj1 building_collision noKeys [tower] None (Num 0) (Num 0.016) initialRefs
             0 10 0 10 20 10 0 1.993728 0 0.5).
    + reflexivity.
    + left; reflexivity.
    + left. unfold frameCheckPoints, checkPoints. now rewrite hover_nextPosition.
    + rcase.
    + rcase.
    + rcase.
  - apply (proj1 (proj2 building_collision)). unfold speedSq. lra.
  - apply (proj2 (proj2 building_collision)). unfold speedSq. lra.
Defined.

(** C5 as stated fails.  In the first frame of a session with [tower] among
    the obstacles, the candidate centre is strictly inside the inflated box,
    the frame ends crashed, and the position written by the pushback,
    [(0, 3.5, 0)], is strictly inside the inflated box as well. *)
Lemma pushback_stays_inside :
  In (nextPosition noKeys (clampDelta (Num 0.016)) (nanGuard initialRefs), DRONE_RADIUS)
     (frameCheckPoints noKeys (clampDelta (Num 0.016)) (nanGuard initialRefs)) /\
  buildingHit tower
    (nextPosition noKeys (clampDelta (Num 0.016)) (nanGuard initialRefs))
    DRONE_RADIUS = true /\
  isCrashed (fst (useFrame true noKeys [tower] None (Num 0) (Num 0.016) initialRefs)) = true /\
  position (fst (useFrame true noKeys [tower] None (Num 0) (Num 0.016) initialRefs))
  = pt 0 3.5 0 /\
  buildingHit tower
    (position (fst (useFrame true noKeys [tower] None (Num 0) (Num 0.016) initialRefs)))
    DRONE_RADIUS = true.
Proof.
  assert (Hin : In (nextPosition noKeys (clampDelta (Num 0.016)) (nanGuard initialRefs),
                    DRONE_RADIUS)
                   (frameCheckPoints noKeys (clampDelta (Num 0.016)) (nanGuard initialRefs)))
    by (left; reflexivity).
  assert (Hhit : buildingHit tower
                   (nextPosition noKeys (clampDelta (Num 0.016)) (nanGuard initialRefs))
                   DRONE_RADIUS = true).
  { rewrite hover_nextPosition. apply buildingHit_spec. repeat split; rcase. }
  assert (Hc : frameCollision noKeys [tower] (clampDelta (Num 0.016)) (nanGuard initialRefs)
               = true).
  { apply (obstacle_hit_collision noKeys [tower] _ _ tower _ (in_eq tower []) Hin).
    exact Hhit. }
  assert (Hp : position (fst (useFrame true noKeys [tower] None (Num 0) (Num 0.016) initialRefs))
               = pt 0 3.5 0).
  { rewrite useFrame_flying by reflexivity.
    rewrite flyingFrame_crash by (reflexivity || exact Hc).
    cbn [position]. rewrite hover_contactVelocity.
    exact hover_pushback. }
  split; [exact Hin|]. split; [exact Hhit|]. split.
  - rewrite useFrame_flying by reflexivity.
    now rewrite flyingFrame_crash by (reflexivity || exact Hc).
  - split; [exact Hp|]. rewrite Hp.
    apply buildingHit_spec. repeat split; rcase.
Qed.

(* ================================================================= *)
(** ** C6: trees *)

(** C6. In a flying frame, a collision point whose horizontal distance to the
    centre of a tree is below 1.5 plus the point's radius and whose altitude
    is below the tree's height makes the frame end crashed.  At or above the
    tree's height the tree test of a point is false, whatever the horizontal
    distance; and a frame whose five collision points are all at or above the
    height of a tree is not crashed by that tree: when no propeller is below
    the ground threshold and every other obstacle misses every point, the
    frame ends flying and commits the candidate position, whatever the
    horizontal distances to the tree. *)
Theorem tree_collision :
  (forall keys obstacles objective now delta s ox oy oz w h dp px py pz r,
      isCrashed s = false ->
      In (treeAt ox oy oz w h dp) obstacles ->
      In (pt px py pz, Num r) (frameCheckPoints keys (clampDelta delta) (nanGuard s)) ->
      sqrt ((px - ox) ^ 2 + (pz - oz) ^ 2) < 1.5 + r ->
      py < h ->
      isCrashed (fst (useFrame true keys obstacles objective now delta s)) = true) /\
  (forall ox oy oz w h dp px py pz r,
      h <= py ->
      treeHit (treeAt ox oy oz w h dp) (pt px py pz) (Num r) = false) /\
  (forall keys obstacles objective now delta s ox oy oz w h dp,
      isCrashed s = false ->
      propGroundHit (propPoints (frameQuat keys (clampDelta delta) (nanGuard s))
                                (nextPosition keys (clampDelta delta) (nanGuard s)))
      = false ->
      (forall cp,
          In cp (frameCheckPoints keys (clampDelta delta) (nanGuard s)) ->
          exists px py pz r, cp = (pt px py pz, Num r) /\ h <= py) ->
      (forall obs cp,
          In obs obstacles ->
          In cp (frameCheckPoints keys (clampDelta delta) (nanGuard s)) ->
          obs = treeAt ox oy oz w h dp \/ obstacleHit obs cp = false) ->
      isCrashed (fst (useFrame true keys obstacles objective now delta s)) = false /\
      position (fst (useFrame true keys obstacles objective now delta s))
      = nextPosition keys (clampDelta delta) (nanGuard s)).
Proof.
  assert (Habove : forall ox oy oz w h dp px py pz r,
             h <= py -> treeHit (treeAt ox oy oz w h dp) (pt px py pz) (Num r) = false).
  { intros * Hy.
    destruct (treeHit _ _ _) eqn:E; [|reflexivity].
    apply treeHit_spec in E. lra. }
  split; [|split; [exact Habove|]].
  - intros * Hs Hobs Hcp Hd Hy.
    apply (obstacle_hit_crashes _ _ _ _ _ _ _ _ Hs Hobs Hcp).
    unfold obstacleHit. cbn [treeAt Obstacle.type fst snd].
    apply treeHit_spec. split; assumption.
  - intros * Hs Hprop Hpts Hothers.
    apply no_hit_stays_flying; [exact Hs|exact Hprop|].
    intros obs cp Hobs Hcp.
    destruct (Hothers obs cp Hobs Hcp) as [->|Hmiss]; [|exact Hmiss].
    destruct (Hpts cp Hcp) as (px & py & pz & r & -> & Hy).
    unfold obstacleHit. cbn [treeAt Obstacle.type fst snd].
    now apply Habove.
Qed.

Lemma tree_collision_witness :
  isCrashed (fst (useFrame true noKeys [oak] None (Num 0) (Num 0.016) initialRefs)) = true /\
  treeHit oak (pt 0 4 0) (Num 0.5) = false /\
  (isCrashed (fst (useFrame true noKeys [oak] None (Num 0) (Num 0.016) overOak)) = false /\
   position (fst (useFrame true noKeys [oak] None (Num 0) (Num 0.016) overOak))
   = nextPosition noKeys (clampDelta (Num 0.016)) (nanGuard overOak)).
Proof.
  split; [|split].
  - apply (proj1 tree_collision noKeys [oak] None (Num 0) (Num 0.016) initialRefs
             1 0 0 1.5 4 1.5 0 1.993728 0 0.5).
    + reflexivity.
    + left; reflexivity.
    + left. unfold frameCheckPoints, checkPoints. now rewrite hover_nextPosition.
    + replace ((0 - 1) ^ 2 + (0 - 0) ^ 2) with 1 by lra. rewrite sqrt_1. lra.
    + lra.
  - apply (proj1 (proj2 tree_collision)). lra.
  - apply (proj2 (proj2 tree_collision) noKeys [oak] None (Num 0) (Num 0.016) overOak
             1 0 0 1.5 4 1.5).
    + reflexivity.
    + rewrite overOak_nextPosition, overOak_frameQuat.
      unfold pt. rewrite propGroundHit_level. apply Rltb_false. lra.
    + rewrite overOak_checkPoints. intros cp Hcp.
      repeat (destruct Hcp as [<-|Hcp];
              [do 4 eexists; split; [reflexivity|lra]|]).
      destruct Hcp.
    + intros obs cp [<-|[]] _. left. reflexivity.
Defined.

(* ================================================================= *)
(** ** C7: the NaN guard *)

(** C7 fails on the code.  A state whose only NaN component is [position.y]
    passes the guard unchanged and still has a NaN altitude after the frame;
    a state whose only NaN component is [velocity.z] passes the guard
    unchanged and ends the frame with [velocity.z] and [position.z] NaN. *)
Theorem nan_guard_misses_components :
  nanGuard nanAltitude = nanAltitude /\
  Vector3.y (position (fst (useFrame true noKeys [] None (Num 1) (Num 0.016) nanAltitude)))
  = NaN /\
  nanGuard nanDrift = nanDrift /\
  Vector3.z (velocity (fst (useFrame true noKeys [] None (Num 1) (Num 0.016) nanDrift)))
  = NaN /\
  Vector3.z (position (fst (useFrame true noKeys [] None (Num 1) (Num 0.016) nanDrift)))
  = NaN.
Proof.
  split; [reflexivity|]. split; [now apply nan_altitude_persists|].
  split; [reflexivity|].
  assert (E : exists px py vx vy r t c l,
             fst (useFrame true noKeys [] None (Num 1) (Num 0.016) nanDrift)
             = mkRefs (Vector3.mk px py NaN) (Vector3.mk vx vy NaN) r t c l).
  { level_frame.
    unfold integrateVelocity. rewrite applyQuaternion_qid.
    unfold predictPosition, nanDrift, initialRefs. js_eval.
    unfold groundPosition, groundVelocity, groundRotation, groundContact. js_eval.
    rewrite Rltb_false by rcase. cbv [andb].
    unfold detectCollision, propPoints, PROP_OFFSETS. cbn [map negb].
    rewrite !applyQuaternion_qid. unfold propGroundHit. js_eval.
    rewrite Rltb_false by rcase.
    cbv [obstacleScan existsb negb andb].
    case_if; cbn [fst]; repeat eexists. }
  destruct E as (px & py & vx & vy & r & t & c & l & E). rewrite E.
  split; reflexivity.
Qed.

(* ================================================================= *)
(** ** C8: the elapsed time is clamped before any use *)

(** C8. The frame uses the supplied elapsed time only through
    [Math.min(delta, 0.1)]: replacing [delta] by its clamp changes nothing in
    the frame's result, the clamped value is never greater than [0.1], and on
    a number [d] it is the minimum of [d] and [0.1]. *)
Theorem elapsed_time_clamped :
  (forall droneRef keys obstacles objective now delta s,
      useFrame droneRef keys obstacles objective now delta s
      = (if negb droneRef then (s, [])
         else frameWith keys obstacles objective (Math.min delta (Num 0.1)) now s)) /\
  (forall droneRef keys obstacles objective now delta s,
      useFrame droneRef keys obstacles objective now delta s
      = useFrame droneRef keys obstacles objective now (clampDelta delta) s) /\
  (forall delta, (clampDelta delta >? Num 0.1)%js = false) /\
  (forall d : R, clampDelta (Num d) = Num (Rmin d 0.1) /\ Rmin d 0.1 <= 0.1).
Proof.
  split; [|split; [|split]].
  - intros; reflexivity.
  - intros. unfold useFrame. now rewrite clampDelta_idem.
  - intros [|d]; [reflexivity|]. unfold ngt; simpl. rcase.
  - intros d. split; [reflexivity|]. rcase.
Qed.

(* ================================================================= *)
(** ** C9: frames of zero elapsed time *)

(** C9 (amended). Take two consecutive frames of zero elapsed time, with the
    same keys and obstacles, from refs that are all numbers.  The attitude,
    the throttle and the status are the same after the second frame as after
    the first.  When the first frame ends flying, the position is the same
    too, but the velocity is not: the second frame multiplies it by the drag
    factor 0.98.  When the first frame starts crashed, position and velocity
    are the same after both frames. *)
Theorem zero_time_frames keys obstacles objective now1 now2
        px py pz vx vy vz rx ry rz t c l :
  let s1 := fst (useFrame true keys obstacles objective now1 (Num 0)
                   (numericRefs px py pz vx vy vz rx ry rz t c l)) in
  let s2 := fst (useFrame true keys obstacles objective now2 (Num 0) s1) in
  rotation s2 = rotation s1 /\
  throttle s2 = throttle s1 /\
  isCrashed s2 = isCrashed s1 /\
  (isCrashed s1 = false ->
   position s2 = position s1 /\
   velocity s2 = Vector3.multiplyScalar (velocity s1) DRAG) /\
  (c = true -> position s2 = position s1 /\ velocity s2 = velocity s1).
Proof.
  cbv zeta. destruct c.
  - (* crashed from the start *)
    rewrite (useFrame_crashed _ _ _ now1) by reflexivity.
    rewrite nanGuard_finite, clampDelta_zero by reflexivity.
    unfold numericRefs.
    destruct (zero_frame_crashed now1 px py pz vx vy vz
                (Euler.mk (Num rx) (Num ry) (Num rz)) (Num t) true l)
      as (qy & wx & wy & wz & l' & Hq & _ & E).
    rewrite E.
    rewrite useFrame_crashed by reflexivity.
    rewrite nanGuard_finite, clampDelta_zero by reflexivity.
    destruct (zero_frame_crashed now2 px qy pz wx wy wz
                (Euler.mk (Num rx) (Num ry) (Num rz)) (Num t) true l')
      as (qy' & wx' & wy' & wz' & l'' & _ & Hsame & E').
    rewrite E'. destruct (Hsame Hq) as (-> & -> & -> & ->).
    cbn [rotation throttle isCrashed position velocity].
    repeat split; try reflexivity; intros; discriminate.
  - (* flying *)
    rewrite (useFrame_flying _ _ _ now1) by reflexivity.
    rewrite nanGuard_finite, clampDelta_zero by reflexivity.
    destruct (zero_frame_flying keys obstacles objective now1
                px py pz vx vy vz rx ry rz t l) as [Hc1 Hcommit].
    destruct (frameCollision keys obstacles (Num 0)
                (numericRefs px py pz vx vy vz rx ry rz t false l)) eqn:Hc.
    + (* the first frame crashes *)
      rewrite flyingFrame_crash by (reflexivity || exact Hc).
      rewrite useFrame_crashed by reflexivity.
      rewrite crashedFrame_rotation, crashedFrame_throttle, crashedFrame_isCrashed.
      cbn [nanGuard rotation throttle isCrashed].
      repeat split; try reflexivity; intros; discriminate.
    + destruct (Hcommit eq_refl) as (l' & E). rewrite E.
      destruct (ground_cases px py pz (vx * 0.98) (vy * 0.98) (vz * 0.98))
        as (qy & wx & wy & wz & Hq & Eg & Ev).
      rewrite Eg in *. rewrite Ev.
      destruct (throttleInput_zero_Num keys t) as [t1 Et]. rewrite Et.
      change (mkRefs (pt px qy pz) (pt wx wy wz) (Euler.mk (Num rx) (Num ry) (Num rz))
                     (Num t1) false l')
        with (numericRefs px qy pz wx wy wz rx ry rz t1 false l').
      rewrite useFrame_flying by reflexivity.
      rewrite nanGuard_finite, clampDelta_zero by reflexivity.
      destruct (zero_frame_flying keys obstacles objective now2
                  px qy pz wx wy wz rx ry rz t1 l') as [Hc2 Hcommit2].
      rewrite groundPosition_air in Hc2 by exact Hq. rewrite <- Hc1 in Hc2.
      destruct (Hcommit2 Hc2) as (l'' & E2). rewrite E2.
      rewrite groundPosition_air, groundVelocity_air by exact Hq.
      cbn [numericRefs rotation throttle isCrashed position velocity].
      assert (Eth : throttleInput keys (Num 0) (Num t1) = Num t1)
        by (rewrite <- Et; apply throttleInput_zero_idem).
      rewrite Eth.
      repeat split; try reflexivity; intros; discriminate.
Qed.

Lemma zero_time_frames_witness :
  (position (zeroFrame (zeroFrame drifting)) = position (zeroFrame drifting) /\
   velocity (zeroFrame (zeroFrame drifting))
   = Vector3.multiplyScalar (velocity (zeroFrame drifting)) DRAG) /\
  (position (zeroFrame (zeroFrame wreck)) = position (zeroFrame wreck) /\
   velocity (zeroFrame (zeroFrame wreck)) = velocity (zeroFrame wreck)).
Proof.
  split.
  - apply (proj1 (proj2 (proj2 (proj2
             (zero_time_frames noKeys [] None (Num 0) (Num 0)
                0 2 0 1 0 0 0 0 0 0 false (Num 0)))))).
    destruct (zeroFrame_level_air 0 2 0 1 0 0 0 (Num 0)) as (l' & E); [lra|].
    unfold zeroFrame in E.
    change (numericRefs 0 2 0 1 0 0 0 0 0 0 false (Num 0))
      with (mkRefs (pt 0 2 0) (pt 1 0 0) level (Num 0) false (Num 0)).
    rewrite E. reflexivity.
  - apply (proj2 (proj2 (proj2 (proj2
             (zero_time_frames noKeys [] None (Num 0) (Num 0)
                3 0.2 4 0 0 0 0 0 0 0 true (Num 0)))))).
    reflexivity.
Defined.

(** C9 as stated fails.  From [drifting], two frames of zero elapsed time
    give the velocities [(0.98, 0, 0)] and [(0.9604, 0, 0)]: the drag is
    applied in every frame, whatever the elapsed time. *)
Lemma zero_time_drag :
  velocity (zeroFrame drifting) = pt 0.98 0 0 /\
  velocity (zeroFrame (zeroFrame drifting)) = pt 0.9604 0 0 /\
  zeroFrame (zeroFrame drifting) <> zeroFrame drifting.
Proof.
  destruct (zeroFrame_level_air 0 2 0 1 0 0 0 (Num 0)) as (l1 & E1); [lra|].
  change (mkRefs (pt 0 2 0) (pt 1 0 0) level (Num 0) false (Num 0))
    with drifting in E1.
  assert (V1 : velocity (zeroFrame drifting) = pt 0.98 0 0).
  { rewrite E1. cbn [velocity]. unfold pt. f_equal; f_equal; lra. }
  assert (V2 : velocity (zeroFrame (zeroFrame drifting)) = pt 0.9604 0 0).
  { rewrite E1.
    destruct (zeroFrame_level_air (0 + 1 * 0.98 * 0)
                (2 + (0 + (0 * 65 - 25) * 0) * 0.98 * 0) (0 + 0 * 0.98 * 0)
                (1 * 0.98) ((0 + (0 * 65 - 25) * 0) * 0.98) (0 * 0.98) 0 l1)
      as (l2 & E2); [lra|].
    rewrite E2. cbn [velocity]. unfold pt. f_equal; f_equal; lra. }
  split; [exact V1|]. split; [exact V2|].
  intros H. rewrite H, V1 in V2.
  assert (Hx : Num 0.98 = Num 0.9604) by exact (f_equal Vector3.x V2).
  injection Hx as Hx. lra.
Qed.

(* ================================================================= *)
(** ** C10: after the crash, only the vertical components move *)

(** C10. The crash transition zeroes the velocity; and in a session that
    starts flying, whose elapsed times are numbers, once the status is
    Crashed the horizontal velocity is zero and the components [x] and [z] of
    position and velocity are the same after any number of further frames. *)
Theorem crashed_horizontal_frozen :
  (forall f s,
      isCrashed s = false ->
      isCrashed (fst (step f s)) = true ->
      velocity (fst (step f s)) = pt 0 0 0) /\
  (forall s fs1 fs2,
      isCrashed s = false ->
      Forall timed (fs1 ++ fs2) ->
      isCrashed (fst (run fs1 s)) = true ->
      Vector3.x (velocity (fst (run fs1 s))) = Num 0 /\
      Vector3.z (velocity (fst (run fs1 s))) = Num 0 /\
      horizontal (fst (run (fs1 ++ fs2) s)) = horizontal (fst (run fs1 s))).
Proof.
  split.
  - intros f s Hs Hc. exact (proj1 (crash_transition_latched f s Hs Hc)).
  - intros s fs1 fs2 Hs Ht Hc.
    apply Forall_app in Ht. destruct Ht as [Ht1 Ht2].
    destruct (flying_or_latched fs1 s Ht1 (or_introl Hs)) as [Hf|Hl]; [congruence|].
    destruct (latched_run fs2 _ Ht2 Hl) as [_ Hh].
    rewrite run_app. destruct Hl as (_ & Hvx & Hvz & _).
    repeat split; assumption.
Qed.

Lemma crashed_horizontal_frozen_witness :
  velocity (fst (step towerFrame initialRefs)) = pt 0 0 0 /\
  (Vector3.x (velocity (fst (run [towerFrame] initialRefs))) = Num 0 /\
   Vector3.z (velocity (fst (run [towerFrame] initialRefs))) = Num 0 /\
   horizontal (fst (run ([towerFrame] ++ [towerFrame; towerFrame]) initialRefs))
   = horizontal (fst (run [towerFrame] initialRefs))).
Proof.
  split.
  - apply (proj1 crashed_horizontal_frozen towerFrame initialRefs).
    + reflexivity.
    + exact tower_crash.
  - apply (proj2 crashed_horizontal_frozen initialRefs [towerFrame] [towerFrame; towerFrame]).
    + reflexivity.
    + repeat constructor.
    + rewrite run_cons. exact tower_crash.
Defined.

(* ================================================================= *)
(** ** Keyboard state *)

Lemma dispatchKeys_app es1 es2 keys :
  dispatchKeys (es1 ++ es2) keys = dispatchKeys es2 (dispatchKeys es1 keys).
Proof. unfold dispatchKeys. apply fold_left_app. Qed.

Lemma dispatchKey_other e keys c :
  eventCode e <> c -> dispatchKey e keys c = keys c.
Proof.
  intros H. destruct e as [c'|c']; cbn [dispatchKey eventCode] in *;
    unfold handleKeyDown, handleKeyUp;
    destruct (String.eqb_spec c c'); congruence.
Qed.

Lemma dispatchKeys_other es keys c :
  Forall (fun e => eventCode e <> c) es -> dispatchKeys es keys c = keys c.
Proof.
  intros H; revert keys. induction H as [|e es He Hes IH]; intros keys; [reflexivity|].
  change (dispatchKeys (e :: es) keys) with (dispatchKeys es (dispatchKey e keys)).
  rewrite IH. now apply dispatchKey_other.
Qed.

(** A key reads as held exactly when the last event that named its code was
    a keydown: whatever came before that event, and whatever events on other
    codes came after it.  A code no event named keeps its reading. *)
Theorem key_state_last_event :
  (forall es1 es2 keys c,
      Forall (fun e => eventCode e <> c) es2 ->
      dispatchKeys (es1 ++ keydown c :: es2) keys c = true /\
      dispatchKeys (es1 ++ keyup c :: es2) keys c = false) /\
  (forall es keys c,
      Forall (fun e => eventCode e <> c) es ->
      dispatchKeys es keys c = keys c).
Proof.
  split; [|exact dispatchKeys_other].
  intros es1 es2 keys c H. split.
  - rewrite dispatchKeys_app.
    change (dispatchKeys (keydown c :: es2) ?k)
      with (dispatchKeys es2 (handleKeyDown c k)).
    rewrite dispatchKeys_other by exact H.
    unfold handleKeyDown. now rewrite String.eqb_refl.
  - rewrite dispatchKeys_app.
    change (dispatchKeys (keyup c :: es2) ?k)
      with (dispatchKeys es2 (handleKeyUp c k)).
    rewrite dispatchKeys_other by exact H.
    unfold handleKeyUp. now rewrite String.eqb_refl.
Qed.

Lemma key_state_last_event_witness :
  (dispatchKeys ([keyup "KeyW"] ++ keydown "KeyW" :: [keydown "Space"]) noKeys "KeyW" = true /\
   dispatchKeys ([keyup "KeyW"] ++ keyup "KeyW" :: [keydown "Space"]) noKeys "KeyW" = false) /\
  dispatchKeys [keydown "Space"; keyup "KeyA"] noKeys "KeyW" = noKeys "KeyW".
Proof.
  split.
  - apply (proj1 key_state_last_event). repeat constructor. discriminate.
  - apply (proj2 key_state_last_event). repeat constructor; discriminate.
Defined.

(* ================================================================= *)
(** ** Mouse look *)

Lemma onMouseMove_range locked (dx dy : R) o :
  inLookRange (phi o) ->
  inLookRange (phi (onMouseMove locked (Num dx) (Num dy) o)).
Proof.
  intros H. unfold onMouseMove. destruct locked; [|exact H].
  destruct (phi o) as [|p]; [contradiction|]. cbn [phi].
  cbv [nsub nmul lift2 Math.max Math.min inLookRange]. rcase.
Qed.

(** Whatever the mouse does, the camera elevation stays within the clamp
    [-0.5, 1.2]: from an elevation in the range (the initial one is 0.2), any
    sequence of mouse moves with numeric movements, pointer locked or not,
    leaves it in the range; and a move without pointer lock changes nothing. *)
Theorem camera_elevation_clamped :
  (forall es o,
      Forall (fun e => isNumber (movementX e) /\ isNumber (movementY e)) es ->
      inLookRange (phi o) ->
      inLookRange (phi (dispatchMouse es o))) /\
  inLookRange (phi initialOrbit) /\
  (forall dx dy o, onMouseMove false dx dy o = o).
Proof.
  split; [|split; [simpl; lra | reflexivity]].
  intros es o Hes; revert o.
  induction Hes as [|e es [Hx Hy] Hes IH]; intros o Ho; [exact Ho|].
  change (dispatchMouse (e :: es) o)
    with (dispatchMouse es (onMouseMove (pointerLocked e) (movementX e) (movementY e) o)).
  apply IH.
  destruct (movementX e) as [|dx]; [discriminate Hx|].
  destruct (movementY e) as [|dy]; [discriminate Hy|].
  now apply onMouseMove_range.
Qed.

Lemma camera_elevation_clamped_witness :
  inLookRange
    (phi (dispatchMouse [mkMouse true (Num 3) (Num 4000); mkMouse false (Num 1) (Num 1);
                         mkMouse true (Num 0) (Num (-9000))] initialOrbit)).
Proof.
  apply (proj1 camera_elevation_clamped).
  - repeat constructor.
  - simpl; lra.
Defined.

(* ================================================================= *)
(** ** Tilt *)









(* ================================================================= *)
(** ** Altitude floors and the ground clamp *)

Lemma groundPosition_floor next (y : R) :
  Vector3.y (groundPosition next) = Num y -> 0.5 <= y.
Proof.
  unfold groundPosition, groundContact.
  destruct (Vector3.y next) as [|u] eqn:E; cbn [nlt].
  - rewrite E. discriminate.
  - unfold Rltb. destruct (Rlt_dec u 0.5); cbn [Vector3.y].
    + intros H; injection H as <-. lra.
    + rewrite E. intros H; injection H as <-. lra.
Qed.

Lemma crashedFrame_floor dt now s (y : R) :
  Vector3.y (position (fst (crashedFrame dt now s))) = Num y -> 0.2 <= y.
Proof.
  unfold crashedFrame.
  set (p1 := Vector3.add (position s) _).
  destruct (Vector3.y p1) as [|u] eqn:E; cbn [nlt].
  - case_if; cbn [fst position]; rewrite E; discriminate.
  - unfold Rltb. destruct (Rlt_dec u 0.2);
      case_if; cbn [fst position Vector3.y]; try rewrite E;
      intros H; injection H as <-; lra.
Qed.

(** The altitude has a floor.  A frame that starts flying and ends flying
    commits an altitude of at least 0.5 (when it is a number), and when the
    candidate was below 0.5 it commits exactly 0.5 with the vertical velocity
    zero and the horizontal velocity damped by 0.8; a frame that starts
    crashed ends at an altitude of at least 0.2. *)
Theorem altitude_floors :
  (forall keys obstacles objective now delta s y,
      isCrashed s = false ->
      isCrashed (fst (useFrame true keys obstacles objective now delta s)) = false ->
      Vector3.y (position (fst (useFrame true keys obstacles objective now delta s))) = Num y ->
      0.5 <= y) /\
  (forall keys obstacles objective now delta s,
      isCrashed s = false ->
      isCrashed (fst (useFrame true keys obstacles objective now delta s)) = false ->
      groundContact (candidate keys (clampDelta delta) (nanGuard s)) = true ->
      Vector3.y (position (fst (useFrame true keys obstacles objective now delta s))) = Num 0.5 /\
      velocity (fst (useFrame true keys obstacles objective now delta s))
      = Vector3.mk
          (Vector3.x (frameVelocity keys (clampDelta delta) (nanGuard s)) * Num 0.8)%js
          (Num 0)
          (Vector3.z (frameVelocity keys (clampDelta delta) (nanGuard s)) * Num 0.8)%js) /\
  (forall keys obstacles objective now delta s y,
      isCrashed s = true ->
      Vector3.y (position (fst (useFrame true keys obstacles objective now delta s))) = Num y ->
      0.2 <= y).
Proof.
  split; [|split].
  - intros keys obstacles objective now delta s y Hs Hc.
    rewrite useFrame_flying in * by exact Hs.
    assert (Hg : isCrashed (nanGuard s) = false) by now rewrite nanGuard_isCrashed.
    rewrite flyingFrame_isCrashed in Hc by exact Hg.
    destruct (flyingFrame_commit keys obstacles objective (clampDelta delta) now
                (nanGuard s) Hg Hc) as (l & -> & _).
    cbn [position]. apply groundPosition_floor.
  - intros keys obstacles objective now delta s Hs Hc Hgc.
    rewrite useFrame_flying in * by exact Hs.
    assert (Hg : isCrashed (nanGuard s) = false) by now rewrite nanGuard_isCrashed.
    rewrite flyingFrame_isCrashed in Hc by exact Hg.
    destruct (flyingFrame_commit keys obstacles objective (clampDelta delta) now
                (nanGuard s) Hg Hc) as (l & -> & _).
    cbn [position velocity]. unfold nextPosition, contactVelocity, groundPosition, groundVelocity.
    rewrite Hgc. split; reflexivity.
  - intros keys obstacles objective now delta s y Hs.
    rewrite useFrame_crashed by exact Hs. apply crashedFrame_floor.
Qed.

(** In level flight with no key held, the ground clamp leaves the propellers
    at the altitude of the centre, at or above 0.5: only an obstacle can set
    the collision flag. *)
Lemma level_noKeys_collision obstacles (d px py pz vx vy vz t : R) c l :
  frameCollision noKeys obstacles (Num d)
    (mkRefs (pt px py pz) (pt vx vy vz) level (Num t) c l)
  = obstacleScan obstacles
      (frameCheckPoints noKeys (Num d)
         (mkRefs (pt px py pz) (pt vx vy vz) level (Num t) c l)).
Proof.
  rewrite frameCollision_eq. unfold frameCheckPoints, nextPosition.
  rewrite frameQuat_level, candidate_level by reflexivity.
  destruct (ground_cases (px + vx * 0.98 * d)
              (py + (vy + (t * 65 - 25) * d) * 0.98 * d) (pz + vz * 0.98 * d) 0 0 0)
    as (qy & _ & _ & _ & Hq & -> & _).
  unfold pt at 1. rewrite detectCollision_level.
  now rewrite Rltb_false by lra.
Qed.

Lemma level_noKeys_clear (d px py pz vx vy vz t : R) c l :
  frameCollision noKeys [] (Num d)
    (mkRefs (pt px py pz) (pt vx vy vz) level (Num t) c l) = false.
Proof. now rewrite level_noKeys_collision. Qed.

Lemma altitude_floors_witness :
  0.5 <= 1.993728 /\
  (Vector3.y (position (fst plungeFrame)) = Num 0.5 /\
   velocity (fst plungeFrame)
   = Vector3.mk
       (Vector3.x (frameVelocity noKeys (clampDelta (Num 0.1)) (nanGuard plunging)) * Num 0.8)%js
       (Num 0)
       (Vector3.z (frameVelocity noKeys (clampDelta (Num 0.1)) (nanGuard plunging)) * Num 0.8)%js) /\
  0.2 <= 0.2 + (0 - 25 * 0) * 0.
Proof.
  assert (Hdt : clampDelta (Num 0.1) = Num 0.1)
    by (rewrite clampDelta_Num; f_equal; rcase).
  split; [|split].
  - apply (proj1 altitude_floors noKeys [] None (Num 0) (Num 0.016) initialRefs).
    + reflexivity.
    + rewrite useFrame_flying, flyingFrame_isCrashed by reflexivity.
      rewrite nanGuard_finite, clampDelta_Num by reflexivity.
      apply (level_noKeys_clear _ 0 2 0 0 0 0 0).
    + rewrite useFrame_flying by reflexivity.
      destruct (flyingFrame_commit noKeys [] None (clampDelta (Num 0.016)) (Num 0)
                  (nanGuard initialRefs) eq_refl) as (l & -> & _).
      * rewrite nanGuard_finite, clampDelta_Num by reflexivity.
        apply (level_noKeys_clear _ 0 2 0 0 0 0 0).
      * cbn [position]. now rewrite hover_nextPosition.
  - apply (proj1 (proj2 altitude_floors) noKeys [] None (Num 1) (Num 0.1) plunging).
    + reflexivity.
    + rewrite useFrame_flying, flyingFrame_isCrashed by reflexivity.
      rewrite nanGuard_finite, Hdt by reflexivity.
      apply (level_noKeys_clear _ 0 5 0 0 (-60) 0 0).
    + rewrite nanGuard_finite, Hdt by reflexivity.
      change plunging with (mkRefs (pt 0 5 0) (pt 0 (-60) 0) level (Num 0) false (Num 0)).
      rewrite candidate_level. unfold groundContact, pt. cbn [Vector3.y nlt].
      apply Rltb_true. lra.
  - apply (proj2 (proj2 altitude_floors) noKeys [] None (Num 0) (Num 0) wreck).
    + reflexivity.
    + rewrite useFrame_crashed, nanGuard_finite, clampDelta_zero by reflexivity.
      unfold crashedFrame, wreck.
      cbv [position velocity rotation throttle isCrashed lastStatsUpdate
           Vector3.add Vector3.multiplyScalar Vector3.x Vector3.y Vector3.z
           GRAVITY nadd nsub nmul lift2 nlt ngt].
      rewrite (Rltb_false (0.2 + (0 - 25 * 0) * 0) 0.2) by lra.
      case_if; reflexivity.
Defined.

(* ================================================================= *)
(** ** Level flight without steering *)

Lemma groundRotation_level (d : R) next :
  groundRotation noKeys (Num d) next level = level.
Proof.
  unfold groundRotation. case_if; [|reflexivity].
  unfold level. js_eval. f_equal; f_equal; lra.
Qed.





(* ================================================================= *)
(** ** Propeller ground strike *)

Lemma prop_strike_collision keys obstacles dt s p (y : R) :
  In p (propPoints (frameQuat keys dt s) (nextPosition keys dt s)) ->
  Vector3.y p = Num y -> y < 0.1 ->
  frameCollision keys obstacles dt s = true.
Proof.
  intros Hin Hy Hlt. rewrite frameCollision_eq. unfold detectCollision. cbn [negb].
  assert (Hp : propGroundHit (propPoints (frameQuat keys dt s) (nextPosition keys dt s))
               = true).
  { apply existsb_exists. exists p. split; [exact Hin|].
    rewrite Hy. cbn [nlt]. now apply Rltb_true. }
  now rewrite Hp.
Qed.

(** A propeller that dips below 0.1 crashes the drone: in a flying frame, if
    one of the four propeller points of the candidate has an altitude below
    0.1, the frame ends crashed with the velocity zeroed, obstacle or not. *)
Theorem propeller_ground_strike keys obstacles objective now delta s p (y : R) :
  isCrashed s = false ->
  In p (propPoints (frameQuat keys (clampDelta delta) (nanGuard s))
                   (nextPosition keys (clampDelta delta) (nanGuard s))) ->
  Vector3.y p = Num y ->
  y < 0.1 ->
  isCrashed (fst (useFrame true keys obstacles objective now delta s)) = true /\
  velocity (fst (useFrame true keys obstacles objective now delta s)) = pt 0 0 0.
Proof.
  intros Hs Hin Hy Hlt.
  pose proof (prop_strike_collision keys obstacles _ _ p y Hin Hy Hlt) as Hc.
  rewrite useFrame_flying by exact Hs.
  rewrite flyingFrame_crash by (try rewrite nanGuard_isCrashed; assumption).
  split; reflexivity.
Qed.

Lemma half_sqrt2 : (1 / sqrt 2) * (1 / sqrt 2) = 1 / 2.
Proof.
  assert (H : sqrt 2 * sqrt 2 = 2) by (apply sqrt_sqrt; lra).
  assert (Hn : sqrt 2 <> 0) by (intros E; rewrite E in H; lra).
  field_simplify_eq; [|exact Hn]. lra.
Qed.

(** Nose down by a quarter turn at the clearance altitude: the two front
    propellers are 0.8 below the centre. *)
Lemma propeller_ground_strike_witness :
  isCrashed (fst (useFrame true noKeys [] None (Num 0) (Num 0)
                    (numericRefs 0 0.5 0 0 0 0 (PI / 2) 0 0 0 false (Num 0)))) = true /\
  velocity (fst (useFrame true noKeys [] None (Num 0) (Num 0)
                   (numericRefs 0 0.5 0 0 0 0 (PI / 2) 0 0 0 false (Num 0)))) = pt 0 0 0.
Proof.
  eapply (propeller_ground_strike noKeys [] None (Num 0) (Num 0)
            (numericRefs 0 0.5 0 0 0 0 (PI / 2) 0 0 0 false (Num 0))).
  - reflexivity.
  - rewrite nanGuard_finite, clampDelta_zero by reflexivity.
    unfold nextPosition. rewrite frameQuat_zero, candidate_zero.
    rewrite groundPosition_air by lra.
    left. reflexivity.
  - unfold numericRefs, pt, Quaternion.setFromEuler, Math.cos, Math.sin.
    js_eval. reflexivity.
  - replace (PI / 2 / 2) with (PI / 4) by lra.
    replace (0 / 2) with 0 by lra.
    rewrite sin_PI4, cos_PI4, sin_0, cos_0.
    pose proof half_sqrt2 as H. set (r := 1 / sqrt 2) in *. clearbody r.
    match goal with
    | |- ?lhs < _ => replace lhs with (0.5 - 1.6 * (r * r)) by lra
    end.
    rewrite H. lra.
Defined.

(* ================================================================= *)
(** ** Snapshots *)

Lemma snapshots_app es1 es2 : snapshots (es1 ++ es2) = snapshots es1 ++ snapshots es2.
Proof. unfold snapshots. apply flat_map_app. Qed.

Lemma snapshots_objectiveSignal d : snapshots (objectiveSignal d) = [].
Proof. destruct d as [dist|]; [|reflexivity]. unfold objectiveSignal. case_if; reflexivity. Qed.

(** The two outcomes of a flying frame, with the callbacks and the gate. *)
Lemma flyingFrame_crash_full keys obstacles objective dt now s :
  isCrashed s = false ->
  frameCollision keys obstacles dt s = true ->
  flyingFrame keys obstacles objective dt now s
  = (mkRefs (pushback (position s) (contactVelocity keys dt s))
            (Vector3.mk (Num 0) (Num 0) (Num 0))
            (groundRotation keys dt (candidate keys dt s) (rotationAfterInputs keys dt s))
            (throttleAfterInputs keys dt s) true (lastStatsUpdate s),
     [onUpdateStats
        (crashedStats (pushback (position s) (contactVelocity keys dt s))
           (Vector3.mk (Num 0) (Num 0) (Num 0))
           (groundRotation keys dt (candidate keys dt s)
              (rotationAfterInputs keys dt s)))]).
Proof.
  intros Hs Hc. rewrite frameCollision_eq in Hc. unfold flyingFrame.
  rewrite hardLanding_never, Hs.
  fold (frameQuat keys dt s). fold (frameVelocity keys dt s).
  fold (candidate keys dt s). fold (nextPosition keys dt s).
  rewrite Hc. reflexivity.
Qed.

Lemma flyingFrame_commit_full keys obstacles objective dt now s :
  isCrashed s = false ->
  frameCollision keys obstacles dt s = false ->
  flyingFrame keys obstacles objective dt now s
  = (mkRefs (nextPosition keys dt s) (contactVelocity keys dt s)
            (groundRotation keys dt (candidate keys dt s) (rotationAfterInputs keys dt s))
            (throttleAfterInputs keys dt s) false
            (if statsGate now s then now else lastStatsUpdate s),
     objectiveSignal (distanceToObj objective (nextPosition keys dt s))
     ++ (if statsGate now s
         then [onUpdateStats
                 (DroneState.mk (nextPosition keys dt s) (contactVelocity keys dt s)
                    (groundRotation keys dt (candidate keys dt s)
                       (rotationAfterInputs keys dt s))
                    (throttleAfterInputs keys dt s) (Num 85) FLYING
                    (distanceToObj objective (nextPosition keys dt s)))]
         else [])).
Proof.
  intros Hs Hc. rewrite frameCollision_eq in Hc. unfold flyingFrame, statsGate.
  rewrite hardLanding_never, Hs.
  fold (frameQuat keys dt s). fold (frameVelocity keys dt s).
  fold (candidate keys dt s). fold (nextPosition keys dt s).
  fold (contactVelocity keys dt s).
  rewrite Hc. cbn [andb]. case_if; [reflexivity|]. now rewrite app_nil_r.
Qed.

Lemma crashedFrame_full dt now s :
  exists p v,
    crashedFrame dt now s
    = (mkRefs p v (rotation s) (throttle s) (isCrashed s)
              (if statsGate now s then now else lastStatsUpdate s),
       if statsGate now s then [onUpdateStats (crashedStats p v (rotation s))] else []).
Proof.
  unfold crashedFrame, statsGate. case_if; eexists; eexists; reflexivity.
Qed.

Lemma statsGate_nanGuard now s : statsGate now (nanGuard s) = statsGate now s.
Proof. reflexivity. Qed.

(** What a snapshot says is what the frame committed.  Every snapshot a
    frame hands to [onUpdateStats] carries the position, velocity and rotation
    the refs hold after the frame.  When the frame ends crashed it reports the
    status CRASHED with throttle 0, battery 0 and no distance; otherwise it
    reports FLYING with the throttle after the frame, battery 85 and the
    distance from the committed position to the objective (none when no
    objective is set). *)
Theorem snapshot_reports_committed_state mounted keys obstacles objective now delta s st :
  In st (snapshots (snd (useFrame mounted keys obstacles objective now delta s))) ->
  DroneState.position st
  = position (fst (useFrame mounted keys obstacles objective now delta s)) /\
  DroneState.velocity st
  = velocity (fst (useFrame mounted keys obstacles objective now delta s)) /\
  DroneState.rotation st
  = rotation (fst (useFrame mounted keys obstacles objective now delta s)) /\
  (if isCrashed (fst (useFrame mounted keys obstacles objective now delta s))
   then DroneState.status st = CRASHED /\ DroneState.throttle st = Num 0 /\
        DroneState.battery st = Num 0 /\ DroneState.distanceToObjective st = None
   else DroneState.status st = FLYING /\
        DroneState.throttle st
        = throttle (fst (useFrame mounted keys obstacles objective now delta s)) /\
        DroneState.battery st = Num 85 /\
        DroneState.distanceToObjective st
        = distanceToObj objective
            (position (fst (useFrame mounted keys obstacles objective now delta s)))).
Proof.
  destruct mounted; [|intros []].
  destruct (isCrashed s) eqn:Hs.
  - rewrite useFrame_crashed by exact Hs.
    destruct (crashedFrame_full (clampDelta delta) now (nanGuard s)) as (p & v & ->).
    cbn [fst snd isCrashed position velocity rotation nanGuard]. rewrite Hs.
    case_if; cbn [snapshots flat_map app In]; [|intros []].
    intros [<-|[]]. repeat split.
  - rewrite useFrame_flying by exact Hs.
    assert (Hg : isCrashed (nanGuard s) = false) by now rewrite nanGuard_isCrashed.
    destruct (frameCollision keys obstacles (clampDelta delta) (nanGuard s)) eqn:Hc.
    + rewrite flyingFrame_crash_full by assumption.
      cbn [fst snd snapshots flat_map app In isCrashed position velocity rotation].
      intros [<-|[]]. repeat split.
    + rewrite flyingFrame_commit_full by assumption.
      cbn [fst snd isCrashed position velocity rotation throttle].
      rewrite snapshots_app, snapshots_objectiveSignal. cbn [app].
      case_if; cbn [snapshots flat_map app In]; [|intros []].
      intros [<-|[]]. repeat split.
Qed.

Lemma snapshot_reports_committed_state_witness :
  DroneState.position (crashedStats (pt 3 0.2 4) (pt 0 0 0) level)
  = position (fst (useFrame true noKeys [] None (Num 1) (Num 0) wreck)) /\
  DroneState.velocity (crashedStats (pt 3 0.2 4) (pt 0 0 0) level)
  = velocity (fst (useFrame true noKeys [] None (Num 1) (Num 0) wreck)) /\
  DroneState.rotation (crashedStats (pt 3 0.2 4) (pt 0 0 0) level)
  = rotation (fst (useFrame true noKeys [] None (Num 1) (Num 0) wreck)) /\
  (if isCrashed (fst (useFrame true noKeys [] None (Num 1) (Num 0) wreck))
   then DroneState.status (crashedStats (pt 3 0.2 4) (pt 0 0 0) level) = CRASHED /\
        DroneState.throttle (crashedStats (pt 3 0.2 4) (pt 0 0 0) level) = Num 0 /\
        DroneState.battery (crashedStats (pt 3 0.2 4) (pt 0 0 0) level) = Num 0 /\
        DroneState.distanceToObjective (crashedStats (pt 3 0.2 4) (pt 0 0 0) level) = None
   else DroneState.status (crashedStats (pt 3 0.2 4) (pt 0 0 0) level) = FLYING /\
        DroneState.throttle (crashedStats (pt 3 0.2 4) (pt 0 0 0) level)
        = throttle (fst (useFrame true noKeys [] None (Num 1) (Num 0) wreck)) /\
        DroneState.battery (crashedStats (pt 3 0.2 4) (pt 0 0 0) level) = Num 85 /\
        DroneState.distanceToObjective (crashedStats (pt 3 0.2 4) (pt 0 0 0) level)
        = distanceToObj None
            (position (fst (useFrame true noKeys [] None (Num 1) (Num 0) wreck)))).
Proof.
  apply snapshot_reports_committed_state.
  rewrite useFrame_crashed, nanGuard_finite, clampDelta_zero by reflexivity.
  unfold crashedFrame, wreck.
  cbv [position velocity rotation throttle isCrashed lastStatsUpdate
       Vector3.add Vector3.multiplyScalar Vector3.x Vector3.y Vector3.z
       GRAVITY nadd nsub nmul lift2 nlt ngt].
  rewrite (Rltb_false (0.2 + (0 - 25 * 0) * 0) 0.2) by lra.
  rewrite (Rltb_true 0.1 (1 - 0)) by lra.
  left. unfold crashedStats, pt, level. repeat f_equal; lra.
Defined.

(** At most one snapshot per frame, and a rate gate that the crash report
    bypasses.  A frame hands exactly one snapshot to [onUpdateStats] when the
    mesh is mounted and either the frame is the crash transition or the clock
    is more than 0.1 past the timestamp of the gate, and none otherwise.  The
    timestamp of the gate becomes [now] on a gated report, and is left as it
    was by the crash report. *)
Theorem snapshot_rate_gate mounted keys obstacles objective now delta s :
  List.length (snapshots (snd (useFrame mounted keys obstacles objective now delta s)))
  = (if mounted
        && ((negb (isCrashed s)
             && isCrashed (fst (useFrame mounted keys obstacles objective now delta s)))
            || statsGate now s)
     then 1%nat else 0%nat) /\
  lastStatsUpdate (fst (useFrame mounted keys obstacles objective now delta s))
  = (if mounted && statsGate now s
        && negb (negb (isCrashed s)
                 && isCrashed (fst (useFrame mounted keys obstacles objective now delta s)))
     then now else lastStatsUpdate s).
Proof.
  destruct mounted; [|split; reflexivity].
  destruct (isCrashed s) eqn:Hs.
  - rewrite useFrame_crashed by exact Hs.
    destruct (crashedFrame_full (clampDelta delta) now (nanGuard s)) as (p & v & ->).
    rewrite statsGate_nanGuard. cbn [fst snd negb andb orb lastStatsUpdate nanGuard].
    destruct (statsGate now s); split; reflexivity.
  - rewrite useFrame_flying by exact Hs.
    assert (Hg : isCrashed (nanGuard s) = false) by now rewrite nanGuard_isCrashed.
    destruct (frameCollision keys obstacles (clampDelta delta) (nanGuard s)) eqn:Hc.
    + rewrite flyingFrame_crash_full by assumption.
      cbn [fst snd isCrashed negb andb orb lastStatsUpdate nanGuard].
      rewrite andb_false_r. split; reflexivity.
    + rewrite flyingFrame_commit_full by assumption.
      rewrite statsGate_nanGuard.
      cbn [fst snd isCrashed negb andb orb lastStatsUpdate nanGuard].
      rewrite snapshots_app, snapshots_objectiveSignal. cbn [app].
      destruct (statsGate now s); split; reflexivity.
Qed.

(* ================================================================= *)
(** ** The wreck on the floor *)

(** A wreck at rest stays at rest.  Crashed, on the floor (altitude 0.2)
    and with zero velocity, the refs keep that position and that velocity
    through every frame whose elapsed time is a number: the fall of one frame
    is undone by the floor clamp of the same frame. *)
Theorem wreck_at_rest mounted keys obstacles objective now (d x z : R) r t l :
  position (fst (useFrame mounted keys obstacles objective now (Num d)
                   (mkRefs (pt x 0.2 z) (pt 0 0 0) r t true l))) = pt x 0.2 z /\
  velocity (fst (useFrame mounted keys obstacles objective now (Num d)
                   (mkRefs (pt x 0.2 z) (pt 0 0 0) r t true l))) = pt 0 0 0.
Proof.
  destruct mounted; [|split; reflexivity].
  rewrite useFrame_crashed, nanGuard_finite, clampDelta_Num by reflexivity.
  set (e := Rmin d 0.1). unfold crashedFrame, pt.
  cbv [position velocity rotation throttle isCrashed lastStatsUpdate
       Vector3.add Vector3.multiplyScalar Vector3.x Vector3.y Vector3.z
       GRAVITY nadd nsub nmul lift2 nlt].
  unfold Rltb. destruct (Rlt_dec (0.2 + (0 - 25 * e) * e) 0.2) as [Hlt|Hge].
  - case_if; cbn [fst position velocity]; split; repeat f_equal; lra.
  - assert (He : e = 0).
    { destruct (Req_dec e 0) as [E|E]; [exact E|].
      pose proof (Rsqr_pos_lt e E) as Hp. unfold Rsqr in Hp. lra. }
    rewrite He. case_if; cbn [fst position velocity]; split; repeat f_equal; lra.
Qed.

(* ================================================================= *)
(** ** The App and the HUD on the callbacks of the Drone *)

Lemma appEvents_app es1 es2 a :
  appEvents (es1 ++ es2) a = appEvents es2 (appEvents es1 a).
Proof. unfold appEvents. apply fold_left_app. Qed.

Lemma run_cons_full f fs s :
  run (f :: fs) s
  = (fst (run fs (fst (step f s))), snd (step f s) ++ snd (run fs (fst (step f s)))).
Proof.
  simpl. destruct (step f s) as [s1 e1]; simpl.
  destruct (run fs s1); reflexivity.
Qed.

(** The snapshots of one frame, by the status before and after it. *)
Lemma step_snapshots f s st :
  In st (snapshots (snd (step f s))) ->
  DroneState.status st
  = if isCrashed (fst (step f s)) then CRASHED else FLYING.
Proof.
  unfold step. intros H.
  destruct (droneRef f); [|destruct H].
  destruct (isCrashed s) eqn:Hs.
  - rewrite useFrame_crashed in * by exact Hs.
    destruct (crashedFrame_full (clampDelta (delta f)) (now f) (nanGuard s))
      as (p & v & E). rewrite E in *.
    cbn [fst snd isCrashed nanGuard] in *. rewrite Hs.
    destruct (statsGate (now f) (nanGuard s)); cbn in H; [|destruct H].
    destruct H as [<-|[]]. reflexivity.
  - rewrite useFrame_flying in * by exact Hs.
    assert (Hg : isCrashed (nanGuard s) = false) by now rewrite nanGuard_isCrashed.
    destruct (frameCollision (keys f) (obstacles f) (clampDelta (delta f)) (nanGuard s))
      eqn:Hc.
    + rewrite flyingFrame_crash_full in * by assumption.
      cbn in H. destruct H as [<-|[]]. reflexivity.
    + rewrite flyingFrame_commit_full in * by assumption.
      cbn [fst snd isCrashed] in *.
      rewrite snapshots_app, snapshots_objectiveSignal in H. cbn [app] in H.
      destruct (statsGate (now f) (nanGuard s)); cbn in H; [|destruct H].
      destruct H as [<-|[]]. reflexivity.
Qed.

(** The crash transition always hands over a snapshot. *)
Lemma crash_step_snapshot f s :
  isCrashed s = false -> isCrashed (fst (step f s)) = true ->
  exists st, snapshots (snd (step f s)) = [st].
Proof.
  unfold step. intros Hs Hc.
  destruct (droneRef f).
  2:{ unfold useFrame in Hc. cbn [negb fst] in Hc. congruence. }
  rewrite useFrame_flying in * by exact Hs.
  assert (Hg : isCrashed (nanGuard s) = false) by now rewrite nanGuard_isCrashed.
  rewrite flyingFrame_isCrashed in Hc by exact Hg.
  rewrite flyingFrame_crash_full by assumption.
  eexists. reflexivity.
Qed.

(** [droneStats] after the callbacks: the last snapshot, or the old value
    when there was none. *)
Lemma appEvents_droneStats es a :
  droneStats (appEvents es a)
  = match rev (snapshots es) with
    | st :: _ => Some st
    | [] => droneStats a
    end.
Proof.
  revert a. induction es as [|e es IH] using rev_ind; intros a; [reflexivity|].
  rewrite appEvents_app, snapshots_app, rev_app_distr.
  destruct e as [st|]; cbn [appEvents fold_left appEvent droneStats snapshots flat_map app rev].
  - reflexivity.
  - apply IH.
Qed.

Lemma appEvents_missionComplete es a :
  missionComplete (appEvents es a)
  = missionComplete a || (0 <? reachedCount es)%nat.
Proof.
  revert a. induction es as [|e es IH]; intros a.
  - cbn. now rewrite orb_false_r.
  - change (appEvents (e :: es) a) with (appEvents es (appEvent a e)).
    rewrite IH. destruct e as [st|]; cbn [appEvent missionComplete].
    + reflexivity.
    + unfold handleObjectiveReached, reachedCount. cbn [filter isReached List.length].
      destruct (missionComplete a); reflexivity.
Qed.

Lemma HUD_failure_iff st :
  HUD (Some st) = hudCriticalFailure <-> DroneState.status st = CRASHED.
Proof.
  unfold HUD. destruct (DroneState.status st); split; intros H;
    try reflexivity; discriminate H.
Qed.

(** What decides the overlay after one frame. *)
Lemma step_overlay f s stats :
  (if isCrashed s then HUD stats = hudCriticalFailure
   else HUD stats <> hudCriticalFailure) ->
  let stats' := droneStats (appEvents (snd (step f s)) (mkApp stats None None false)) in
  if isCrashed (fst (step f s)) then HUD stats' = hudCriticalFailure
  else HUD stats' <> hudCriticalFailure.
Proof.
  intros J. cbv zeta. rewrite appEvents_droneStats. cbn [droneStats].
  destruct (rev (snapshots (snd (step f s)))) as [|st rest] eqn:E.
  - (* no snapshot: the status did not change *)
    destruct (isCrashed s) eqn:Hs.
    + unfold step. now rewrite useFrame_crashed_latch.
    + destruct (isCrashed (fst (step f s))) eqn:Hc; [|exact J].
      destruct (crash_step_snapshot f s Hs Hc) as (st & Hst).
      rewrite Hst in E. discriminate E.
  - assert (Hin : In st (snapshots (snd (step f s)))).
    { apply in_rev. rewrite E. now left. }
    pose proof (step_snapshots f s st Hin) as Hst.
    destruct (isCrashed (fst (step f s))).
    + now apply HUD_failure_iff.
    + intros H. apply HUD_failure_iff in H. congruence.
Qed.

Lemma appEvents_droneStats_only es a b :
  droneStats a = droneStats b ->
  droneStats (appEvents es a) = droneStats (appEvents es b).
Proof. intros H. now rewrite !appEvents_droneStats, H. Qed.

Lemma run_overlay fs s stats :
  (if isCrashed s then HUD stats = hudCriticalFailure
   else HUD stats <> hudCriticalFailure) ->
  let stats' := droneStats (appEvents (snd (run fs s)) (mkApp stats None None false)) in
  if isCrashed (fst (run fs s)) then HUD stats' = hudCriticalFailure
  else HUD stats' <> hudCriticalFailure.
Proof.
  revert s stats. induction fs as [|f fs IH]; intros s stats J; [exact J|].
  cbv zeta. rewrite run_cons_full. cbn [fst snd]. rewrite appEvents_app.
  pose proof (step_overlay f s stats J) as J1. cbv zeta in J1.
  specialize (IH _ _ J1). cbv zeta in IH.
  erewrite appEvents_droneStats_only; [exact IH|reflexivity].
Qed.

(** The failure overlay follows the crash.  Feed the callbacks of a session
    to the App and render the HUD on its [droneStats]: if the session starts
    flying with no failure overlay on screen, then after any frames the HUD
    shows the failure overlay exactly when the drone has crashed: the crash
    is on screen from the frame in which it happens, whatever the rate gate,
    and the overlay never shows while the drone flies. *)
Theorem hud_failure_overlay fs s a :
  isCrashed s = false ->
  HUD (droneStats a) <> hudCriticalFailure ->
  (HUD (droneStats (appEvents (snd (run fs s)) a)) = hudCriticalFailure
   <-> isCrashed (fst (run fs s)) = true).
Proof.
  intros Hs Ha.
  pose proof (run_overlay fs s (droneStats a)) as J. rewrite Hs in J.
  specialize (J Ha). cbv zeta in J.
  rewrite (appEvents_droneStats_only _ a (mkApp (droneStats a) None None false))
    by reflexivity.
  destruct (isCrashed (fst (run fs s))); split; intros H; try assumption;
    try reflexivity; try discriminate H. contradiction.
Qed.

Lemma hud_failure_overlay_witness :
  HUD (droneStats (appEvents (snd (run [towerFrame; towerFrame] initialRefs)) initialApp))
  = hudCriticalFailure
  <-> isCrashed (fst (run [towerFrame; towerFrame] initialRefs)) = true.
Proof.
  apply hud_failure_overlay.
  - reflexivity.
  - discriminate.
Defined.

(** The signal count of one frame. *)
Lemma useFrame_reachedCount mounted keys obstacles objective now delta s :
  reachedCount (snd (useFrame mounted keys obstacles objective now delta s))
  = if mounted
       && negb (isCrashed (fst (useFrame mounted keys obstacles objective now delta s)))
    then signalsAt objective
           (position (fst (useFrame mounted keys obstacles objective now delta s)))
    else 0%nat.
Proof.
  destruct mounted; [|reflexivity]. cbn [andb].
  destruct (isCrashed s) eqn:Hs.
  - rewrite useFrame_crashed by exact Hs.
    rewrite crashedFrame_silent, crashedFrame_isCrashed, nanGuard_isCrashed, Hs.
    reflexivity.
  - rewrite useFrame_flying by exact Hs.
    assert (Hg : isCrashed (nanGuard s) = false) by now rewrite nanGuard_isCrashed.
    destruct (frameCollision keys obstacles (clampDelta delta) (nanGuard s)) eqn:Hc.
    + rewrite flyingFrame_crash_silent, flyingFrame_crash by assumption.
      reflexivity.
    + destruct (flyingFrame_commit keys obstacles objective (clampDelta delta) now
                  (nanGuard s) Hg Hc) as (l & -> & ->).
      cbn [isCrashed negb position]. apply objectiveSignal_count.
Qed.

(** Mission completion is a latch at the App.  However often the Drone
    repeats its signal, [missionComplete] after a list of callbacks is the old
    value or-ed with "the signal came at least once"; no callback of the Drone
    resets it.  After one frame it is the old value or-ed with "the frame
    ended flying closer than 4.0 to the objective". *)
Theorem mission_complete_latch :
  (forall es a,
      missionComplete (appEvents es a)
      = missionComplete a || (0 <? reachedCount es)%nat) /\
  (forall mounted keys obstacles objective now delta s a,
      missionComplete
        (appEvents (snd (useFrame mounted keys obstacles objective now delta s)) a)
      = missionComplete a
        || (mounted
            && negb (isCrashed (fst (useFrame mounted keys obstacles objective now delta s)))
            && (0 <? signalsAt objective
                       (position (fst (useFrame mounted keys obstacles objective
                                         now delta s))))%nat)).
Proof.
  split; [exact appEvents_missionComplete|].
  intros. rewrite appEvents_missionComplete, useFrame_reachedCount.
  destruct (mounted && negb (isCrashed _)); [reflexivity|].
  cbn [andb]. reflexivity.
Qed.

(* ================================================================= *)
(** ** The world generation of the App *)

Lemma existsb_false_inv {A : Type} (f : A -> bool) (l : list A) :
  existsb f l = false -> forall a, In a l -> f a = false.
Proof.
  intros H a Ha. destruct (f a) eqn:E; [|reflexivity].
  rewrite <- H. symmetry. apply existsb_exists. now exists a.
Qed.

Lemma buildingStep_cases random items i :
  buildingStep random items i = items \/
  exists b, buildingStep random items i = items ++ [b] /\
            Obstacle.type b = building /\
            (unitRandom random -> wellPlaced b).
Proof.
  unfold buildingStep. case_if; [now left|right].
  eexists. split; [reflexivity|]. split; [reflexivity|].
  intros Hr.
  pose proof (Hr (5 * i)%nat) as H0. pose proof (Hr (5 * i + 1)%nat) as H1.
  pose proof (Hr (5 * i + 2)%nat) as H2. pose proof (Hr (5 * i + 3)%nat) as H3.
  pose proof (Hr (5 * i + 4)%nat) as H4.
  unfold wellPlaced. cbn [Obstacle.position Obstacle.size Obstacle.type].
  js_eval. do 6 eexists. split; [reflexivity|]. split; [reflexivity|].
  revert Heqb. js_eval.
  set (x := (random (5 * i + 3)%nat - 0.5) * 300) in *.
  set (z := (random (5 * i + 4)%nat - 0.5) * 300) in *.
  assert (Hx : -150 <= x < 150) by (unfold x; lra).
  assert (Hz : -150 <= z < 150) by (unfold z; lra).
  clearbody x z. intros Hc.
  repeat split; try lra; try (unfold Rabs; destruct (Rcase_abs _); lra).
  destruct (Rlt_dec (Rabs x) 20) as [Hx20|Hx20];
    destruct (Rlt_dec (Rabs z) 20) as [Hz20|Hz20].
  - rewrite (Rltb_true _ _ Hx20), (Rltb_true _ _ Hz20) in Hc. discriminate Hc.
  - right; lra.
  - left; lra.
  - left; lra.
Qed.

Lemma treeStep_cases random items i :
  treeStep random items i = items \/
  exists t, treeStep random items i = items ++ [t] /\
            Obstacle.type t = tree /\
            Forall (standsClear t) items /\
            (unitRandom random -> wellPlaced t).
Proof.
  unfold treeStep. case_if; [now left|].
  destruct (existsb _ items) eqn:He; cbn [negb]; [now left|right].
  eexists. split; [reflexivity|]. split; [reflexivity|]. split.
  - apply Forall_forall. intros b Hb. unfold standsClear.
    cbn [Obstacle.position at0 at2 fst snd].
    exact (existsb_false_inv _ _ He b Hb).
  - intros Hr.
    pose proof (Hr (150 + 2 * i)%nat) as H0.
    pose proof (Hr (150 + 2 * i + 1)%nat) as H1.
    unfold wellPlaced. cbn [Obstacle.position Obstacle.size Obstacle.type].
    js_eval. do 6 eexists. split; [reflexivity|]. split; [reflexivity|].
    revert Heqb. js_eval.
    set (x := (random (150 + 2 * i)%nat - 0.5) * 350) in *.
    set (z := (random (150 + 2 * i + 1)%nat - 0.5) * 350) in *.
    assert (Hx : -175 <= x < 175) by (unfold x; lra).
    assert (Hz : -175 <= z < 175) by (unfold z; lra).
    clearbody x z. intros Hc.
    repeat split; try lra; try (unfold Rabs; destruct (Rcase_abs _); lra).
    destruct (Rlt_dec (Rabs x) 15) as [Hx20|Hx20];
      destruct (Rlt_dec (Rabs z) 15) as [Hz20|Hz20].
    + rewrite (Rltb_true _ _ Hx20), (Rltb_true _ _ Hz20) in Hc. discriminate Hc.
    + right; lra.
    + left; lra.
    + left; lra.
Qed.

Lemma buildings_fold random l items :
  Forall (fun o => Obstacle.type o = building) items ->
  Forall (fun o => Obstacle.type o = building)
         (fold_left (buildingStep random) l items) /\
  (List.length (fold_left (buildingStep random) l items)
   <= List.length items + List.length l)%nat /\
  (unitRandom random -> Forall wellPlaced items ->
   Forall wellPlaced (fold_left (buildingStep random) l items)) /\
  (forall b, In b items -> In b (fold_left (buildingStep random) l items)).
Proof.
  revert items. induction l as [|i l IH]; intros items Hb.
  - cbn [fold_left List.length]. repeat split; auto. lia.
  - cbn [fold_left List.length].
    destruct (buildingStep_cases random items i) as [->|(b & -> & Hty & Hw)].
    + destruct (IH items Hb) as (H1 & H2 & H3 & H4). repeat split; auto. lia.
    + assert (Hb' : Forall (fun o => Obstacle.type o = building) (items ++ [b])).
      { apply Forall_app. split; [exact Hb|]. now constructor. }
      destruct (IH _ Hb') as (H1 & H2 & H3 & H4).
      rewrite length_app in H2. cbn [List.length] in H2.
      repeat split; auto; try lia.
      * intros Hr Hwp. apply H3; [exact Hr|]. apply Forall_app. split; auto.
      * intros b0 Hin. apply H4. apply in_or_app. now left.
Qed.

Lemma trees_fold random l items :
  (forall t b, In t items -> In b items -> Obstacle.type t = tree -> standsClear t b) ->
  (forall t b, In t (fold_left (treeStep random) l items) ->
               In b (fold_left (treeStep random) l items) ->
               Obstacle.type t = tree -> standsClear t b) /\
  (List.length (fold_left (treeStep random) l items)
   <= List.length items + List.length l)%nat /\
  (unitRandom random -> Forall wellPlaced items ->
   Forall wellPlaced (fold_left (treeStep random) l items)) /\
  (forall b, In b items -> In b (fold_left (treeStep random) l items)).
Proof.
  revert items. induction l as [|i l IH]; intros items Hc.
  - cbn [fold_left List.length]. repeat split; auto. lia.
  - cbn [fold_left List.length].
    destruct (treeStep_cases random items i) as [->|(t' & -> & Hty & Hclear & Hw)].
    + destruct (IH items Hc) as (H1 & H2 & H3 & H4). repeat split; auto. lia.
    + assert (Hc' : forall t b, In t (items ++ [t']) -> In b (items ++ [t']) ->
                                Obstacle.type t = tree -> standsClear t b).
      { intros t b Ht Hb Htree.
        apply in_app_or in Ht. apply in_app_or in Hb.
        assert (Hself : forall u, standsClear u t').
        { intros u. unfold standsClear, treeCollides. now rewrite Hty. }
        destruct Hb as [Hb|[<-|[]]]; [|apply Hself].
        destruct Ht as [Ht|[<-|[]]]; [now apply Hc|].
        rewrite Forall_forall in Hclear. now apply Hclear. }
      destruct (IH _ Hc') as (H1 & H2 & H3 & H4).
      rewrite length_app in H2. cbn [List.length] in H2.
      repeat split; auto; try lia.
      * intros Hr Hwp. apply H3; [exact Hr|]. apply Forall_app. split; auto.
      * intros b0 Hin. apply H4. apply in_or_app. now left.
Qed.

Lemma generateBuildings_types random :
  Forall (fun o => Obstacle.type o = building) (generateBuildings random).
Proof.
  unfold generateBuildings.
  destruct (buildings_fold random (seq 0 30) [] (Forall_nil _)) as (Hb & _).
  exact Hb.
Qed.

Lemma generateBuildings_length random :
  (List.length (generateBuildings random) <= 30)%nat.
Proof.
  unfold generateBuildings.
  destruct (buildings_fold random (seq 0 30) [] (Forall_nil _)) as (_ & Hlen & _).
  rewrite length_seq in Hlen. exact Hlen.
Qed.

Lemma generateBuildings_no_tree random t b :
  In t (generateBuildings random) -> In b (generateBuildings random) ->
  Obstacle.type t = tree -> standsClear t b.
Proof.
  intros Ht _ Htree. pose proof (generateBuildings_types random) as Hb.
  rewrite Forall_forall in Hb. rewrite (Hb t Ht) in Htree. discriminate Htree.
Qed.

Lemma generateObstacles_wellPlaced random :
  unitRandom random -> Forall wellPlaced (generateObstacles random).
Proof.
  intros Hr.
  destruct (trees_fold random (seq 0 100) (generateBuildings random)
              (generateBuildings_no_tree random))
    as (_ & _ & Hwp2 & _).
  destruct (buildings_fold random (seq 0 30) [] (Forall_nil _)) as (_ & _ & Hwp & _).
  unfold generateObstacles. apply Hwp2; [exact Hr|].
  unfold generateBuildings. apply Hwp; [exact Hr|constructor].
Qed.

(** The placement rules hold in every generated world.  When the random
    numbers are in [0, 1), every obstacle of the generated world is made of
    numbers; a building lies outside the 20 by 20 spawn square, within 150 of
    the origin on both axes, stands on the ground (its centre is at half its
    height) and measures 5 to 15 by 8 to 38 by 5 to 15; a tree lies outside
    the 15 by 15 spawn square, within 175 of the origin, at height 0 with
    the fixed size 1.5 by 4 by 1.5.  The world has at most 130 obstacles. *)
Theorem world_generation_placement random :
  unitRandom random ->
  Forall wellPlaced (generateObstacles random) /\
  (List.length (generateObstacles random) <= 130)%nat.
Proof.
  intros Hr. split; [exact (generateObstacles_wellPlaced random Hr)|].
  destruct (trees_fold random (seq 0 100) (generateBuildings random)
              (generateBuildings_no_tree random))
    as (_ & Hlen2 & _).
  pose proof (generateBuildings_length random) as Hlen.
  unfold generateObstacles.
  rewrite length_seq in Hlen2. lia.
Qed.

Lemma world_generation_placement_witness :
  Forall wellPlaced (generateObstacles (constRandom 0.9)) /\
  (List.length (generateObstacles (constRandom 0.9)) <= 130)%nat.
Proof.
  apply world_generation_placement. intros k. unfold constRandom. lra.
Defined.

(** No tree is planted against a building.  In every generated world, and
    whatever the random numbers, each tree passes the overlap test against
    each item of the final world: for a building, the tree is at least half
    the width plus 3 away on the x axis or half the depth plus 3 away on the
    z axis. *)
Theorem trees_stand_clear random t b :
  In t (generateObstacles random) ->
  In b (generateObstacles random) ->
  Obstacle.type t = tree ->
  standsClear t b.
Proof.
  unfold generateObstacles.
  destruct (trees_fold random (seq 0 100) (generateBuildings random)
              (generateBuildings_no_tree random))
    as (H & _).
  exact (H t b).
Qed.

Lemma buildingStep_const items i :
  buildingStep (constRandom 0.9) items i = items ++ [farBuilding].
Proof.
  unfold buildingStep, constRandom.
  replace ((Math.abs ((Num 0.9 - Num 0.5) * Num 300) <? Num 20)%js) with false;
    [reflexivity|].
  js_eval. symmetry. apply Rltb_false. unfold Rabs. destruct (Rcase_abs _); lra.
Qed.

Lemma buildings_fold_mono random l items b :
  In b items -> In b (fold_left (buildingStep random) l items).
Proof.
  revert items. induction l as [|i l IH]; intros items Hb; [exact Hb|].
  cbn [fold_left]. apply IH.
  destruct (buildingStep_cases random items i) as [->|(b' & -> & _)]; [exact Hb|].
  apply in_or_app. now left.
Qed.

Lemma farBuilding_placed i l items :
  In farBuilding (fold_left (buildingStep (constRandom 0.9)) (i :: l) items).
Proof.
  cbn [fold_left]. apply buildings_fold_mono. rewrite buildingStep_const.
  apply in_or_app. right. now left.
Qed.

Lemma farBuilding_generated : In farBuilding (generateBuildings (constRandom 0.9)).
Proof. unfold generateBuildings. apply (farBuilding_placed 0 (seq 1 29) []). Qed.

Lemma generateBuildings_const :
  Forall (eq farBuilding) (generateBuildings (constRandom 0.9)).
Proof.
  unfold generateBuildings. generalize (seq 0 30).
  assert (H : Forall (eq farBuilding) []) by constructor.
  revert H. generalize (@nil Obstacle.t). intros items H l. revert items H.
  induction l as [|i l IH]; intros items H; [exact H|].
  cbn [fold_left]. apply IH. rewrite buildingStep_const.
  apply Forall_app. split; [exact H|]. now constructor.
Qed.

Lemma trees_fold_mono random l items b :
  In b items -> In b (fold_left (treeStep random) l items).
Proof.
  revert items. induction l as [|i l IH]; intros items Hb; [exact Hb|].
  cbn [fold_left]. apply IH.
  destruct (treeStep_cases random items i) as [->|(t' & -> & _)]; [exact Hb|].
  apply in_or_app. now left.
Qed.

Lemma farTree_placed i l items :
  Forall (eq farBuilding) items ->
  In farTree (fold_left (treeStep (constRandom 0.9)) (i :: l) items).
Proof.
  intros Hall. cbn [fold_left]. apply trees_fold_mono.
  assert (E : treeStep (constRandom 0.9) items i = items ++ [farTree]).
  { unfold treeStep, constRandom.
    replace ((Math.abs ((Num 0.9 - Num 0.5) * Num 350) <? Num 15)%js) with false.
    2:{ js_eval. symmetry. apply Rltb_false. unfold Rabs. destruct (Rcase_abs _); lra. }
    cbn [andb].
    rewrite existsb_false; [reflexivity|].
    intros b Hb. rewrite Forall_forall in Hall. rewrite <- (Hall b Hb).
    unfold treeCollides, farBuilding. js_eval.
    rewrite Rltb_false; [reflexivity|].
    unfold Rabs. destruct (Rcase_abs _); lra. }
  rewrite E. apply in_or_app. right. now left.
Qed.

Lemma farTree_generated : In farTree (generateObstacles (constRandom 0.9)).
Proof.
  unfold generateObstacles.
  apply (farTree_placed 0 (seq 1 99)). exact generateBuildings_const.
Qed.

Lemma trees_stand_clear_witness : standsClear farTree farBuilding.
Proof.
  apply (trees_stand_clear (constRandom 0.9)).
  - exact farTree_generated.
  - unfold generateObstacles. apply trees_fold_mono. exact farBuilding_generated.
  - reflexivity.
Defined.

(* ================================================================= *)
(** ** The spawn area of a generated world *)

Lemma sq_ge_9 (a : R) : 3 <= Rabs a -> 9 <= a ^ 2.
Proof.
  intros H. simpl pow. rewrite Rmult_1_r.
  unfold Rabs in H. destruct (Rcase_abs a).
  - pose proof (Rmult_le_compat 3 (- a) 3 (- a)). lra.
  - pose proof (Rmult_le_compat 3 a 3 a). lra.
Qed.

Lemma sqrt_ge_3 (u : R) : 9 <= u -> 3 <= sqrt u.
Proof.
  intros H. replace 3 with (sqrt (3 * 3)) by (apply sqrt_square; lra).
  apply sqrt_le_1_alt. lra.
Qed.

(** A point over the 12 by 12 square about the origin, with a radius of at
    most 0.5, touches no obstacle that follows the placement rules. *)
Lemma clear_zone ob (x y z r : R) :
  wellPlaced ob -> Rabs x <= 12 -> Rabs z <= 12 -> r <= 0.5 ->
  obstacleHit ob (pt x y z, Num r) = false.
Proof.
  intros (ox & oy & oz & w & h & d & Hp & Hs & Hrules) Hx Hz Hr.
  destruct ob as [ty pos size]. cbn [Obstacle.position Obstacle.size Obstacle.type] in *.
  subst pos size. unfold obstacleHit. cbn [Obstacle.type fst snd].
  destruct ty.
  - destruct (buildingHit _ _ _) eqn:E; [|reflexivity]. exfalso.
    apply (buildingHit_spec ox oy oz w h d x y z r) in E.
    destruct Hrules as (Hout & Hbx & Hbz & _ & Hw & _ & Hd).
    destruct E as (Ex & _ & Ez). revert Hx Hz Hout Ex Ez. unfold Rabs.
    repeat destruct (Rcase_abs _); lra.
  - destruct (treeHit _ _ _) eqn:E; [|reflexivity]. exfalso.
    apply (treeHit_spec ox oy oz w h d x y z r) in E.
    destruct Hrules as (Hout & _).
    destruct E as (E & _).
    assert (H9 : 9 <= (x - ox) ^ 2 + (z - oz) ^ 2).
    { pose proof (pow2_ge_0 (x - ox)). pose proof (pow2_ge_0 (z - oz)).
      destruct Hout as [Hout|Hout].
      - assert (3 <= Rabs (x - ox)).
        { revert Hx Hout. unfold Rabs. repeat destruct (Rcase_abs _); lra. }
        pose proof (sq_ge_9 _ H1). lra.
      - assert (3 <= Rabs (z - oz)).
        { revert Hz Hout. unfold Rabs. repeat destruct (Rcase_abs _); lra. }
        pose proof (sq_ge_9 _ H1). lra. }
    pose proof (sqrt_ge_3 _ H9). lra.
Qed.

(** The spawn area is clear.  In a world generated from random numbers in
    [0, 1), a collision point over the square of side 24 about the origin
    (both horizontal coordinates within 12), at any altitude and with a
    radius of at most 0.5, hits no obstacle. *)
Theorem spawn_area_clear random ob (x y z r : R) :
  unitRandom random ->
  In ob (generateObstacles random) ->
  Rabs x <= 12 -> Rabs z <= 12 -> r <= 0.5 ->
  obstacleHit ob (pt x y z, Num r) = false.
Proof.
  intros Hr Hin Hx Hz Hrad.
  pose proof (generateObstacles_wellPlaced random Hr) as Hall.
  rewrite Forall_forall in Hall. apply clear_zone; auto.
Qed.

Lemma spawn_area_clear_witness :
  obstacleHit farBuilding (pt 0 2 0, Num 0.5) = false.
Proof.
  apply (spawn_area_clear (constRandom 0.9)).
  - intros k. unfold constRandom. lra.
  - unfold generateObstacles. apply trees_fold_mono. exact farBuilding_generated.
  - rewrite Rabs_R0. lra.
  - rewrite Rabs_R0. lra.
  - lra.
Defined.

Lemma ground_cases_column (px py pz b : R) :
  exists qy wy,
    0.5 <= qy /\
    groundPosition (pt px py pz) = pt px qy pz /\
    groundVelocity (pt px py pz) (pt 0 b 0) = pt 0 wy 0.
Proof.
  unfold groundPosition, groundVelocity, groundContact, pt. js_eval.
  unfold Rltb. destruct (Rlt_dec py 0.5).
  - exists 0.5, 0. repeat split; try lra. f_equal; f_equal; lra.
  - exists py, b. repeat split; lra.
Qed.

Lemma column_scan world (d py vy t : R) c l :
  Forall wellPlaced world ->
  obstacleScan world
    (frameCheckPoints noKeys (Num d)
       (mkRefs (pt 0 py 0) (pt 0 vy 0) level (Num t) c l)) = false.
Proof.
  intros Hw. unfold frameCheckPoints, nextPosition.
  rewrite frameQuat_level, candidate_level by reflexivity.
  destruct (ground_cases_column (0 + 0 * 0.98 * d)
              (py + (vy + (t * 65 - 25) * d) * 0.98 * d) (0 + 0 * 0.98 * d) 0)
    as (qy & _ & _ & -> & _).
  unfold pt at 1 2. rewrite propPoints_level.
  unfold obstacleScan, checkPoints, DRONE_RADIUS, PROP_COLLISION_RADIUS.
  apply existsb_false. intros ob Hob. rewrite Forall_forall in Hw.
  pose proof (Hw ob Hob) as Hwp.
  cbn [map existsb].
  rewrite !(fun x y z r Hx Hz Hr => clear_zone ob x y z r Hwp Hx Hz Hr : obstacleHit ob (Vector3.mk (Num x) (Num y) (Num z), Num r) = false);
    try reflexivity; try lra;
    unfold Rabs; destruct (Rcase_abs _); lra.
Qed.

Lemma spawn_step world f s :
  Forall wellPlaced world -> idleIn world f -> spawnColumn s ->
  spawnColumn (fst (step f s)).
Proof.
  intros Hw (Hk & Ho & Hd) (py & vy & t & l & ->).
  unfold step, useFrame. rewrite Hk, Ho.
  destruct (droneRef f); cbn [negb fst]; [|now exists py, vy, t, l].
  destruct (delta f) as [|d]; [discriminate Hd|].
  unfold frameWith. rewrite nanGuard_finite by reflexivity.
  cbn [isCrashed]. rewrite clampDelta_Num.
  assert (Hc : frameCollision noKeys world (Num (Rmin d 0.1))
                 (mkRefs (pt 0 py 0) (pt 0 vy 0) level (Num t) false l) = false).
  { rewrite level_noKeys_collision. now apply column_scan. }
  destruct (flyingFrame_commit noKeys world (objectivePosition f) (Num (Rmin d 0.1))
              (now f) (mkRefs (pt 0 py 0) (pt 0 vy 0) level (Num t) false l)
              eq_refl Hc) as (l' & E & _).
  rewrite E. unfold nextPosition, contactVelocity.
  rewrite candidate_level, frameVelocity_level.
  rewrite rotationAfterInputs_level, groundRotation_level by reflexivity.
  replace (0 * 0.98) with 0 by lra.
  replace (0 + 0 * Rmin d 0.1) with 0 by lra.
  destruct (ground_cases_column 0
              (py + (vy + (t * 65 - 25) * Rmin d 0.1) * 0.98 * Rmin d 0.1) 0
              ((vy + (t * 65 - 25) * Rmin d 0.1) * 0.98))
    as (qy & wy & _ & -> & ->).
  rewrite throttleAfterInputs_noKeys. cbn [throttle].
  now exists qy, wy, t, l'.
Qed.

(** An untouched drone is safe at the spawn point.  In a world generated
    from random numbers in [0, 1), a drone that starts level over the origin
    with no horizontal speed (as the component initialises it) and receives
    frames with no key held and numeric elapsed times never crashes: it
    stays level over the origin, whatever its altitude and vertical speed. *)
Theorem untouched_drone_stays_safe random fs s :
  unitRandom random ->
  Forall (idleIn (generateObstacles random)) fs ->
  spawnColumn s ->
  isCrashed (fst (run fs s)) = false /\ spawnColumn (fst (run fs s)).
Proof.
  intros Hr Hfs Hs.
  pose proof (generateObstacles_wellPlaced random Hr) as Hw.
  assert (H : spawnColumn (fst (run fs s))).
  { revert s Hs. induction Hfs as [|f fs Hf Hfs IH]; intros s Hs; [exact Hs|].
    rewrite run_cons. apply IH. now apply (spawn_step (generateObstacles random)). }
  split; [|exact H]. destruct H as (py & vy & t & l & ->). reflexivity.
Qed.

Lemma untouched_drone_stays_safe_witness :
  isCrashed (fst (run [mkFrame true noKeys (generateObstacles (constRandom 0.9)) None
                               (Num 1) (Num 0.1)] initialRefs)) = false /\
  spawnColumn (fst (run [mkFrame true noKeys (generateObstacles (constRandom 0.9)) None
                                 (Num 1) (Num 0.1)] initialRefs)).
Proof.
  apply (untouched_drone_stays_safe (constRandom 0.9)).
  - intros k. unfold constRandom. lra.
  - constructor; [|constructor]. repeat split.
  - exists 2, 0, 0, (Num 0). reflexivity.
Defined.

(* ================================================================= *)
(** ** Starting a mission *)

Lemma random_index (r : R) (n : nat) :
  0 <= r < 1 -> (0 < n)%nat ->
  (0 <= Int_part (r * INR n))%Z /\ (Z.to_nat (Int_part (r * INR n)) < n)%nat.
Proof.
  intros Hr Hn.
  assert (Hpos : 0 < INR n) by (apply lt_0_INR; exact Hn).
  destruct (base_Int_part (r * INR n)) as (Hle & Hgt).
  assert (H0 : 0 <= r * INR n) by (apply Rmult_le_pos; lra).
  assert (H1 : r * INR n < INR n).
  { replace (INR n) with (1 * INR n) at 2 by lra.
    apply Rmult_lt_compat_r; lra. }
  assert (Hk0 : (0 <= Int_part (r * INR n))%Z).
  { assert (Hm : (-1 < Int_part (r * INR n))%Z) by (apply lt_IZR; lra). lia. }
  split; [exact Hk0|].
  assert (Hkn : (Int_part (r * INR n) < Z.of_nat n)%Z).
  { apply lt_IZR. rewrite <- INR_IZR_INZ. lra. }
  lia.
Qed.

(** Starting a mission picks an obstacle of the world.  For a random number
    in [0, 1), [handleMissionStart] fails (reading a property of [undefined])
    exactly when the world has no obstacle; otherwise it sets the objective
    5 above the top face height of an obstacle of the world, at that
    obstacle's horizontal position, makes the mission the active one, clears
    [missionComplete] and leaves the drone statistics alone. *)
Theorem mission_start_picks_obstacle (r : R) obstacles mission a :
  0 <= r < 1 ->
  (handleMissionStart r obstacles mission a = None <-> obstacles = []) /\
  (forall a', handleMissionStart r obstacles mission a = Some a' ->
     exists ob, In ob obstacles /\
       objectivePos a'
       = Some (at0 (Obstacle.position ob), (at1 (Obstacle.size ob) + Num 5)%js,
               at2 (Obstacle.position ob)) /\
       activeMission a' = Some mission /\
       missionComplete a' = false /\
       droneStats a' = droneStats a).
Proof.
  intros Hr. unfold handleMissionStart, arrayAt.
  destruct obstacles as [|o os].
  - cbn [List.length INR]. rewrite Rmult_0_r.
    replace (Int_part 0) with 0%Z.
    2:{ symmetry. destruct (base_Int_part 0) as (Hle & Hgt).
        assert ((Int_part 0 < 1)%Z) by (apply lt_IZR; lra).
        assert ((-1 < Int_part 0)%Z) by (apply lt_IZR; lra). lia. }
    cbn. split; [tauto|]. intros a' H. discriminate H.
  - destruct (random_index r (List.length (o :: os)) Hr) as (Hk0 & Hkn);
      [cbn [List.length]; lia|].
    destruct (Z.ltb_spec (Int_part (r * INR (List.length (o :: os)))) 0) as [Hneg|_];
      [lia|].
    destruct (nth_error (o :: os) (Z.to_nat (Int_part (r * INR (List.length (o :: os))))))
      as [ob|] eqn:E.
    + split; [split; intros H; discriminate H|].
      intros a' H. injection H as <-. exists ob. split.
      * eapply nth_error_In. exact E.
      * cbn [objectivePos activeMission missionComplete droneStats]. now repeat split.
    + apply nth_error_None in E. lia.
Qed.

Lemma mission_start_picks_obstacle_witness :
  (handleMissionStart 0.5 [oak] (Mission.mk "m1" "b" "o" Easy None) initialApp = None
   <-> [oak] = []) /\
  (forall a', handleMissionStart 0.5 [oak] (Mission.mk "m1" "b" "o" Easy None) initialApp
              = Some a' ->
     exists ob, In ob [oak] /\
       objectivePos a'
       = Some (at0 (Obstacle.position ob), (at1 (Obstacle.size ob) + Num 5)%js,
               at2 (Obstacle.position ob)) /\
       activeMission a' = Some (Mission.mk "m1" "b" "o" Easy None) /\
       missionComplete a' = false /\
       droneStats a' = droneStats initialApp).
Proof.
  apply mission_start_picks_obstacle. lra.
Defined.

Lemma sq_lt_16 (a : R) : a * a < 16 -> -4 < a < 4.
Proof.
  intros H. split.
  - destruct (Rle_lt_dec a (-4)) as [Hle|Hlt]; [|exact Hlt].
    pose proof (Rmult_le_compat 4 (- a) 4 (- a)). lra.
  - destruct (Rle_lt_dec 4 a) as [Hle|Hlt]; [|exact Hlt].
    pose proof (Rmult_le_compat 4 a 4 a). lra.
Qed.

(** The objective hangs clear of the obstacle it marks.  For an obstacle
    that follows the placement rules, with the objective 5 above its height
    at its horizontal position, every point closer than 4.0 to the objective
    (where the frame would signal) is clear of that obstacle for any
    collision radius up to 0.5. *)
Theorem objective_clear_of_its_obstacle ob (ox oy oz w h d px py pz r : R) :
  wellPlaced ob ->
  Obstacle.position ob = (Num ox, Num oy, Num oz) ->
  Obstacle.size ob = (Num w, Num h, Num d) ->
  (px - ox) * (px - ox) + (py - (h + 5)) * (py - (h + 5)) + (pz - oz) * (pz - oz) < 16 ->
  r <= 0.5 ->
  signalsAt (Some (Num ox, (Num h + Num 5)%js, Num oz)) (pt px py pz) = 1%nat /\
  obstacleHit ob (pt px py pz, Num r) = false.
Proof.
  intros (ox' & oy' & oz' & w' & h' & d' & Hp & Hs & Hrules) Hp' Hs' Hdist Hr.
  rewrite Hp in Hp'. rewrite Hs in Hs'.
  injection Hp' as -> -> ->. injection Hs' as -> -> ->.
  split; [apply (signalsAt_near ox (h + 5) oz); exact Hdist|].
  assert (Hy : -4 < py - (h + 5) < 4).
  { apply sq_lt_16. pose proof (Rle_0_sqr (px - ox)). pose proof (Rle_0_sqr (pz - oz)).
    unfold Rsqr in *. lra. }
  destruct ob as [ty pos size]. cbn [Obstacle.position Obstacle.size Obstacle.type] in *.
  subst pos size. unfold obstacleHit. cbn [Obstacle.type fst snd].
  destruct ty.
  - destruct (buildingHit _ _ _) eqn:E; [|reflexivity]. exfalso.
    apply (buildingHit_spec ox oy oz w h d px py pz r) in E.
    destruct Hrules as (_ & _ & _ & Hoy & _ & Hh & _).
    destruct E as (_ & Ey & _). revert Ey. unfold Rabs.
    destruct (Rcase_abs _); lra.
  - destruct (treeHit _ _ _) eqn:E; [|reflexivity]. exfalso.
    apply (treeHit_spec ox oy oz w h d px py pz r) in E.
    destruct E as (_ & E). lra.
Qed.

Lemma objective_clear_of_its_obstacle_witness :
  signalsAt (Some (Num 20, (Num 4 + Num 5)%js, Num 0)) (pt 20 8 0) = 1%nat /\
  obstacleHit (treeAt 20 0 0 1.5 4 1.5) (pt 20 8 0, Num 0.5) = false.
Proof.
  apply (objective_clear_of_its_obstacle (treeAt 20 0 0 1.5 4 1.5) 20 0 0 1.5 4 1.5).
  - exists 20, 0, 0, 1.5, 4, 1.5. cbn.
    split; [reflexivity|]. split; [reflexivity|].
    repeat split; try lra; unfold Rabs; destruct (Rcase_abs _); lra.
  - reflexivity.
  - reflexivity.
  - lra.
  - lra.
Defined.

(* ================================================================= *)
(** ** Numbers stay numbers *)

Lemma isNumber_inv a : isNumber a -> exists r, a = Num r.
Proof. destruct a as [|r]; [discriminate|]. now exists r. Qed.

Lemma numericVector_inv v :
  numericVector v -> exists a b c, v = pt a b c.
Proof.
  destruct v as [x y z]. intros (Hx & Hy & Hz). cbn in Hx, Hy, Hz.
  destruct (isNumber_inv _ Hx) as (a & ->). destruct (isNumber_inv _ Hy) as (b & ->).
  destruct (isNumber_inv _ Hz) as (c & ->). now exists a, b, c.
Qed.

Lemma numericEuler_inv e :
  numericEuler e -> exists a b c, e = Euler.mk (Num a) (Num b) (Num c).
Proof.
  destruct e as [x y z]. intros (Hx & Hy & Hz). cbn in Hx, Hy, Hz.
  destruct (isNumber_inv _ Hx) as (a & ->). destruct (isNumber_inv _ Hy) as (b & ->).
  destruct (isNumber_inv _ Hz) as (c & ->). now exists a, b, c.
Qed.

Lemma numericVector_pt a b c : numericVector (pt a b c).
Proof. repeat split. Qed.

Lemma throttleAfterInputs_numeric keys (d : R) s :
  isNumber (throttle s) -> isNumber (throttleAfterInputs keys (Num d) s).
Proof.
  intros H. destruct (isNumber_inv _ H) as (t & E).
  unfold throttleAfterInputs, takeoffAssist, throttleInput. rewrite E.
  repeat case_if; reflexivity.
Qed.

Lemma rotationAfterInputs_numeric keys (d : R) s :
  numericEuler (rotation s) -> numericEuler (rotationAfterInputs keys (Num d) s).
Proof.
  intros H. destruct (numericEuler_inv _ H) as (a & b & c & E).
  unfold rotationAfterInputs, yawInput, targetPitch, targetRoll. rewrite E.
  repeat split; cbn [Euler.x Euler.y Euler.z]; repeat case_if; reflexivity.
Qed.

Lemma setFromEuler_numeric (a b c : R) :
  exists qx qy qz qw,
    Quaternion.setFromEuler (Euler.mk (Num a) (Num b) (Num c))
    = Quaternion.mk (Num qx) (Num qy) (Num qz) (Num qw).
Proof. do 4 eexists. reflexivity. Qed.

Lemma applyQuaternion_numeric (x y z qx qy qz qw : R) :
  exists a b c,
    Vector3.applyQuaternion (pt x y z) (Quaternion.mk (Num qx) (Num qy) (Num qz) (Num qw))
    = pt a b c.
Proof. do 3 eexists. reflexivity. Qed.

Lemma frameVelocity_numeric keys (d : R) s :
  numericEuler (rotation s) -> isNumber (throttle s) -> numericVector (velocity s) ->
  numericVector (frameVelocity keys (Num d) s).
Proof.
  intros Hr Ht Hv.
  destruct (numericEuler_inv _ (rotationAfterInputs_numeric keys d s Hr)) as (a & b & c & E).
  destruct (isNumber_inv _ (throttleAfterInputs_numeric keys d s Ht)) as (t & Et).
  destruct (numericVector_inv _ Hv) as (vx & vy & vz & Ev).
  unfold frameVelocity, frameQuat. rewrite E, Et, Ev.
  repeat split.
Qed.

Lemma candidate_numeric keys (d : R) s :
  numericEuler (rotation s) -> isNumber (throttle s) -> numericVector (velocity s) ->
  numericVector (position s) ->
  numericVector (candidate keys (Num d) s).
Proof.
  intros Hr Ht Hv Hp.
  destruct (numericVector_inv _ (frameVelocity_numeric keys d s Hr Ht Hv)) as (a & b & c & E).
  destruct (numericVector_inv _ Hp) as (x & y & z & Ep).
  unfold candidate. rewrite E, Ep. repeat split.
Qed.

Lemma groundPosition_numeric next :
  numericVector next -> numericVector (groundPosition next).
Proof.
  intros H. destruct (numericVector_inv _ H) as (a & b & c & ->).
  unfold groundPosition. case_if; repeat split.
Qed.

Lemma groundVelocity_numeric next v :
  numericVector v -> numericVector (groundVelocity next v).
Proof.
  intros H. destruct (numericVector_inv _ H) as (a & b & c & ->).
  unfold groundVelocity. case_if; repeat split.
Qed.

Lemma groundRotation_numeric keys (d : R) next r :
  numericEuler r -> numericEuler (groundRotation keys (Num d) next r).
Proof.
  intros H. destruct (numericEuler_inv _ H) as (a & b & c & ->).
  unfold groundRotation. case_if; repeat split.
Qed.

(** The pushback divides by the length of the velocity only when the
    squared length exceeds 0.1, and the root is taken of a sum of squares. *)
Lemma pushback_numeric p v :
  numericVector p -> numericVector v -> numericVector (pushback p v).
Proof.
  intros Hp Hv. destruct (numericVector_inv _ Hp) as (x & y & z & ->).
  destruct (numericVector_inv _ Hv) as (a & b & c & ->).
  unfold pushback. case_if; [|repeat split].
  unfold Vector3.normalize, Vector3.divideScalar, Vector3.length, Math.sqrt, pt.
  cbv [Vector3.lengthSq Vector3.x Vector3.y Vector3.z nadd nmul lift2].
  destruct (Rlt_dec (a * a + b * b + c * c) 0) as [Hneg|_].
  { pose proof (Rle_0_sqr a). pose proof (Rle_0_sqr b). pose proof (Rle_0_sqr c).
    unfold Rsqr in *. lra. }
  unfold nor, truthy. case_if; repeat split.
Qed.

Lemma crashedFrame_numeric (d : R) now s :
  numericState s -> numericState (fst (crashedFrame (Num d) now s)).
Proof.
  intros (Hp & Hv & Hr & Ht).
  destruct (numericVector_inv _ Hp) as (x & y & z & Ep).
  destruct (numericVector_inv _ Hv) as (a & b & c & Ev).
  unfold crashedFrame. rewrite Ep, Ev.
  cbv [pt Vector3.add Vector3.multiplyScalar Vector3.x Vector3.y Vector3.z
       GRAVITY nadd nsub nmul lift2 nlt].
  destruct Hr as (Hr1 & Hr2 & Hr3).
  repeat case_if; cbn [fst]; repeat split; first [assumption | reflexivity].
Qed.

Lemma flyingFrame_numeric keys obstacles objective (d : R) now s :
  isCrashed s = false -> numericState s ->
  numericState (fst (flyingFrame keys obstacles objective (Num d) now s)).
Proof.
  intros Hs (Hp & Hv & Hr & Ht).
  pose proof (throttleAfterInputs_numeric keys d s Ht) as Ht'.
  pose proof (groundRotation_numeric keys d (candidate keys (Num d) s) _
                (rotationAfterInputs_numeric keys d s Hr)) as Hr'.
  pose proof (groundVelocity_numeric (candidate keys (Num d) s) _
                (frameVelocity_numeric keys d s Hr Ht Hv)) as Hv'.
  fold (contactVelocity keys (Num d) s) in Hv'.
  destruct (frameCollision keys obstacles (Num d) s) eqn:Hc.
  - rewrite flyingFrame_crash by assumption.
    split; [apply pushback_numeric; assumption|].
    split; [apply numericVector_pt|]. split; assumption.
  - rewrite flyingFrame_commit_full by assumption. cbn [fst].
    split; [apply groundPosition_numeric; now apply candidate_numeric|].
    split; [exact Hv'|]. split; assumption.
Qed.

Lemma useFrame_numeric keys obstacles objective now (d : R) s :
  numericState (nanGuard s) ->
  numericState (fst (useFrame true keys obstacles objective now (Num d) s)).
Proof.
  intros H. unfold useFrame, frameWith. cbn [negb]. rewrite clampDelta_Num.
  destruct (isCrashed (nanGuard s)) eqn:Hc.
  - now apply crashedFrame_numeric.
  - now apply flyingFrame_numeric.
Qed.

Lemma nanGuard_numeric s : numericState s -> nanGuard s = s.
Proof.
  intros ((Hx & _) & (Hv & _) & _). destruct s as [p v r t c l].
  unfold nanGuard. cbn [position velocity] in *.
  unfold isNumber in Hx, Hv. now rewrite Hx, Hv.
Qed.

Lemma step_numeric f s : timed f -> numericState s -> numericState (fst (step f s)).
Proof.
  intros Hf Hs. unfold step, timed in *.
  destruct (droneRef f).
  - destruct (delta f) as [|d]; [discriminate Hf|].
    apply useFrame_numeric. now rewrite nanGuard_numeric.
  - exact Hs.
Qed.

(** No frame makes a NaN out of numbers.  If, after the NaN guard has
    replaced a position or velocity whose x component is NaN, the position,
    velocity, rotation and throttle are numbers, then a frame with a numeric
    elapsed time leaves them numbers, whatever the keys, the obstacles and
    the branch taken: the pushback never divides by a zero length and no
    root is taken of a negative number.  So a session that starts from
    numbers and receives numeric elapsed times holds numbers throughout. *)
Theorem numbers_stay_numbers :
  (forall keys obstacles objective now (d : R) s,
      numericState (nanGuard s) ->
      numericState (fst (useFrame true keys obstacles objective now (Num d) s))) /\
  (forall fs s,
      Forall timed fs -> numericState s -> numericState (fst (run fs s))).
Proof.
  split; [exact useFrame_numeric|].
  intros fs s Hfs. revert s. induction Hfs as [|f fs Hf Hfs IH]; intros s Hs; [exact Hs|].
  rewrite run_cons. apply IH. now apply step_numeric.
Qed.

Lemma numbers_stay_numbers_witness :
  numericState (fst (useFrame true noKeys [] None (Num 1) (Num 0.1) lostFix)) /\
  numericState (fst (run [towerFrame] initialRefs)).
Proof.
  split.
  - apply (proj1 numbers_stay_numbers). repeat split.
  - apply (proj2 numbers_stay_numbers).
    + constructor; [reflexivity|constructor].
    + repeat split.
Defined.

(* ================================================================= *)
(** ** The attitude is a rotation *)

Lemma setFromEuler_unit (a b c : R) :
  exists qx qy qz qw,
    Quaternion.setFromEuler (Euler.mk (Num a) (Num b) (Num c))
    = Quaternion.mk (Num qx) (Num qy) (Num qz) (Num qw) /\
    qx * qx + qy * qy + qz * qz + qw * qw = 1.
Proof.
  do 4 eexists. split; [reflexivity|].
  pose proof (sin2_cos2 (a / 2)) as H1. pose proof (sin2_cos2 (b / 2)) as H2.
  pose proof (sin2_cos2 (c / 2)) as H3. unfold Rsqr in *.
  set (s1 := sin (a / 2)) in *. set (c1 := cos (a / 2)) in *.
  set (s2 := sin (b / 2)) in *. set (c2 := cos (b / 2)) in *.
  set (s3 := sin (c / 2)) in *. set (c3 := cos (c / 2)) in *.
  clearbody s1 c1 s2 c2 s3 c3. nsatz.
Qed.

(** Applying a unit quaternion keeps the length of a vector. *)
Lemma applyQuaternion_norm (qx qy qz qw x y z : R) :
  qx * qx + qy * qy + qz * qz + qw * qw = 1 ->
  exists a b c,
    Vector3.applyQuaternion (pt x y z) (Quaternion.mk (Num qx) (Num qy) (Num qz) (Num qw))
    = pt a b c /\
    a * a + b * b + c * c = x * x + y * y + z * z.
Proof.
  intros Hq. do 3 eexists. split; [reflexivity|]. nsatz.
Qed.

Lemma prop_point_rigid (qx qy qz qw ox oy oz x y z : R) :
  qx * qx + qy * qy + qz * qz + qw * qw = 1 ->
  exists px py pz,
    Vector3.add
      (Vector3.applyQuaternion (pt ox oy oz)
         (Quaternion.mk (Num qx) (Num qy) (Num qz) (Num qw)))
      (pt x y z)
    = pt px py pz /\
    (px - x) * (px - x) + (py - y) * (py - y) + (pz - z) * (pz - z)
    = ox * ox + oy * oy + oz * oz.
Proof.
  intros Hq.
  destruct (applyQuaternion_norm qx qy qz qw ox oy oz Hq) as (a & b & c & E & Hn).
  rewrite E. exists (a + x), (b + y), (c + z). split; [reflexivity|].
  rewrite <- Hn. ring.
Qed.

(** The four propeller points of a numeric attitude and centre, with their
    squared distance to the centre. *)
Lemma propPoints_rigid (a b c x y z : R) :
  Forall (fun p => exists px py pz,
              p = pt px py pz /\
              (px - x) * (px - x) + (py - y) * (py - y) + (pz - z) * (pz - z) = 1.28)
         (propPoints (Quaternion.setFromEuler (Euler.mk (Num a) (Num b) (Num c)))
                     (pt x y z)).
Proof.
  destruct (setFromEuler_unit a b c) as (qx & qy & qz & qw & E & Hq). rewrite E.
  unfold propPoints, PROP_OFFSETS. cbn [map].
  repeat constructor.
  - destruct (prop_point_rigid qx qy qz qw 0.8 0 0.8 x y z Hq) as (px & py & pz & Ep & Hn).
    exists px, py, pz. split; [exact Ep|lra].
  - destruct (prop_point_rigid qx qy qz qw (-0.8) 0 0.8 x y z Hq) as (px & py & pz & Ep & Hn).
    exists px, py, pz. split; [exact Ep|lra].
  - destruct (prop_point_rigid qx qy qz qw 0.8 0 (-0.8) x y z Hq) as (px & py & pz & Ep & Hn).
    exists px, py, pz. split; [exact Ep|lra].
  - destruct (prop_point_rigid qx qy qz qw (-0.8) 0 (-0.8) x y z Hq) as (px & py & pz & Ep & Hn).
    exists px, py, pz. split; [exact Ep|lra].
Qed.

(** The propellers are rigidly mounted.  Whatever the attitude, each of the
    four propeller collision points lies at squared distance 1.28 from the
    centre of the drone (the arm length 0.8 on two axes), so at a distance
    below 1.14. *)
Theorem propellers_rigid (a b c x y z : R) :
  Forall (fun p => Vector3.distanceToSquared p (pt x y z) = Num 1.28)
         (propPoints (Quaternion.setFromEuler (Euler.mk (Num a) (Num b) (Num c)))
                     (pt x y z)) /\
  List.length (propPoints (Quaternion.setFromEuler (Euler.mk (Num a) (Num b) (Num c)))
                          (pt x y z)) = 4%nat.
Proof.
  split; [|reflexivity].
  eapply Forall_impl; [|apply propPoints_rigid].
  intros p (px & py & pz & -> & Hn).
  unfold Vector3.distanceToSquared, pt. js_eval. f_equal. exact Hn.
Qed.

Lemma sq_le_128 (u : R) : u * u <= 1.28 -> -1.14 < u.
Proof.
  intros H. destruct (Rle_lt_dec u (-1.14)) as [Hle|Hlt]; [|exact Hlt].
  pose proof (Rmult_le_compat 1.14 (- u) 1.14 (- u)). lra.
Qed.

Lemma propGroundHit_above (a b c x y z : R) :
  1.24 <= y ->
  propGroundHit (propPoints (Quaternion.setFromEuler (Euler.mk (Num a) (Num b) (Num c)))
                            (pt x y z)) = false.
Proof.
  intros Hy. unfold propGroundHit. apply existsb_false. intros p Hp.
  pose proof (propPoints_rigid a b c x y z) as Hall. rewrite Forall_forall in Hall.
  destruct (Hall p Hp) as (px & py & pz & -> & Hn).
  cbn [pt Vector3.y nlt]. apply Rltb_false.
  assert (H : -1.14 < py - y).
  { apply sq_le_128. pose proof (Rle_0_sqr (px - x)). pose proof (Rle_0_sqr (pz - z)).
    unfold Rsqr in *. lra. }
  lra.
Qed.

(** The ground cannot crash a drone above 1.24.  When a flying frame with a
    numeric attitude puts the centre at an altitude of at least 1.24, no
    propeller is below the ground threshold, whatever the attitude: the frame
    ends crashed exactly when one of the five collision points hits an
    obstacle. *)
Theorem ground_cannot_crash_above keys obstacles objective now (d x y z : R) s :
  isCrashed s = false ->
  numericEuler (rotation s) ->
  nextPosition keys (clampDelta (Num d)) (nanGuard s) = pt x y z ->
  1.24 <= y ->
  isCrashed (fst (useFrame true keys obstacles objective now (Num d) s))
  = obstacleScan obstacles (frameCheckPoints keys (clampDelta (Num d)) (nanGuard s)).
Proof.
  intros Hs Hr Hn Hy.
  rewrite useFrame_flying, flyingFrame_isCrashed
    by (try rewrite nanGuard_isCrashed; assumption).
  rewrite frameCollision_eq. unfold detectCollision, frameCheckPoints. cbn [negb].
  rewrite Hn. unfold frameQuat. rewrite clampDelta_Num.
  assert (Hr' : numericEuler (rotation (nanGuard s))) by exact Hr.
  destruct (numericEuler_inv _ (rotationAfterInputs_numeric keys (Rmin d 0.1) _ Hr'))
    as (a & b & c & ->).
  now rewrite propGroundHit_above.
Qed.

Lemma ground_cannot_crash_above_witness :
  isCrashed (fst (useFrame true noKeys [] None (Num 1) (Num 0)
                    (numericRefs 0 5 0 0 0 0 0.3 0 0.2 0 false (Num 0))))
  = obstacleScan [] (frameCheckPoints noKeys (clampDelta (Num 0))
                       (nanGuard (numericRefs 0 5 0 0 0 0 0.3 0 0.2 0 false (Num 0)))).
Proof.
  apply (ground_cannot_crash_above noKeys [] None (Num 1) 0 (0 + 0 * Rmin 0 0.1) (5 + 0 * Rmin 0 0.1)
           (0 + 0 * Rmin 0 0.1)).
  - reflexivity.
  - repeat split.
  - rewrite nanGuard_finite, clampDelta_Num by reflexivity.
    unfold nextPosition.
    assert (E : candidate noKeys (Num (Rmin 0 0.1))
                  (numericRefs 0 5 0 0 0 0 0.3 0 0.2 0 false (Num 0))
                = pt (0 + 0 * Rmin 0 0.1) (5 + 0 * Rmin 0 0.1) (0 + 0 * Rmin 0 0.1)).
    { unfold candidate, frameVelocity, integrateVelocity, predictPosition,
        frameQuat, numericRefs, pt.
      rewrite throttleAfterInputs_noKeys.
      destruct (setFromEuler_numeric 0.3 0 0.2) as (qx & qy & qz & qw & Eq).
      unfold rotationAfterInputs, yawInput, targetPitch, targetRoll, noKeys.
      js_eval. cbn [orb].
      match goal with
      | |- context [Quaternion.setFromEuler ?e] =>
          destruct (Quaternion.setFromEuler e) as [[|q1] [|q2] [|q3] [|q4]] eqn:Eqq;
            try discriminate Eqq
      end.
      js_eval. unfold Rmin. destruct (Rle_dec 0 0.1); [|lra].
      f_equal; f_equal; lra. }
    rewrite E. apply groundPosition_air. unfold Rmin. destruct (Rle_dec 0 0.1); lra.
  - unfold Rmin. destruct (Rle_dec 0 0.1); lra.
Defined.

(* ================================================================= *)
(** ** The speed in flight *)

Lemma sq_le_1 (u : R) : u * u <= 1 -> -1 <= u <= 1.
Proof.
  intros H. split.
  - destruct (Rle_lt_dec (-1) u) as [Hle|Hlt]; [exact Hle|].
    pose proof (Rmult_le_compat 1 (- u) 1 (- u)).
    destruct (Req_dec (u * u) 1); [|lra].
    pose proof (Rmult_lt_compat_l (- u) 1 (- u)). lra.
  - destruct (Rle_lt_dec u 1) as [Hle|Hlt]; [exact Hle|].
    pose proof (Rmult_lt_compat_l u 1 u). lra.
Qed.

(** The thrust direction of a unit quaternion has components in [-1, 1]. *)
Lemma upVector_bounds (qx qy qz qw : R) :
  qx * qx + qy * qy + qz * qz + qw * qw = 1 ->
  exists ux uy uz,
    Vector3.applyQuaternion (Vector3.mk (Num 0) (Num 1) (Num 0))
      (Quaternion.mk (Num qx) (Num qy) (Num qz) (Num qw))
    = pt ux uy uz /\
    -1 <= ux <= 1 /\ -1 <= uy <= 1 /\ -1 <= uz <= 1.
Proof.
  intros Hq.
  destruct (applyQuaternion_norm qx qy qz qw 0 1 0 Hq) as (a & b & c & E & Hn).
  exists a, b, c. split; [exact E|].
  pose proof (Rle_0_sqr a). pose proof (Rle_0_sqr b). pose proof (Rle_0_sqr c).
  unfold Rsqr in *. repeat split; apply sq_le_1; lra.
Qed.

Lemma integrateVelocity_bounded (qx qy qz qw t d vx vy vz : R) :
  qx * qx + qy * qy + qz * qz + qw * qw = 1 ->
  0 <= t <= 1 -> 0 <= d <= 0.1 ->
  boundedSpeed (pt vx vy vz) ->
  boundedSpeed (integrateVelocity (Quaternion.mk (Num qx) (Num qy) (Num qz) (Num qw))
                  (Num t) (Num d) (pt vx vy vz)).
Proof.
  intros Hq Ht Hd (Hx & Hy & Hz). cbn [pt Vector3.x Vector3.y Vector3.z inSpeed] in Hx, Hy, Hz.
  destruct (upVector_bounds qx qy qz qw Hq) as (ux & uy & uz & E & Hux & Huy & Huz).
  unfold integrateVelocity. rewrite E. unfold boundedSpeed, pt. js_eval.
  cbn [inSpeed Vector3.x Vector3.y Vector3.z].
  pose proof (Rmult_le_pos t d ltac:(lra) ltac:(lra)) as Hm0.
  pose proof (Rmult_le_pos (1 - t) d ltac:(lra) ltac:(lra)) as Hm1.
  pose proof (Rmult_le_pos (1 - ux) (t * d) ltac:(lra) Hm0).
  pose proof (Rmult_le_pos (1 + ux) (t * d) ltac:(lra) Hm0).
  pose proof (Rmult_le_pos (1 - uy) (t * d) ltac:(lra) Hm0).
  pose proof (Rmult_le_pos (1 + uy) (t * d) ltac:(lra) Hm0).
  pose proof (Rmult_le_pos (1 - uz) (t * d) ltac:(lra) Hm0).
  pose proof (Rmult_le_pos (1 + uz) (t * d) ltac:(lra) Hm0).
  repeat split; lra.
Qed.

Lemma groundVelocity_bounded next v :
  boundedSpeed v -> boundedSpeed (groundVelocity next v).
Proof.
  intros (Hx & Hy & Hz). unfold groundVelocity. case_if; [|now repeat split].
  destruct v as [[|a] [|b] [|c]]; cbn in Hx, Hy, Hz; try contradiction.
  unfold boundedSpeed. js_eval. cbn [inSpeed]. repeat split; lra.
Qed.

Lemma throttleAfterInputs_inUnit keys (d : R) s :
  0 <= d <= 0.1 -> inUnit (throttle s) -> inUnit (throttleAfterInputs keys (Num d) s).
Proof.
  intros Hd Ht. unfold throttleAfterInputs.
  apply takeoffAssist_inUnit; [exact Hd|]. apply throttleInput_inUnit; [lra|exact Ht].
Qed.

Lemma frameVelocity_bounded keys (d : R) s :
  0 <= d <= 0.1 -> inUnit (throttle s) -> numericEuler (rotation s) ->
  boundedSpeed (velocity s) ->
  boundedSpeed (frameVelocity keys (Num d) s).
Proof.
  intros Hd Ht Hr Hv.
  pose proof (throttleAfterInputs_inUnit keys d s Hd Ht) as Ht'.
  destruct (throttleAfterInputs keys (Num d) s) as [|t] eqn:Et; [contradiction|].
  cbn [inUnit] in Ht'.
  destruct (numericEuler_inv _ (rotationAfterInputs_numeric keys d s Hr)) as (a & b & c & Er).
  destruct (setFromEuler_unit a b c) as (qx & qy & qz & qw & Eq & Hq).
  unfold frameVelocity, frameQuat. rewrite Et, Er, Eq.
  destruct (velocity s) as [[|vx] [|vy] [|vz]] eqn:Ev;
    try (destruct Hv as (Hx & Hy & Hz); cbn in Hx, Hy, Hz; contradiction).
  now apply (integrateVelocity_bounded qx qy qz qw t d vx vy vz).
Qed.

(** The speed in flight is bounded.  From a flying state with the throttle
    in [0, 1], a numeric attitude and every velocity component within 441, a
    frame with a non-negative elapsed time leaves every velocity component
    within 441, whatever the keys and the obstacles: the thrust and gravity
    add at most 9 per frame to a component and the drag takes 2 percent. *)
Theorem speed_bounded_in_flight keys obstacles objective now (d : R) s :
  isCrashed s = false ->
  0 <= d ->
  inUnit (throttle s) ->
  numericEuler (rotation s) ->
  boundedSpeed (velocity s) ->
  boundedSpeed (velocity (fst (useFrame true keys obstacles objective now (Num d) s))).
Proof.
  intros Hs Hd Ht Hr Hv.
  assert (Hg : velocity (nanGuard s) = velocity s).
  { unfold nanGuard. cbn [velocity]. destruct Hv as (Hx & _).
    destruct (Vector3.x (velocity s)); [contradiction|reflexivity]. }
  assert (Hd' : 0 <= Rmin d 0.1 <= 0.1) by (unfold Rmin; destruct (Rle_dec d 0.1); lra).
  rewrite useFrame_flying, clampDelta_Num by exact Hs.
  assert (Hs' : isCrashed (nanGuard s) = false) by now rewrite nanGuard_isCrashed.
  assert (Hfv : boundedSpeed (frameVelocity keys (Num (Rmin d 0.1)) (nanGuard s))).
  { apply frameVelocity_bounded; try assumption. now rewrite Hg. }
  destruct (frameCollision keys obstacles (Num (Rmin d 0.1)) (nanGuard s)) eqn:Hc.
  - rewrite flyingFrame_crash by assumption. cbn [velocity].
    unfold boundedSpeed. cbn [Vector3.x Vector3.y Vector3.z inSpeed]. lra.
  - rewrite flyingFrame_commit_full by assumption. cbn [fst velocity].
    unfold contactVelocity. now apply groundVelocity_bounded.
Qed.

Lemma speed_bounded_in_flight_witness :
  boundedSpeed (velocity (fst (useFrame true upKeys [tower] None (Num 1) (Num 0.05)
                                 drifting))).
Proof.
  apply speed_bounded_in_flight.
  - reflexivity.
  - lra.
  - cbn. lra.
  - repeat split.
  - unfold boundedSpeed. cbn. lra.
Defined.

(* ================================================================= *)
(** ** A flying drone is outside every obstacle *)

Lemma detectCollision_false_scan obstacles quat next :
  detectCollision obstacles quat next false = false ->
  obstacleScan obstacles (checkPoints next (propPoints quat next)) = false.
Proof.
  unfold detectCollision. cbn [negb].
  destruct (propGroundHit _); cbn [negb]; [discriminate|trivial].
Qed.

(** A frame never leaves a flying drone inside an obstacle.  When a frame
    ends flying, the centre of the drone at the position it wrote, with the
    body radius 0.5, hits no obstacle of the world the frame was given. *)
Theorem flying_position_clear keys obstacles objective now delta s ob :
  isCrashed (fst (useFrame true keys obstacles objective now delta s)) = false ->
  In ob obstacles ->
  obstacleHit ob
    (position (fst (useFrame true keys obstacles objective now delta s)), DRONE_RADIUS)
  = false.
Proof.
  intros Hpost Hin.
  destruct (isCrashed s) eqn:Hs.
  { rewrite useFrame_crashed_latch in Hpost by exact Hs. discriminate Hpost. }
  rewrite useFrame_flying in * by exact Hs.
  assert (Hg : isCrashed (nanGuard s) = false) by now rewrite nanGuard_isCrashed.
  rewrite flyingFrame_isCrashed in Hpost by exact Hg.
  rewrite flyingFrame_commit_full by assumption. cbn [fst position].
  rewrite frameCollision_eq in Hpost.
  apply detectCollision_false_scan in Hpost.
  unfold obstacleScan in Hpost.
  pose proof (existsb_false_inv _ _ Hpost ob Hin) as Hob. cbn beta in Hob.
  unfold checkPoints in Hob. cbn [existsb] in Hob.
  apply orb_false_iff in Hob. exact (proj1 Hob).
Qed.

Lemma flying_position_clear_witness :
  obstacleHit (treeAt 20 0 0 1.5 4 1.5)
    (position (fst (useFrame true noKeys [treeAt 20 0 0 1.5 4 1.5] None (Num 1) (Num 0.1)
                      initialRefs)), DRONE_RADIUS)
  = false.
Proof.
  apply flying_position_clear.
  - rewrite useFrame_flying, flyingFrame_isCrashed by reflexivity.
    rewrite nanGuard_finite, clampDelta_Num by reflexivity.
    change initialRefs with (mkRefs (pt 0 2 0) (pt 0 0 0) level (Num 0) false (Num 0)).
    rewrite level_noKeys_collision. apply column_scan.
    constructor; [|constructor].
    exists 20, 0, 0, 1.5, 4, 1.5. cbn.
    split; [reflexivity|]. split; [reflexivity|].
    repeat split; try lra; unfold Rabs; destruct (Rcase_abs _); lra.
  - now left.
Defined.

(* ================================================================= *)
(** ** The mission panel *)

(** Generating a mission either starts it or changes nothing.  For a random
    number in [0, 1), [handleGenerate] always ends with [loading] cleared;
    in a world with an obstacle the panel closes, the mission becomes the
    active one and [missionComplete] is cleared; in a world with no obstacle
    the error is swallowed, the panel keeps its state and the App state is
    untouched. *)
Theorem mission_generation_outcome (r : R) obstacles mission c a :
  0 <= r < 1 ->
  loading (fst (handleGenerate r obstacles mission c a)) = false /\
  (obstacles <> [] ->
   isOpen (fst (handleGenerate r obstacles mission c a)) = false /\
   activeMission (snd (handleGenerate r obstacles mission c a)) = Some mission /\
   missionComplete (snd (handleGenerate r obstacles mission c a)) = false) /\
  (obstacles = [] ->
   isOpen (fst (handleGenerate r obstacles mission c a)) = isOpen c /\
   snd (handleGenerate r obstacles mission c a) = a).
Proof.
  intros Hr. unfold handleGenerate, handleMissionStart, arrayAt.
  destruct obstacles as [|o os].
  - cbn [List.length INR]. rewrite Rmult_0_r.
    replace (Int_part 0) with 0%Z.
    2:{ symmetry. destruct (base_Int_part 0) as (Hle & Hgt).
        assert ((Int_part 0 < 1)%Z) by (apply lt_IZR; lra).
        assert ((-1 < Int_part 0)%Z) by (apply lt_IZR; lra). lia. }
    cbn. split; [reflexivity|]. split; [congruence|]. now split.
  - destruct (random_index r (List.length (o :: os)) Hr) as (Hk0 & Hkn);
      [cbn [List.length]; lia|].
    destruct (Z.ltb_spec (Int_part (r * INR (List.length (o :: os)))) 0) as [Hneg|_];
      [lia|].
    destruct (nth_error (o :: os) (Z.to_nat (Int_part (r * INR (List.length (o :: os))))))
      as [ob|] eqn:E.
    + cbn [fst snd loading isOpen activeMission missionComplete].
      split; [reflexivity|]. split; [now repeat split|]. intros H; discriminate H.
    + apply nth_error_None in E. lia.
Qed.

Lemma mission_generation_outcome_witness :
  loading (fst (handleGenerate 0.5 [oak] (Mission.mk "m1" "b" "o" Easy None)
                  (mkControl true true) initialApp)) = false /\
  isOpen (fst (handleGenerate 0.5 [oak] (Mission.mk "m1" "b" "o" Easy None)
                 (mkControl true true) initialApp)) = false /\
  activeMission (snd (handleGenerate 0.5 [oak] (Mission.mk "m1" "b" "o" Easy None)
                        (mkControl true true) initialApp))
  = Some (Mission.mk "m1" "b" "o" Easy None) /\
  missionComplete (snd (handleGenerate 0.5 [oak] (Mission.mk "m1" "b" "o" Easy None)
                          (mkControl true true) initialApp)) = false.
Proof.
  destruct (mission_generation_outcome 0.5 [oak] (Mission.mk "m1" "b" "o" Easy None)
              (mkControl true true) initialApp) as (H1 & H2 & _); [lra|].
  split; [exact H1|]. apply H2. discriminate.
Defined.

(* ================================================================= *)
(** ** The readout of the HUD *)

Lemma round_percent (t : R) :
  0 <= t <= 1 ->
  (0 <= Int_part (t * 100 + 0.5) <= 100)%Z /\
  -0.5 <= IZR (Int_part (t * 100 + 0.5)) - t * 100 <= 0.5.
Proof.
  intros Ht. destruct (base_Int_part (t * 100 + 0.5)) as (Hle & Hgt).
  assert ((-1 < Int_part (t * 100 + 0.5))%Z) by (apply lt_IZR; lra).
  assert ((Int_part (t * 100 + 0.5) < 101)%Z) by (apply lt_IZR; lra).
  split; [lia|lra].
Qed.

(** The flight display shows sound numbers.  For a snapshot that is not
    CRASHED, made of numbers and with the throttle in [0, 1], the HUD shows
    the flight display with: a speed that is a non-negative number, 3.6 times
    the length of the velocity; the altitude above the resting height 0.5;
    a thrust percentage that is a whole number from 0 to 100 within one half
    of a hundred times the throttle; and the throttle warning exactly when
    the throttle is below 0.35 and the altitude below 1.5. *)
Theorem hud_flight_readout st (x y z vx vy vz t : R) :
  DroneState.status st <> CRASHED ->
  DroneState.position st = pt x y z ->
  DroneState.velocity st = pt vx vy vz ->
  DroneState.throttle st = Num t ->
  0 <= t <= 1 ->
  exists speed k,
    HUD (Some st)
    = hudFlight (Num speed) (Num (y - 0.5)) (Num (IZR k))
                (Rltb t 0.35 && Rltb y 1.5) /\
    0 <= speed /\ speed * speed = 12.96 * (vx * vx + vy * vy + vz * vz) /\
    (0 <= k <= 100)%Z /\ -0.5 <= IZR k - t * 100 <= 0.5.
Proof.
  intros Hst Hp Hv Ht Hrange.
  set (u := vx ^ 2 + vy ^ 2 + vz ^ 2).
  assert (Hu : 0 <= u).
  { unfold u. pose proof (pow2_ge_0 vx). pose proof (pow2_ge_0 vy).
    pose proof (pow2_ge_0 vz). lra. }
  exists (sqrt u * 3.6), (Int_part (t * 100 + 0.5)).
  destruct (round_percent t Hrange) as (Hk & Herr).
  split; [|split; [|split; [|split]]]; try assumption.
  - unfold HUD. rewrite Hp, Hv, Ht.
    replace (Rltb y 1.5) with (Rltb (y - 0.5) 1.0).
    2:{ unfold Rltb. destruct (Rlt_dec (y - 0.5) 1.0), (Rlt_dec y 1.5);
          try reflexivity; lra. }
    unfold Math.sqrt, Math_round, pt. js_eval. fold u.
    destruct (Rlt_dec u 0) as [Hneg|_]; [lra|].
    destruct (DroneState.status st); try reflexivity. contradiction.
  - pose proof (sqrt_pos u). lra.
  - replace (sqrt u * 3.6 * (sqrt u * 3.6)) with (12.96 * (sqrt u * sqrt u)) by lra.
    rewrite sqrt_sqrt by exact Hu. unfold u. simpl pow. lra.
Qed.

Lemma hud_flight_readout_witness :
  exists speed k,
    HUD (Some lowSnapshot)
    = hudFlight (Num speed) (Num (1.2 - 0.5)) (Num (IZR k))
                (Rltb 0.3 0.35 && Rltb 1.2 1.5) /\
    0 <= speed /\ speed * speed = 12.96 * (3 * 3 + 0 * 0 + 4 * 4) /\
    (0 <= k <= 100)%Z /\ -0.5 <= IZR k - 0.3 * 100 <= 0.5.
Proof.
  apply (hud_flight_readout lowSnapshot 0 1.2 0 3 0 4 0.3).
  - discriminate.
  - reflexivity.
  - reflexivity.
  - reflexivity.
  - lra.
Defined.
